(** * AuraOS bridge: translation engine, provider gateway and interaction pipeline

    A shallow embedding of the Python modules

      - [bridge/translators/ai_command_translator.py]
      - [bridge/ai/ai_command_sender.py]
      - [bridge/ai/ai_layer_integration.py]

    together with the properties their specification states about them.

    Modelling conventions.
      - Python [str] is [string]; the text is taken to be ASCII, so that
        [str.lower], [str.upper] and [str.isspace] act on the ASCII letters
        and the ASCII white space only.
      - Python [float] is modelled by the exact rationals [Q]; the
        constants [0.1], [0.5], ... are the fractions they denote, sums are
        exact and so are the comparisons with the thresholds.  A double
        can differ from the rational in its last bit: [1.0 - 4 * 0.2] is
        the double next below one fifth, [0.5 + 0.2 + 0.1] the double
        next below four fifths.  The two places where this shows are the
        syntax score of a text with four issues and the comparison of a
        rule-based confidence [0.5 + 0.2 + 0.1] with the threshold [0.8]
        of the strategy loop.
      - [time.time()] and [time.perf_counter()] are inputs: every operation
        receives the readings it takes as a record.
      - exceptions are values of type [exn]; a computation that may raise
        returns a [result]. *)

From Stdlib Require Import Bool Arith ZArith QArith Qminmax Lia List.
From Stdlib Require Import Ascii String DecimalString Lqa.
Import ListNotations.

Close Scope Q_scope.
Open Scope list_scope.
Open Scope string_scope.
Open Scope nat_scope.

(* ================================================================== *)
(** ** Python string primitives                                        *)
(* ================================================================== *)

Module PyStr.

Definition code (c : ascii) : nat := nat_of_ascii c.

Definition is_upper (c : ascii) : bool := (65 <=? code c) && (code c <=? 90).
Definition is_lower (c : ascii) : bool := (97 <=? code c) && (code c <=? 122).
Definition is_digit (c : ascii) : bool := (48 <=? code c) && (code c <=? 57).

(** [str.isspace] on ASCII: TAB..CR, FS..US and the blank. *)
Definition isspace (c : ascii) : bool :=
  ((9 <=? code c) && (code c <=? 13)) ||
  ((28 <=? code c) && (code c <=? 32)).

(** [\w] on ASCII. *)
Definition is_word (c : ascii) : bool :=
  is_upper c || is_lower c || is_digit c || (code c =? 95).

Definition lower_char (c : ascii) : ascii :=
  if is_upper c then ascii_of_nat (code c + 32) else c.
Definition upper_char (c : ascii) : ascii :=
  if is_lower c then ascii_of_nat (code c - 32) else c.

Fixpoint map_chars (f : ascii -> ascii) (s : string) : string :=
  match s with
  | EmptyString => EmptyString
  | String c s' => String (f c) (map_chars f s')
  end.

Definition lower : string -> string := map_chars lower_char.
Definition upper : string -> string := map_chars upper_char.

Fixpoint lstrip (s : string) : string :=
  match s with
  | EmptyString => EmptyString
  | String c s' => if isspace c then lstrip s' else s
  end.

Fixpoint rstrip (s : string) : string :=
  match s with
  | EmptyString => EmptyString
  | String c s' =>
      match rstrip s' with
      | EmptyString => if isspace c then EmptyString else String c EmptyString
      | r => String c r
      end
  end.

(** [s.strip()] *)
Definition strip (s : string) : string := rstrip (lstrip s).

Definition is_empty (s : string) : bool :=
  match s with EmptyString => true | _ => false end.

(** [s.startswith(p)] *)
Definition startswith (p s : string) : bool := String.prefix p s.

Fixpoint rev (s : string) : string :=
  match s with
  | EmptyString => EmptyString
  | String c s' => rev s' ++ String c EmptyString
  end.

(** [s.endswith(p)] *)
Definition endswith (p s : string) : bool := String.prefix (rev p) (rev s).

(** [p in s] *)
Fixpoint contains (p s : string) : bool :=
  String.prefix p s ||
  match s with
  | EmptyString => false
  | String _ s' => contains p s'
  end.

(** [s.count(p)] counts the occurrences of [p] from left to right without
    overlap: after a hit the scan resumes behind it.  [skip] is the number
    of characters still covered by the last hit. *)
Fixpoint count_from (skip : nat) (p s : string) : nat :=
  match s with
  | EmptyString => 0
  | String _ s' =>
      match skip with
      | S k => count_from k p s'
      | O => if String.prefix p s
             then S (count_from (String.length p - 1) p s')
             else count_from 0 p s'
      end
  end.

Definition count (p s : string) : nat :=
  if is_empty p then S (String.length s) else count_from 0 p s.

Definition cons_word (w : string) (ws : list string) : list string :=
  if is_empty w then ws else w :: ws.

(** [split_aux s] is the word that [s] starts with (empty when [s] starts
    with white space) and the words after it. *)
Fixpoint split_aux (s : string) : string * list string :=
  match s with
  | EmptyString => (EmptyString, [])
  | String c s' =>
      let (w, ws) := split_aux s' in
      if isspace c then (EmptyString, cons_word w ws) else (String c w, ws)
  end.

(** [s.split()] *)
Definition split (s : string) : list string :=
  let (w, ws) := split_aux s in cons_word w ws.

(** [sep.join(l)] *)
Fixpoint join (sep : string) (l : list string) : string :=
  match l with
  | [] => EmptyString
  | [x] => x
  | x :: l' => x ++ sep ++ join sep l'
  end.

(** [str(n)] for an integer. *)
Definition str_of_Z (z : Z) : string := NilZero.string_of_int (Z.to_int z).
Definition str_of_nat (n : nat) : string := str_of_Z (Z.of_nat n).

(** The double quote character and the line feed. *)
Definition dquote : ascii := ascii_of_nat 34.
Definition squote : ascii := ascii_of_nat 39.
Definition dq : string := String dquote EmptyString.
Definition nl : string := String (ascii_of_nat 10) EmptyString.

(** [c in s] for one character. *)
Fixpoint has_char (c : ascii) (s : string) : bool :=
  match s with
  | EmptyString => false
  | String a s' => Ascii.eqb a c || has_char c s'
  end.

(** The number of positions of [s] at which [p] occurs, overlaps
    included. *)
Fixpoint occurrences (p s : string) : nat :=
  (if String.prefix p s then 1 else 0) +
  match s with
  | EmptyString => 0
  | String _ s' => occurrences p s'
  end.

(** None of the first [k] characters of [s] is [a]. *)
Fixpoint avoids (k : nat) (a : ascii) (s : string) : bool :=
  match k, s with
  | S k', String c s' => negb (Ascii.eqb c a) && avoids k' a s'
  | _, _ => true
  end.

(** A pattern none of whose characters is white space, such as a keyword. *)
Fixpoint no_space (p : string) : bool :=
  match p with
  | EmptyString => true
  | String c p' => negb (isspace c) && no_space p'
  end.

Fixpoint all_space (s : string) : bool :=
  match s with
  | EmptyString => true
  | String c s' => isspace c && all_space s'
  end.

End PyStr.

(* ================================================================== *)
(** ** Regular expressions ([re.search] with [re.IGNORECASE])           *)
(* ================================================================== *)

Module Re.

(** The fragment of the [re] syntax that the pattern table uses. *)
Inductive regex : Type :=
| Eps
| Chr (c : ascii)
| Cls (p : ascii -> bool)
| Seq (r1 r2 : regex)
| Alt (r1 r2 : regex)
| Star (r : regex)
| Grp (i : nat) (r : regex).

(** Captured groups, by group number. *)
Definition caps : Type := list (nat * string).

Fixpoint get_cap (i : nat) (cs : caps) : option string :=
  match cs with
  | [] => None
  | (j, s) :: cs' => if i =? j then Some s else get_cap i cs'
  end.

Definition set_cap (i : nat) (s : string) (cs : caps) : caps := (i, s) :: cs.

(** Under [re.IGNORECASE] a literal matches both of its cases. *)
Definition chr_eq (c a : ascii) : bool :=
  Ascii.eqb (PyStr.lower_char c) (PyStr.lower_char a).

(** The text consumed between [s] and its suffix [s']. *)
Definition consumed (s s' : string) : string :=
  String.substring 0 (String.length s - String.length s') s.

(** Greedy repetition.  [step] matches the body once and [k] is what
    follows the repetition.  An iteration that consumes nothing is given
    up, so every iteration shortens the text and [n], which starts as the
    length of the text, never runs out before the text does. *)
Fixpoint star_loop (step : string -> caps -> (string -> caps -> option caps)
                           -> option caps)
         (k : string -> caps -> option caps)
         (n : nat) (s : string) (cs : caps) {struct n} : option caps :=
  match n with
  | O => k s cs
  | S n' =>
      match step s cs
              (fun s' cs' =>
                 if String.length s' <? String.length s
                 then star_loop step k n' s' cs' else None) with
      | Some res => Some res
      | None => k s cs
      end
  end.

(** Backtracking matcher in continuation-passing style: alternatives are
    tried from left to right and repetition is greedy, which is the order
    in which [re] explores them.  [k] receives the rest of the text. *)
Fixpoint rmatch (r : regex) (s : string) (cs : caps)
         (k : string -> caps -> option caps) {struct r} : option caps :=
  match r with
  | Eps => k s cs
  | Chr c =>
      match s with
      | String a s' => if chr_eq c a then k s' cs else None
      | EmptyString => None
      end
  | Cls p =>
      match s with
      | String a s' => if p a then k s' cs else None
      | EmptyString => None
      end
  | Seq r1 r2 => rmatch r1 s cs (fun s' cs' => rmatch r2 s' cs' k)
  | Alt r1 r2 =>
      match rmatch r1 s cs k with
      | Some res => Some res
      | None => rmatch r2 s cs k
      end
  | Star r' => star_loop (rmatch r') k (String.length s) s cs
  | Grp i r' =>
      rmatch r' s cs (fun s' cs' => k s' (set_cap i (consumed s s') cs'))
  end.

(** Two continuations that agree on the texts not longer than [s]. *)
Definition agree_below (s : string) (k1 k2 : string -> caps -> option caps)
  : Prop :=
  forall s' cs', String.length s' <= String.length s -> k1 s' cs' = k2 s' cs'.

(** The continuation that rejects every match. *)
Definition fails : string -> caps -> option caps := fun _ _ => None.

(** [re.search]: the first position, from the left, at which the pattern
    matches. *)
Fixpoint search (r : regex) (s : string) : option caps :=
  match rmatch r s [] (fun _ cs => Some cs) with
  | Some cs => Some cs
  | None =>
      match s with
      | EmptyString => None
      | String _ s' => search r s'
      end
  end.

(** [match.groups()] for a pattern with [n] groups. *)
Definition groups (n : nat) (cs : caps) : list (option string) :=
  map (fun i => get_cap i cs) (seq 1 n).

(** Derived forms. *)
Fixpoint lit (s : string) : regex :=
  match s with
  | EmptyString => Eps
  | String c EmptyString => Chr c
  | String c s' => Seq (Chr c) (lit s')
  end.

Definition plus (r : regex) : regex := Seq r (Star r).
Definition opt (r : regex) : regex := Alt r Eps.

Fixpoint alts (l : list regex) : regex :=
  match l with
  | [] => Cls (fun _ => false)
  | [r] => r
  | r :: l' => Alt r (alts l')
  end.

Fixpoint seqs (l : list regex) : regex :=
  match l with
  | [] => Eps
  | [r] => r
  | r :: l' => Seq r (seqs l')
  end.

(** Character classes. *)
Definition ws : regex := Cls PyStr.isspace.                         (* \s *)
Definition nonws : regex := Cls (fun c => negb (PyStr.isspace c)).  (* [^\s] *)
Definition word : regex := Cls PyStr.is_word.                       (* \w *)
Definition digit : regex := Cls PyStr.is_digit.                     (* \d *)
Definition is_quote (c : ascii) : bool :=
  Ascii.eqb c PyStr.squote || Ascii.eqb c PyStr.dquote.
Definition quote : regex := Cls is_quote.          (* the class of the two quotes *)
Definition nonquote : regex := Cls (fun c => negb (is_quote c)).  (* its complement *)
Definition anychar : regex :=
  Cls (fun c => negb (Ascii.eqb c (ascii_of_nat 10))).              (* . *)

End Re.

(* ================================================================== *)
(** ** Python values, exceptions and clocks                            *)
(* ================================================================== *)

(** Values that travel in JSON payloads and in [Dict[str, Any]].  A
    dictionary keeps its items in insertion order. *)
#[warnings="-register-all"]
Inductive json : Type :=
| JNull
| JBool (b : bool)
| JInt (z : Z)
| JFloat (q : Q)
| JStr (s : string)
| JList (l : list json)
| JDict (d : list (string * json)).

Definition pydict : Type := list (string * json).

(** [d.get(k)] *)
Fixpoint dict_get (k : string) (d : pydict) : option json :=
  match d with
  | [] => None
  | (k', v) :: d' => if String.eqb k k' then Some v else dict_get k d'
  end.

(** [d[k] = v]: an existing key keeps its place, a new one goes last. *)
Fixpoint dict_set (k : string) (v : json) (d : pydict) : pydict :=
  match d with
  | [] => [(k, v)]
  | (k', v') :: d' =>
      if String.eqb k k' then (k', v) :: d' else (k', v') :: dict_set k v d'
  end.

(** [bool(v)] *)
Definition truthy (v : json) : bool :=
  match v with
  | JNull => false
  | JBool b => b
  | JInt z => negb (Z.eqb z 0)
  | JFloat q => negb (Qeq_bool q 0)
  | JStr s => negb (PyStr.is_empty s)
  | JList l => match l with [] => false | _ => true end
  | JDict d => match d with [] => false | _ => true end
  end.

(** [type(v).__name__] *)
Definition type_name (v : json) : string :=
  match v with
  | JNull => "NoneType"
  | JBool _ => "bool"
  | JInt _ => "int"
  | JFloat _ => "float"
  | JStr _ => "str"
  | JList _ => "list"
  | JDict _ => "dict"
  end.

Inductive ErrorSeverity : Type := LOW | MEDIUM | HIGH | CRITICAL.

Inductive ErrorCategory : Type :=
| VALIDATION | TRANSLATION | EXECUTION | COMMUNICATION | SYSTEM
| PERFORMANCE | SECURITY.

(** The exceptions that the modelled code raises or catches; all of them
    derive from [Exception]. *)
Inductive exn : Type :=
| BridgeError (message : string) (category : ErrorCategory)
              (severity : ErrorSeverity)
| AttributeError (message : string)
| TypeError (message : string)
| KeyError (key : string)
| OtherError (message : string).

(** [str(e)] *)
Definition str_of_exn (e : exn) : string :=
  match e with
  | BridgeError m _ _ => m
  | AttributeError m => m
  | TypeError m => m
  | KeyError k => "'" ++ k ++ "'"
  | OtherError m => m
  end.

(** Outcome of a computation that may raise. *)
Inductive result (A : Type) : Type :=
| Ok (a : A)
| Raise (e : exn).
Arguments Ok {A} a.
Arguments Raise {A} e.

Definition bind {A B : Type} (m : result A) (f : A -> result B) : result B :=
  match m with
  | Ok a => f a
  | Raise e => Raise e
  end.

Notation "x <- m ;; f" := (bind m (fun x => f))
  (at level 61, m at next level, right associativity).

(** [int(t)] for a float: truncation towards zero. *)
Definition int_of_Q (q : Q) : Z := Z.quot (Qnum q) (Z.pos (Qden q)).

(** Comparisons of floats. *)
Definition Qleb (a b : Q) : bool := Qle_bool a b.
Definition Qltb (a b : Q) : bool := negb (Qle_bool b a).

(** [l[-n:]] for a positive [n]; the history sizes of the source are the
    constants 10 and 1000. *)
Definition lastn {A : Type} (n : nat) (l : list A) : list A :=
  skipn (List.length l - n) l.

(** [Optional[Dict[str, Any]]] *)
Definition context : Type := option pydict.

(** [bool(context)] *)
Definition context_truthy (ctx : context) : bool :=
  match ctx with
  | Some (_ :: _) => true
  | _ => false
  end.


(* ================================================================== *)
(** ** [ai_command_translator.py]                                       *)
(* ================================================================== *)

Module Translator.

(** The dictionary a strategy returns on success ... *)
Record Candidate : Type := mkCandidate {
  c_translation : json;
  c_confidence : Q;
  c_strategy : string;
  c_pattern_used : option string;
  c_original_command : string;
  c_context_used : option bool
}.

(** ... and the two shapes of a strategy's answer. *)
Inductive StrategyResult : Type :=
| Success (c : Candidate)
| Failure (error : string) (original_command : string).

(** *** [PatternBasedTranslator] *)

Inductive pattern_name : Type :=
| print_statement | variable_assignment | simple_assignment | for_loop
| conditional_if | end_program | comment | calculation.

Definition pattern_key (n : pattern_name) : string :=
  match n with
  | print_statement => "print_statement"
  | variable_assignment => "variable_assignment"
  | simple_assignment => "simple_assignment"
  | for_loop => "for_loop"
  | conditional_if => "conditional_if"
  | end_program => "end_program"
  | comment => "comment"
  | calculation => "calculation"
  end.

Record pattern_info : Type := mkPattern {
  p_name : pattern_name;
  p_pattern : Re.regex;
  p_groups : nat;
  p_confidence : Q
}.

Import Re.

(** [equals?] *)
Definition re_equals : regex := Seq (lit "equal") (opt (Chr "s")).

(** [_initialize_patterns], in the order of the dictionary. *)
Definition patterns : list pattern_info :=
  [ mkPattern print_statement
      (seqs [alts [lit "print"; lit "display"; lit "show"; lit "output";
                   lit "echo"];
             plus ws; opt quote; Grp 1 (plus nonquote); opt quote])
      1 0.9%Q;
    mkPattern variable_assignment
      (seqs [alts [lit "set"; lit "let"; lit "assign"];
             plus ws; Grp 1 (plus word); plus ws;
             alts [lit "to"; re_equals; lit "="];
             plus ws; Grp 2 (plus nonws)])
      2 0.85%Q;
    mkPattern simple_assignment
      (seqs [Grp 1 (plus word); Star ws; lit "="; Star ws;
             Grp 2 (plus nonws)])
      2 0.8%Q;
    mkPattern for_loop
      (seqs [alts [lit "loop"; lit "for"]; plus ws;
             opt (Seq (lit "from") (plus ws));
             Grp 1 (plus digit); plus ws;
             alts [lit "to"; lit "until"]; plus ws;
             Grp 2 (plus digit)])
      2 0.9%Q;
    mkPattern conditional_if
      (seqs [lit "if"; plus ws; Grp 1 (plus word); plus ws;
             Grp 2 (alts [re_equals; lit "=="; lit "="]); plus ws;
             Grp 3 (plus word); plus ws;
             opt (Seq (lit "then") (plus ws));
             alts [lit "print"; lit "show"]; plus ws;
             opt quote; Grp 4 (plus nonquote); opt quote])
      4 0.8%Q;
    mkPattern end_program
      (seqs [alts [lit "end"; lit "stop"; lit "terminate"; lit "exit"];
             plus ws; opt (lit "program")])
      0 0.95%Q;
    mkPattern comment
      (seqs [alts [lit "comment"; lit "note"; lit "rem"]; plus ws;
             Grp 1 (plus anychar)])
      1 0.9%Q;
    mkPattern calculation
      (seqs [alts [lit "calculate"; lit "compute"; lit "add"; lit "subtract";
                   lit "multiply"; lit "divide"];
             plus ws; Grp 1 (plus digit); plus ws;
             Grp 2 (alts [lit "plus"; lit "minus"; lit "times";
                          lit "divided by"]);
             plus ws; Grp 3 (plus digit)])
      3 0.85%Q ].

(** [any(re.search(p, command_lower, re.IGNORECASE) for p in patterns)] *)
Definition pattern_can_translate (ai_command : string) : bool :=
  let command_lower := PyStr.strip (PyStr.lower ai_command) in
  existsb (fun p => match search (p_pattern p) command_lower with
                    | Some _ => true
                    | None => false
                    end) patterns.

(** [groups[i]] *)
Definition group (gs : list (option string)) (i : nat) : result (option string) :=
  match nth_error gs i with
  | Some g => Ok g
  | None => Raise (OtherError "tuple index out of range")
  end.

(** [f"{g}"]: a group that took no part in the match prints as [None]. *)
Definition fmt (g : option string) : string :=
  match g with Some s => s | None => "None" end.

(** [g.upper()] *)
Definition group_upper (g : option string) : result string :=
  match g with
  | Some s => Ok (PyStr.upper s)
  | None => Raise (AttributeError "'NoneType' object has no attribute 'upper'")
  end.

(** [operator_map.get(g, "+")] *)
Definition operator_map (g : option string) : string :=
  match g with
  | Some s =>
      if String.eqb s "plus" then "+"
      else if String.eqb s "minus" then "-"
      else if String.eqb s "times" then "*"
      else if String.eqb s "divided by" then "/"
      else "+"
  | None => "+"
  end.

(** The [if/elif] chain that fills in the template of a pattern. *)
Definition apply_template (n : pattern_name) (gs : list (option string))
  : result string :=
  match n with
  | print_statement =>
      g0 <- group gs 0 ;;
      Ok ("PRINT " ++ PyStr.dq ++ fmt g0 ++ PyStr.dq)
  | variable_assignment | simple_assignment =>
      g0 <- group gs 0 ;; v <- group_upper g0 ;;
      g1 <- group gs 1 ;;
      Ok ("LET " ++ v ++ " = " ++ fmt g1)
  | for_loop =>
      g0 <- group gs 0 ;; g1 <- group gs 1 ;;
      Ok ("FOR I = " ++ fmt g0 ++ " TO " ++ fmt g1 ++ PyStr.nl ++ "PRINT I"
            ++ PyStr.nl ++ "NEXT I")
  | conditional_if =>
      g0 <- group gs 0 ;; v <- group_upper g0 ;;
      g2 <- group gs 2 ;; g3 <- group gs 3 ;;
      Ok ("IF " ++ v ++ " = " ++ fmt g2 ++ " THEN PRINT " ++ PyStr.dq
            ++ fmt g3 ++ PyStr.dq)
  | end_program => Ok "END"
  | comment =>
      g0 <- group gs 0 ;;
      Ok ("REM " ++ fmt g0)
  | calculation =>
      g1 <- group gs 1 ;;
      g0 <- group gs 0 ;; g2 <- group gs 2 ;;
      Ok ("LET RESULT = " ++ fmt g0 ++ " " ++ operator_map g1 ++ " " ++ fmt g2
            ++ PyStr.nl ++ "PRINT " ++ PyStr.dq ++ "Result: " ++ PyStr.dq
            ++ "; RESULT")
  end.

(** The loop of [PatternBasedTranslator.translate]: the first pattern that
    matches and whose template can be filled in wins. *)
Fixpoint pattern_translate_loop (ps : list pattern_info)
         (command_lower ai_command : string) : StrategyResult :=
  match ps with
  | [] => Failure "No matching pattern found" ai_command
  | p :: ps' =>
      match search (p_pattern p) command_lower with
      | Some cs =>
          match apply_template (p_name p) (groups (p_groups p) cs) with
          | Ok translation =>
              Success (mkCandidate (JStr translation) (p_confidence p)
                         "pattern_based" (Some (pattern_key (p_name p)))
                         ai_command None)
          | Raise _ => pattern_translate_loop ps' command_lower ai_command
          end
      | None => pattern_translate_loop ps' command_lower ai_command
      end
  end.

Definition pattern_translate (ai_command : string) (ctx : context)
  : StrategyResult :=
  pattern_translate_loop patterns (PyStr.strip (PyStr.lower ai_command))
    ai_command.


(** *** [RuleBasedTranslator] *)

(** [rules["basic_keywords"]] *)
Definition basic_keywords : list (string * string) :=
  [ ("print", "PRINT"); ("let", "LET"); ("for", "FOR"); ("next", "NEXT");
    ("if", "IF"); ("then", "THEN"); ("else", "ELSE"); ("goto", "GOTO");
    ("end", "END"); ("rem", "REM") ].

(** [rules["operators"]] *)
Definition operators : list (string * string) :=
  [ ("equals", "="); ("plus", "+"); ("minus", "-"); ("times", "*");
    ("divided by", "/"); ("greater than", ">"); ("less than", "<");
    ("not equal", "<>") ].

Fixpoint lookup_word (w : string) (tbl : list (string * string)) : option string :=
  match tbl with
  | [] => None
  | (k, v) :: tbl' => if String.eqb w k then Some v else lookup_word w tbl'
  end.

Definition rule_can_translate (ai_command : string) : bool :=
  let command_lower := PyStr.strip (PyStr.lower ai_command) in
  if existsb (fun kw => PyStr.contains (fst kw) command_lower) basic_keywords
  then true
  else if existsb (fun op => PyStr.contains (fst op) command_lower) operators
  then true
  else false.

(** [_calculate_rule_confidence] *)
Definition keyword_count (command : string) : nat :=
  List.length (filter (fun kw => PyStr.contains (fst kw) command) basic_keywords).

Definition basic_syntax : list string :=
  ["PRINT"; "LET"; "FOR"; "NEXT"; "IF"; "THEN"].

Definition syntax_count (translation : string) : nat :=
  List.length (filter (fun syntax => PyStr.contains syntax translation) basic_syntax).

Definition Qnat (n : nat) : Q := inject_Z (Z.of_nat n).

Definition _calculate_rule_confidence (command translation : string) : Q :=
  let confidence := 0.5%Q in
  let confidence :=
    (confidence + Qmin (Qnat (keyword_count command) * 0.1) 0.3)%Q in
  let confidence :=
    (confidence + Qmin (Qnat (syntax_count translation) * 0.1) 0.2)%Q in
  Qmin confidence 1.0%Q.

Definition starts_quote (w : string) : bool :=
  PyStr.startswith PyStr.dq w || PyStr.startswith "'" w.
Definition ends_quote (w : string) : bool :=
  PyStr.endswith PyStr.dq w || PyStr.endswith "'" w.
Definition is_assign (w : string) : bool :=
  String.eqb w "=" || String.eqb w "equals".

(** The words up to the first one that closes a quote, that word included. *)
Fixpoint until_quote (ws : list string) : list string :=
  match ws with
  | [] => []
  | w :: ws' => if ends_quote w then [w] else w :: until_quote ws'
  end.

(** One turn of the [while i < len(words)] loop at a keyword [word] =
    [words[i]], where [rest] = [words[i+1:]].  The answer is what the turn
    appends to [translation_parts] behind the keyword itself, and by how
    much it moves [i] before the closing [i += 1]. *)
Definition keyword_step (word : string) (rest : list string)
  : list string * nat :=
  if String.eqb word "print" then
    match rest with
    | next_word :: rest' =>
        if starts_quote next_word then
          let text_parts := next_word :: until_quote rest' in
          ([PyStr.join " " text_parts], List.length text_parts)
        else ([PyStr.upper next_word], 1)
    | [] => ([], 0)
    end
  else if String.eqb word "let" then
    match rest with
    | var_name :: operator :: value :: _ =>
        if is_assign operator
        then ([PyStr.upper var_name; "="; value], 3)
        else ([], 0)
    | _ => ([], 0)
    end
  else if String.eqb word "for" then
    match rest with
    | var_name :: operator :: start_val :: rest' =>
        if is_assign operator then
          match rest' with
          | to :: end_val :: _ =>
              if String.eqb to "to"
              then ([PyStr.upper var_name; "="; start_val; "TO"; end_val], 5)
              else ([PyStr.upper var_name; "="; start_val], 3)
          | _ => ([PyStr.upper var_name; "="; start_val], 3)
          end
        else ([], 0)
    | _ => ([], 0)
    end
  else ([], 0).

(** The scan of the words.  [skip] counts the words that an earlier turn
    has consumed already. *)
Fixpoint rule_scan (skip : nat) (words : list string) : list string :=
  match words with
  | [] => []
  | word :: rest =>
      match skip with
      | S k => rule_scan k rest
      | O =>
          match lookup_word word basic_keywords with
          | Some basic_cmd =>
              let (parts, moved) := keyword_step word rest in
              (basic_cmd :: parts) ++ rule_scan moved rest
          | None => rule_scan 0 rest
          end
      end
  end.

Definition rule_translate (ai_command : string) (ctx : context)
  : StrategyResult :=
  let command_lower := PyStr.strip (PyStr.lower ai_command) in
  let words := PyStr.split command_lower in
  let translation_parts := rule_scan 0 words in
  match translation_parts with
  | _ :: _ =>
      let translation := PyStr.join " " translation_parts in
      let confidence := _calculate_rule_confidence command_lower translation in
      Success (mkCandidate (JStr translation) confidence "rule_based" None
                 ai_command None)
  | [] => Failure "No recognizable patterns found" ai_command
  end.


(** *** [ContextualTranslator] *)

Record ContextualTranslator : Type := mkContextual {
  context_history : list string;
  max_history : nat
}.

(** [ContextualTranslator()] *)
Definition new_contextual : ContextualTranslator := mkContextual [] 10.

(** [l[-2]] for a list of more than one element, [""] otherwise. *)
Definition second_last (l : list string) : string :=
  nth (List.length l - 2) l "".

(** The [if/elif] chain of [ContextualTranslator.translate]: the
    translation and the confidence it settles on, given the history as it
    is once the command has been appended. *)
Definition contextual_choice (history : list string)
           (command_lower ai_command : string) (ctx : context) : json * Q :=
  if PyStr.contains "it" command_lower || PyStr.contains "that" command_lower
  then
    (* Reference to previous command *)
    match history with
    | _ :: _ =>
        let last_command :=
          if 1 <? List.length history then second_last history else "" in
        if PyStr.contains "print" (PyStr.lower last_command)
        then (JStr "PRINT IT", 0.7%Q)
        else (JStr "REM Context reference not clear", 0.3%Q)
    | [] => (JStr "REM No context available", 0.2%Q)
    end
  else if PyStr.contains "again" command_lower
          || PyStr.contains "repeat" command_lower
  then
    (* Repeat previous command *)
    match history with
    | _ :: _ =>
        if 1 <? List.length history
        then (JStr (second_last history), 0.8%Q)
        else (JStr "REM Nothing to repeat", 0.2%Q)
    | [] => (JStr "REM Nothing to repeat", 0.2%Q)
    end
  else if PyStr.contains "now" command_lower
          || PyStr.contains "next" command_lower
  then
    (* Sequence command *)
    match ctx with
    | Some ((_ :: _) as d) =>
        match dict_get "sequence" d with
        | Some (JList (next_cmd :: _)) => (next_cmd, 0.9%Q)
        | Some _ => (JStr "REM No sequence available", 0.3%Q)
        | None => (JStr "REM No context for sequence", 0.2%Q)
        end
    | _ => (JStr "REM No context for sequence", 0.2%Q)
    end
  else
    (* Default contextual handling *)
    (JStr ("REM " ++ ai_command), 0.4%Q).

(** [self.context_history.append(ai_command)] and the trimming behind it. *)
Definition remember (self : ContextualTranslator) (ai_command : string)
  : ContextualTranslator :=
  let history := (context_history self ++ [ai_command])%list in
  let history :=
    if max_history self <? List.length history
    then lastn (max_history self) history else history in
  mkContextual history (max_history self).

(** [ContextualTranslator.translate].  With a dictionary (or no) context
    nothing in its [try] block raises. *)
Definition contextual_translate (self : ContextualTranslator)
           (ai_command : string) (ctx : context)
  : StrategyResult * ContextualTranslator :=
  let command_lower := PyStr.strip (PyStr.lower ai_command) in
  let self := remember self ai_command in
  let (translation, confidence) :=
    contextual_choice (context_history self) command_lower ai_command ctx in
  (Success (mkCandidate translation confidence "contextual" None ai_command
              (Some (context_truthy ctx))),
   self).

(** The contextual strategy after the texts [prev] have been submitted to
    it, one call of [translate] each. *)
Definition submit_all (prev : list (string * context))
           (self : ContextualTranslator) : ContextualTranslator :=
  fold_left (fun s p => snd (contextual_translate s (fst p) (snd p))) prev self.

(** [ContextualTranslator.get_confidence] *)
Definition contextual_get_confidence (ai_command translation : string) : Q :=
  let confidence := 0.5%Q in
  let confidence :=
    if PyStr.contains "context" (PyStr.lower ai_command)
    then (confidence + 0.2)%Q else confidence in
  let confidence :=
    if existsb (fun word => PyStr.contains word (PyStr.lower ai_command))
         ["it"; "that"; "this"]
    then (confidence - 0.1)%Q else confidence in
  Qmax (Qmin confidence 1.0%Q) 0.0%Q.

(** [PatternBasedTranslator.get_confidence] *)
Definition pattern_get_confidence (ai_command translation : string) : Q :=
  let command_lower := PyStr.strip (PyStr.lower ai_command) in
  match find (fun p => match search (p_pattern p) command_lower with
                       | Some _ => true
                       | None => false
                       end) patterns with
  | Some p => p_confidence p
  | None => 0.0%Q
  end.

(** *** The strategy interface *)

(** [class TranslationStrategy(ABC)]: an object of type [T] with the three
    abstract methods.  [translate] may change the object and may raise. *)
Class TranslationStrategy (T : Type) : Type := {
  can_translate : T -> string -> bool;
  translate : T -> string -> context -> result StrategyResult * T;
  get_confidence : T -> string -> string -> Q
}.

(** The two table-driven strategies carry no state of their own: their
    tables are the constants [patterns], [basic_keywords] and [operators]. *)
Inductive PatternBasedTranslator : Type := PatternBased.
Inductive RuleBasedTranslator : Type := RuleBased.

#[export] Instance PatternBased_strategy : TranslationStrategy PatternBasedTranslator := {
  can_translate _ cmd := pattern_can_translate cmd;
  translate self cmd ctx := (Ok (pattern_translate cmd ctx), self);
  get_confidence _ cmd tr := pattern_get_confidence cmd tr
}.

#[export] Instance RuleBased_strategy : TranslationStrategy RuleBasedTranslator := {
  can_translate _ cmd := rule_can_translate cmd;
  translate self cmd ctx := (Ok (rule_translate cmd ctx), self);
  get_confidence _ cmd tr := _calculate_rule_confidence (PyStr.lower cmd) tr
}.

#[export] Instance Contextual_strategy : TranslationStrategy ContextualTranslator := {
  can_translate _ _ := true;
  translate self cmd ctx :=
    let (r, self') := contextual_translate self cmd ctx in (Ok r, self');
  get_confidence _ cmd tr := contextual_get_confidence cmd tr
}.

(** An element of [self.strategies]: an object of some strategy class. *)
Inductive strategy : Type :=
| Strategy (T : Type) (cls : TranslationStrategy T) (self : T).


(** *** [AICommandTranslator] *)

Record Validation : Type := mkValidation {
  is_valid : bool;
  issues : list string;
  suggestions : list string;
  syntax_score : Q
}.

Definition valid_keywords : list string :=
  [ "PRINT"; "LET"; "FOR"; "NEXT"; "IF"; "THEN"; "ELSE"; "GOTO"; "GOSUB";
    "RETURN"; "END"; "REM"; "DATA"; "READ"; "RESTORE"; "DIM"; "INPUT"; "CLS";
    "LIST"; "RUN"; "STOP"; "CONT"; "SAVE"; "LOAD" ].

(** [validation["issues"].append(issue); validation["suggestions"].append(hint)]
    when [cond] holds. *)
Definition flag (cond : bool) (issue hint : string)
           (v : list string * list string) : list string * list string :=
  if cond then ((fst v ++ [issue])%list, (snd v ++ [hint])%list) else v.

(** The checks of [_validate_translation] on a non-empty text, in the order
    of the source; the answer is the lists [issues] and [suggestions]. *)
Definition collect_issues (translation : string) : list string * list string :=
  let translation_upper := PyStr.strip (PyStr.upper translation) in
  let v := ([], []) in
  (* Check for valid BASIC keywords *)
  let has_valid_keyword :=
    existsb (fun keyword => PyStr.contains keyword translation_upper)
      valid_keywords in
  let v := flag (negb has_valid_keyword)
             "No valid BASIC keywords found"
             "Consider using PRINT, LET, FOR, IF, or other BASIC commands" v in
  (* Check for proper PRINT syntax *)
  let v := flag (PyStr.contains "PRINT" translation_upper
                 && (negb (PyStr.has_char PyStr.dquote translation)
                     && negb (PyStr.has_char PyStr.squote translation)
                     && negb (PyStr.contains ";" translation)))
             "PRINT statement may be missing quotes or semicolons"
             "PRINT statements should include quotes around text or semicolons for variables"
             v in
  (* Check for proper variable assignment *)
  let v := flag (PyStr.contains "LET" translation_upper
                 && negb (PyStr.contains "=" translation))
             "LET statement missing assignment operator"
             "LET statements should use = for assignment" v in
  (* Check for balanced FOR/NEXT loops *)
  let for_count := PyStr.count "FOR" translation_upper in
  let next_count := PyStr.count "NEXT" translation_upper in
  let v := flag (negb (for_count =? next_count))
             ("Unbalanced FOR/NEXT loops (" ++ PyStr.str_of_nat for_count
                ++ " FOR, " ++ PyStr.str_of_nat next_count ++ " NEXT)")
             "Ensure each FOR statement has a corresponding NEXT statement"
             v in
  (* Check for balanced IF/THEN statements *)
  let if_count := PyStr.count "IF" translation_upper in
  let then_count := PyStr.count "THEN" translation_upper in
  let v := flag (negb (if_count =? then_count))
             ("Unbalanced IF/THEN statements (" ++ PyStr.str_of_nat if_count
                ++ " IF, " ++ PyStr.str_of_nat then_count ++ " THEN)")
             "Ensure each IF statement has a corresponding THEN clause"
             v in
  v.

(** [_validate_translation] on a [str]. *)
Definition validate_str (translation : string) : Validation :=
  if PyStr.is_empty (PyStr.strip translation) then
    mkValidation false ["Empty translation"] [] 0.0%Q
  else
    let (issues, suggestions) := collect_issues translation in
    (* Calculate syntax score *)
    let syntax_score := 1.0%Q in
    let syntax_score := (syntax_score - Qnat (List.length issues) * 0.2)%Q in
    let syntax_score := Qmax syntax_score 0.0%Q in
    (* Determine overall validity *)
    mkValidation (List.length issues =? 0) issues suggestions syntax_score.

(** [_validate_translation]: a value that is not a [str] has no [upper]
    method; the [except] clause of the function turns the error into a
    validation issue. *)
Definition _validate_translation (translation : json) : Validation :=
  match translation with
  | JStr s => validate_str s
  | v =>
      mkValidation false
        ["Validation error: '" ++ type_name v
           ++ "' object has no attribute 'upper'"] [] 0.0%Q
  end.

(** [_generate_suggestions] *)
Definition _generate_suggestions (ai_command : string) : list string :=
  let command_lower := PyStr.lower ai_command in
  let s : list string := [] in
  let s := if PyStr.contains "print" command_lower
           then (s ++ [("Try: PRINT " ++ PyStr.dq ++ "your text here" ++ PyStr.dq)%string])%list
           else s in
  let s := if PyStr.contains "set" command_lower
              || PyStr.contains "let" command_lower
           then (s ++ ["Try: LET VARIABLE = value"])%list else s in
  let s := if PyStr.contains "loop" command_lower
              || PyStr.contains "for" command_lower
           then (s ++ ["Try: FOR I = 1 TO 10"])%list else s in
  let s := if PyStr.contains "if" command_lower
           then (s ++ ["Try: IF condition THEN action"])%list else s in
  let s := if PyStr.contains "end" command_lower
           then (s ++ ["Try: END"])%list else s in
  match s with
  | [] =>
      [ "Consider using basic BASIC commands like PRINT, LET, FOR, IF, or END";
        "Be more specific about what you want the program to do" ]
  | _ => s
  end.

(** The two dictionaries [translate_command] returns. *)
Record FinalResult : Type := mkFinal {
  translation_id : string;
  original_command : string;
  translation : json;
  confidence : Q;
  strategy_used : string;
  validation : Validation;
  translation_time : Q;
  timestamp : Q;
  context_used : bool
}.

Record ErrorResult : Type := mkError {
  e_translation_id : string;
  e_error : string;
  e_original_command : string;
  e_translation_time : Q;
  e_timestamp : Q;
  e_suggestions : list string
}.

Inductive TranslationResult : Type :=
| Translated (r : FinalResult)          (* ["success": True] *)
| NotTranslated (r : ErrorResult).      (* ["success": False] *)

Definition success (r : TranslationResult) : bool :=
  match r with Translated _ => true | NotTranslated _ => false end.

Record Stats : Type := mkStats {
  total_translations : Z;
  successful_translations : Z;
  failed_translations : Z;
  average_confidence : Q;
  strategy_usage : list (string * Z);
  average_translation_time : Q;
  total_translation_time : Q
}.

Definition new_stats : Stats := mkStats 0 0 0 0.0%Q [] 0.0%Q 0.0%Q.

(** [usage[strategy] += 1], a missing key counting as 0. *)
Fixpoint bump (strategy : string) (usage : list (string * Z)) : list (string * Z) :=
  match usage with
  | [] => [(strategy, 1%Z)]
  | (k, n) :: usage' =>
      if String.eqb strategy k then (k, (n + 1)%Z) :: usage'
      else (k, n) :: bump strategy usage'
  end.

(** [_update_stats] *)
Definition _update_stats (stats : Stats) (translation_time : Q)
           (success : bool) (strategy : string) : Stats :=
  let total := (total_translations stats + 1)%Z in
  let total_time := (total_translation_time stats + translation_time)%Q in
  mkStats total
    (if success then (successful_translations stats + 1)%Z
     else successful_translations stats)
    (if success then failed_translations stats
     else (failed_translations stats + 1)%Z)
    (average_confidence stats)
    (bump strategy (strategy_usage stats))
    (total_time / inject_Z total)%Q
    total_time.

Record AICommandTranslator : Type := mkTranslator {
  strategies : list strategy;
  translation_history : list TranslationResult;
  max_history_size : nat;
  stats : Stats
}.

(** [AICommandTranslator()] *)
Definition new_translator : AICommandTranslator :=
  mkTranslator
    [ Strategy PatternBasedTranslator _ PatternBased;
      Strategy RuleBasedTranslator _ RuleBased;
      Strategy ContextualTranslator _ new_contextual ]
    [] 1000 new_stats.

(** [_add_to_history] *)
Definition _add_to_history (self : AICommandTranslator) (r : TranslationResult)
  : AICommandTranslator :=
  let h := (translation_history self ++ [r])%list in
  let h := if max_history_size self <? List.length h
           then lastn (max_history_size self) h else h in
  mkTranslator (strategies self) h (max_history_size self) (stats self).

(** The [for strategy in self.strategies] loop.  The answer is
    [best_result], [best_confidence] and the strategy objects as the loop
    leaves them; a [break] leaves the strategies behind it untouched. *)
Fixpoint try_strategies (ss : list strategy) (ai_command : string)
         (ctx : context) (best_result : option Candidate) (best_confidence : Q)
  : option Candidate * Q * list strategy :=
  match ss with
  | [] => (best_result, best_confidence, [])
  | Strategy T cls self :: ss' =>
      if can_translate self ai_command then
        let (r, self') := translate self ai_command ctx in
        let continue best_result best_confidence :=
          let '(b, c, ss'') :=
            try_strategies ss' ai_command ctx best_result best_confidence in
          (b, c, Strategy T cls self' :: ss'') in
        match r with
        | Ok (Success result) =>
            let confidence := c_confidence result in
            if Qltb best_confidence confidence then
              (* If we have high confidence, use this result *)
              if Qleb 0.8%Q confidence
              then (Some result, confidence, Strategy T cls self' :: ss')
              else continue (Some result) confidence
            else continue best_result best_confidence
        | Ok (Failure _ _) => continue best_result best_confidence
        | Raise _ => continue best_result best_confidence
        end
      else
        let '(b, c, ss'') :=
          try_strategies ss' ai_command ctx best_result best_confidence in
        (b, c, Strategy T cls self :: ss'')
  end.

(** The readings of the clocks that one call of [translate_command] takes. *)
Record Clock : Type := mkClock {
  perf_start : Q;     (* [time.perf_counter()] on entry *)
  now_id : Q;         (* [time.time()] for the identifier *)
  perf_end : Q;       (* [time.perf_counter()] behind the loop *)
  now_stamp : Q       (* [time.time()] for the time stamp *)
}.

Definition with_stats (self : AICommandTranslator) (st : Stats)
  : AICommandTranslator :=
  mkTranslator (strategies self) (translation_history self)
    (max_history_size self) st.

Definition with_strategies (self : AICommandTranslator) (ss : list strategy)
  : AICommandTranslator :=
  mkTranslator ss (translation_history self) (max_history_size self)
    (stats self).

(** [translate_command].  No statement of its [try] block raises on a [str]
    command and a dictionary context (the strategies' errors are caught in
    the loop), so its outer [except] clause has no counterpart here. *)
Definition translate_command (self : AICommandTranslator) (clk : Clock)
           (ai_command : string) (ctx : context)
  : TranslationResult * AICommandTranslator :=
  let translation_id :=
    "trans_" ++ PyStr.str_of_Z (int_of_Q (now_id clk)) ++ "_"
      ++ PyStr.str_of_nat (List.length (translation_history self)) in
  (* Try each strategy in order of preference *)
  let '(best_result, best_confidence, ss) :=
    try_strategies (strategies self) ai_command ctx None 0.0%Q in
  let self := with_strategies self ss in
  (* Calculate translation time *)
  let translation_time := ((perf_end clk - perf_start clk) * 1000)%Q in
  match best_result with
  | Some best =>
      (* Validate the translation *)
      let validation := _validate_translation (c_translation best) in
      let final_result :=
        Translated
          (mkFinal translation_id ai_command (c_translation best)
             best_confidence (c_strategy best) validation translation_time
             (now_stamp clk) (context_truthy ctx)) in
      let self :=
        with_stats self
          (_update_stats (stats self) translation_time true (c_strategy best)) in
      let self := _add_to_history self final_result in
      (final_result, self)
  | None =>
      (* No strategy could handle the command *)
      let error_result :=
        NotTranslated
          (mkError translation_id
             "No translation strategy could handle this command" ai_command
             translation_time (now_stamp clk)
             (_generate_suggestions ai_command)) in
      let self :=
        with_stats self
          (_update_stats (stats self) translation_time false "unknown") in
      let self := _add_to_history self error_result in
      (error_result, self)
  end.

(** A session: the commands are translated one after the other. *)
Fixpoint translate_all (self : AICommandTranslator)
         (inputs : list (Clock * string * context))
  : list TranslationResult * AICommandTranslator :=
  match inputs with
  | [] => ([], self)
  | (clk, ai_command, ctx) :: inputs' =>
      let (r, self) := translate_command self clk ai_command ctx in
      let (rs, self) := translate_all self inputs' in
      (r :: rs, self)
  end.

(** The strategy list of a translator, with the contextual strategy in
    state [c]. *)
Definition standard_strategies (c : ContextualTranslator) : list strategy :=
  [ Strategy PatternBasedTranslator _ PatternBased;
    Strategy RuleBasedTranslator _ RuleBased;
    Strategy ContextualTranslator _ c ].

(** Clock readings for the worked examples: a call that takes 250 ms. *)
Definition sample_clock : Clock :=
  mkClock 1.0%Q 1700000000.5%Q 1.25%Q 1700000000.75%Q.

End Translator.


(* ================================================================== *)
(** ** Operations of Python on JSON values                              *)
(* ================================================================== *)

Module Py.

(** [v.get(k, default)]: only a dictionary has the method. *)
Definition get (v : json) (k : string) (default : json) : result json :=
  match v with
  | JDict d =>
      Ok (match dict_get k d with Some x => x | None => default end)
  | _ =>
      Raise (AttributeError
               ("'" ++ type_name v ++ "' object has no attribute 'get'"))
  end.

(** [v[0]] for a value [v] that passed [if not v]. *)
Definition index0 (v : json) : result json :=
  match v with
  | JList (x :: _) => Ok x
  | JList [] => Raise (OtherError "list index out of range")
  | JStr (String c _) => Ok (JStr (String c EmptyString))
  | JStr EmptyString => Raise (OtherError "string index out of range")
  | JDict _ => Raise (KeyError "0")
  | _ =>
      Raise (TypeError ("'" ++ type_name v ++ "' object is not subscriptable"))
  end.

(** [v.strip()]: only a string has the method. *)
Definition strip (v : json) : result string :=
  match v with
  | JStr s => Ok (PyStr.strip s)
  | _ =>
      Raise (AttributeError
               ("'" ++ type_name v ++ "' object has no attribute 'strip'"))
  end.

End Py.

(* ================================================================== *)
(** ** [ai_command_sender.py]: the providers                            *)
(* ================================================================== *)

Module Provider.

(** The dictionary that [_parse_response] returns; its ["success"] entry
    is always [True]. *)
Record Response : Type := mkResponse {
  content : string;
  model : json;
  usage : pydict;
  finish_reason : json;
  provider : string
}.

(** The body of the [try] block of [OpenAIProvider._parse_response];
    [self_model] is [self.model]. *)
Definition openai_parse_body (self_model : string) (response_data : json)
  : result Response :=
  choices <- Py.get response_data "choices" (JList []) ;;
  if negb (truthy choices) then
    Raise (BridgeError "No choices in OpenAI response" COMMUNICATION MEDIUM)
  else
    choice0 <- Py.index0 choices ;;
    message <- Py.get choice0 "message" (JDict []) ;;
    content_value <- Py.get message "content" (JStr "") ;;
    content <- Py.strip content_value ;;
    usage <- Py.get response_data "usage" (JDict []) ;;
    model <- Py.get response_data "model" (JStr self_model) ;;
    prompt_tokens <- Py.get usage "prompt_tokens" (JInt 0) ;;
    completion_tokens <- Py.get usage "completion_tokens" (JInt 0) ;;
    total_tokens <- Py.get usage "total_tokens" (JInt 0) ;;
    finish_reason <- Py.get choice0 "finish_reason" (JStr "unknown") ;;
    Ok (mkResponse content model
          [ ("prompt_tokens", prompt_tokens);
            ("completion_tokens", completion_tokens);
            ("total_tokens", total_tokens) ]
          finish_reason "openai").

(** [OpenAIProvider._parse_response]: whatever the body raises, its own
    [BridgeError] included, is wrapped by the [except] clause. *)
Definition openai_parse_response (self_model : string) (response_data : json)
  : result Response :=
  match openai_parse_body self_model response_data with
  | Ok r => Ok r
  | Raise e =>
      Raise (BridgeError ("Failed to parse OpenAI response: " ++ str_of_exn e)
               COMMUNICATION MEDIUM)
  end.

(** The body of the [try] block of [GoogleProvider._parse_response]. *)
Definition google_parse_body (self_model : string) (response_data : json)
  : result Response :=
  candidates <- Py.get response_data "candidates" (JList []) ;;
  if negb (truthy candidates) then
    Raise (BridgeError "No candidates in Google Gemini response"
             COMMUNICATION MEDIUM)
  else
    candidate <- Py.index0 candidates ;;
    content <- Py.get candidate "content" (JDict []) ;;
    parts <- Py.get content "parts" (JList []) ;;
    if negb (truthy parts) then
      Raise (BridgeError "No content parts in Google Gemini response"
               COMMUNICATION MEDIUM)
    else
      part0 <- Py.index0 parts ;;
      text_value <- Py.get part0 "text" (JStr "") ;;
      text_content <- Py.strip text_value ;;
      usage_metadata <- Py.get response_data "usageMetadata" (JDict []) ;;
      prompt_tokens <- Py.get usage_metadata "promptTokenCount" (JInt 0) ;;
      completion_tokens <-
        Py.get usage_metadata "candidatesTokenCount" (JInt 0) ;;
      total_tokens <- Py.get usage_metadata "totalTokenCount" (JInt 0) ;;
      finish_reason <- Py.get candidate "finishReason" (JStr "unknown") ;;
      Ok (mkResponse text_content (JStr self_model)
            [ ("prompt_tokens", prompt_tokens);
              ("completion_tokens", completion_tokens);
              ("total_tokens", total_tokens) ]
            finish_reason "google").

(** [GoogleProvider._parse_response] *)
Definition google_parse_response (self_model : string) (response_data : json)
  : result Response :=
  match google_parse_body self_model response_data with
  | Ok r => Ok r
  | Raise e =>
      Raise (BridgeError
               ("Failed to parse Google Gemini response: " ++ str_of_exn e)
               COMMUNICATION MEDIUM)
  end.

(** A content field that is absent, or a string that is empty once
    stripped. *)
Definition blank_field (v : option json) : bool :=
  match v with
  | None => true
  | Some (JStr s) => PyStr.is_empty (PyStr.strip s)
  | Some _ => false
  end.

(** A field that is absent or a dictionary. *)
Definition dict_or_absent (v : option json) : bool :=
  match v with
  | None | Some (JDict _) => true
  | Some _ => false
  end.

(** The ["message"] of a choice: absent, or a dictionary with a blank
    ["content"]. *)
Definition blank_message (v : option json) : bool :=
  match v with
  | None => true
  | Some (JDict m) => blank_field (dict_get "content" m)
  | Some _ => false
  end.

(** Sample payloads: a completion with an empty content, one without a
    content field, and a Gemini candidate whose part has an empty text. *)
Definition openai_empty_content : json :=
  JDict [ ("choices",
           JList [ JDict [ ("message",
                            JDict [("role", JStr "assistant");
                                   ("content", JStr "")]);
                           ("finish_reason", JStr "stop") ] ]);
          ("model", JStr "gpt-4") ].

Definition openai_absent_content : json :=
  JDict [ ("choices",
           JList [ JDict [ ("message", JDict [("role", JStr "assistant")]) ] ]) ].

Definition google_empty_text : json :=
  JDict [ ("candidates",
           JList [ JDict [ ("content",
                            JDict [("parts", JList [JDict [("text", JStr " ")]])]);
                           ("finishReason", JStr "STOP") ] ]) ].

End Provider.


(* ================================================================== *)
(** ** [ai_command_sender.py]: [AICommandSender]                        *)
(* ================================================================== *)

Module Sender.

Import Provider.

Section World.

(** The world outside the sender: the network and the providers' own
    counters.  A request may change it. *)
Variable W : Type.

(** [hashlib.md5(json.dumps(key_data, sort_keys=True).encode()).hexdigest()]
    as a function of [key_data]: the command, the provider hint and the
    context, an absent context counting as the empty dictionary. *)
Variable digest : string * option string * pydict -> string.

(** [class AIProvider]: what the sender uses of a provider. *)
Record AIProvider : Type := mkProvider {
  name : string;
  retry_attempts : Z;
  send_request : W -> string -> context -> result Response * W
}.

(** What [_send_with_retries] does to the outside: requests and pauses. *)
Inductive Event : Type :=
| Request (outcome : result Response)   (* [await provider.send_request(..)] *)
| Sleep (delay : Z).                    (* [await asyncio.sleep(delay)] *)

(** [range(n)] *)
Definition range (n : Z) : list Z := map Z.of_nat (seq 0 (Z.to_nat n)).

(** The [for attempt in range(provider.retry_attempts)] loop, followed by
    the [raise] behind it.  [trace] collects the events so far. *)
Fixpoint retry_loop (provider : AIProvider) (command : string) (ctx : context)
         (attempts : list Z) (last_exception : option exn)
         (w : W) (trace : list Event) : result Response * W * list Event :=
  match attempts with
  | [] =>
      (* All retries failed *)
      (Raise (match last_exception with
              | Some e => e
              | None => OtherError "All retry attempts failed"
              end), w, trace)
  | attempt :: attempts' =>
      let (outcome, w) := send_request provider w command ctx in
      let trace := (trace ++ [Request outcome])%list in
      match outcome with
      | Ok response => (Ok response, w, trace)
      | Raise e =>
          let trace :=
            if (attempt <? retry_attempts provider - 1)%Z
            then (trace ++ [Sleep (2 ^ attempt)%Z])%list   (* exponential backoff *)
            else trace in
          retry_loop provider command ctx attempts' (Some e) w trace
      end
  end.

Definition _send_with_retries (provider : AIProvider) (command : string)
           (ctx : context) (w : W) : result Response * W * list Event :=
  retry_loop provider command ctx (range (retry_attempts provider)) None w [].

(** The number of requests in a trace, and its pauses in order. *)
Definition is_request (ev : Event) : bool :=
  match ev with Request _ => true | Sleep _ => false end.

Definition request_count (trace : list Event) : nat :=
  List.length (filter is_request trace).

Fixpoint sleeps (trace : list Event) : list Z :=
  match trace with
  | [] => []
  | Sleep delay :: trace' => delay :: sleeps trace'
  | Request _ :: trace' => sleeps trace'
  end.

(** The provider fails on every call with the given command and context. *)
Definition always_fails (provider : AIProvider) (command : string)
           (ctx : context) : Prop :=
  forall w, exists e, fst (send_request provider w command ctx) = Raise e.

(** *** Validation and confidence of a response *)

(** [re.findall(r"\d+\s+", content)] is not empty. *)
Definition has_line_numbers (content : string) : bool :=
  match Re.search (Re.Seq (Re.plus Re.digit) (Re.plus Re.ws)) content with
  | Some _ => true
  | None => false
  end.

Definition json_strings (l : list string) : json := JList (map JStr l).

(** [_validate_response] *)
Definition _validate_response (response : Response) : pydict :=
  let content := content response in
  if PyStr.is_empty (PyStr.strip content) then
    [ ("is_valid", JBool false); ("issues", json_strings ["Empty response"]);
      ("suggestions", json_strings []) ]
  else
    let basic_keywords :=
      ["PRINT"; "LET"; "FOR"; "NEXT"; "IF"; "THEN"; "GOTO"; "END"; "REM"] in
    let content_upper := PyStr.upper content in
    let has_basic_keywords :=
      existsb (fun keyword => PyStr.contains keyword content_upper)
        basic_keywords in
    let issues :=
      if has_basic_keywords then [] else ["No BASIC-M6502 keywords found"] in
    let suggestions :=
      if has_basic_keywords then []
      else ["Response may not contain valid BASIC commands"] in
    let suggestions :=
      if has_line_numbers content then suggestions
      else (suggestions ++ ["Consider adding line numbers (10, 20, 30, etc.)"])%list in
    let suggestions :=
      if PyStr.contains "PRINT" content_upper
         && negb (PyStr.has_char PyStr.dquote content)
      then (suggestions
              ++ ["PRINT statements should include quotes around text"])%list
      else suggestions in
    [ ("is_valid", JBool true); ("issues", json_strings issues);
      ("suggestions", json_strings suggestions) ].

(** [_calculate_confidence] *)
Definition _calculate_confidence (response : Response) (command : string) : Q :=
  let content := content response in
  if PyStr.is_empty (PyStr.strip content) then 0.0%Q
  else
    let confidence := 0.5%Q in
    let basic_keywords :=
      ["PRINT"; "LET"; "FOR"; "NEXT"; "IF"; "THEN"; "GOTO"; "END"] in
    let content_upper := PyStr.upper content in
    let keyword_count :=
      List.length (filter (fun keyword => PyStr.contains keyword content_upper)
                     basic_keywords) in
    let confidence :=
      (confidence + Qmin (inject_Z (Z.of_nat keyword_count) * 0.1) 0.3)%Q in
    let confidence :=
      if has_line_numbers content then (confidence + 0.1)%Q else confidence in
    let confidence :=
      if PyStr.has_char PyStr.dquote content
         && PyStr.contains "PRINT" content_upper
      then (confidence + 0.1)%Q else confidence in
    let confidence :=
      if PyStr.contains "error" (PyStr.lower content)
         || PyStr.contains "cannot" (PyStr.lower content)
      then (confidence - 0.2)%Q else confidence in
    Qmin (Qmax confidence 0.0%Q) 1.0%Q.

(** *** The sender and its stores *)

(** A reference to a result dictionary: its index in the heap. *)
Definition ref : Type := nat.

Record CacheEntry : Type := mkEntry {
  response : ref;       (* ["response"]: the dictionary itself, not a copy *)
  timestamp : Q
}.

Record ProviderStats : Type := mkProviderStats {
  requests : Z;
  successful : Z;
  failed : Z;
  average_time : Q
}.

Record Stats : Type := mkStats {
  total_requests : Z;
  successful_requests : Z;
  failed_requests : Z;
  average_response_time : Q;
  total_response_time : Q;
  provider_stats : list (string * ProviderStats)
}.

Record AICommandSender : Type := mkSender {
  providers : list (string * AIProvider);
  default_provider : string;           (* [settings.ai.default_provider] *)
  fallback_provider : string;          (* [settings.ai.fallback_provider] *)
  request_history : list ref;
  max_history_size : nat;
  stats : Stats;
  cache : list (string * CacheEntry);
  cache_enabled : bool;
  cache_ttl : Q;
  max_cache_size : nat;                (* [caching.get("max_cache_size", 1000)] *)
  error_log_size : nat;                (* [len(error_handler.error_log)] *)
  heap : list pydict                   (* the result dictionaries allocated so far *)
}.

Definition with_heap (self : AICommandSender) (h : list pydict) :=
  mkSender (providers self) (default_provider self) (fallback_provider self)
    (request_history self) (max_history_size self) (stats self) (cache self)
    (cache_enabled self) (cache_ttl self) (max_cache_size self)
    (error_log_size self) h.

Definition with_cache (self : AICommandSender) (c : list (string * CacheEntry)) :=
  mkSender (providers self) (default_provider self) (fallback_provider self)
    (request_history self) (max_history_size self) (stats self) c
    (cache_enabled self) (cache_ttl self) (max_cache_size self)
    (error_log_size self) (heap self).

Definition with_stats (self : AICommandSender) (st : Stats) :=
  mkSender (providers self) (default_provider self) (fallback_provider self)
    (request_history self) (max_history_size self) st (cache self)
    (cache_enabled self) (cache_ttl self) (max_cache_size self)
    (error_log_size self) (heap self).

Definition with_history (self : AICommandSender) (h : list ref) :=
  mkSender (providers self) (default_provider self) (fallback_provider self)
    h (max_history_size self) (stats self) (cache self)
    (cache_enabled self) (cache_ttl self) (max_cache_size self)
    (error_log_size self) (heap self).

Definition with_error_log (self : AICommandSender) (n : nat) :=
  mkSender (providers self) (default_provider self) (fallback_provider self)
    (request_history self) (max_history_size self) (stats self) (cache self)
    (cache_enabled self) (cache_ttl self) (max_cache_size self)
    n (heap self).

(** The dictionary behind a reference. *)
Definition deref (self : AICommandSender) (r : ref) : pydict :=
  nth r (heap self) [].

(** A new dictionary object. *)
Definition alloc (self : AICommandSender) (d : pydict) : ref * AICommandSender :=
  (List.length (heap self), with_heap self (heap self ++ [d])%list).

(** [self.cache] as a dictionary in insertion order. *)
Fixpoint cache_get (k : string) (c : list (string * CacheEntry)) : option CacheEntry :=
  match c with
  | [] => None
  | (k', e) :: c' => if String.eqb k k' then Some e else cache_get k c'
  end.

Fixpoint cache_set (k : string) (e : CacheEntry) (c : list (string * CacheEntry))
  : list (string * CacheEntry) :=
  match c with
  | [] => [(k, e)]
  | (k', e') :: c' =>
      if String.eqb k k' then (k', e) :: c' else (k', e') :: cache_set k e c'
  end.

Definition cache_del (k : string) (c : list (string * CacheEntry))
  : list (string * CacheEntry) :=
  filter (fun x => negb (String.eqb k (fst x))) c.

(** [sorted(items, key=timestamp)]: stable, so that entries of equal age
    keep their insertion order. *)
Fixpoint insert_by_time (x : string * CacheEntry) (l : list (string * CacheEntry))
  : list (string * CacheEntry) :=
  match l with
  | [] => [x]
  | y :: l' =>
      if Qleb (timestamp (snd x)) (timestamp (snd y))
      then x :: l else y :: insert_by_time x l'
  end.

Definition sort_by_time (c : list (string * CacheEntry)) : list (string * CacheEntry) :=
  fold_right insert_by_time [] c.

(** [_generate_cache_key] *)
Definition _generate_cache_key (command : string) (provider : option string)
           (ctx : context) : string :=
  digest (command, provider, match ctx with
                             | Some (_ :: _ as d) => d
                             | _ => []
                             end).

(** [_get_cached_response] at the time [now]: a hit returns a copy of the
    stored dictionary, marked as cached; an expired entry is deleted. *)
Definition _get_cached_response (self : AICommandSender) (now : Q)
           (cache_key : string) : option ref * AICommandSender :=
  match cache_get cache_key (cache self) with
  | None => (None, self)
  | Some cached_data =>
      if Qltb (cache_ttl self) (now - timestamp cached_data)%Q then
        (None, with_cache self (cache_del cache_key (cache self)))
      else
        let result :=
          dict_set "cached" (JBool true) (deref self (response cached_data)) in
        let (r, self) := alloc self result in
        (Some r, self)
  end.

(** [_cache_response] at the time [now] *)
Definition _cache_response (self : AICommandSender) (now : Q)
           (cache_key : string) (r : ref) : AICommandSender :=
  let c := cache_set cache_key (mkEntry r now) (cache self) in
  (* Trim cache if too large *)
  if max_cache_size self <? List.length c then
    let oldest_keys := firstn 100 (map fst (sort_by_time c)) in
    with_cache self (fold_left (fun c key => cache_del key c) oldest_keys c)
  else with_cache self c.

(** [_select_provider] *)
Fixpoint find_provider (k : string) (ps : list (string * AIProvider))
  : option AIProvider :=
  match ps with
  | [] => None
  | (k', p) :: ps' => if String.eqb k k' then Some p else find_provider k ps'
  end.

Definition _select_provider (self : AICommandSender)
           (preferred_provider : option string) : option AIProvider :=
  let preferred :=
    match preferred_provider with
    | Some n => if PyStr.is_empty n then None else find_provider n (providers self)
    | None => None
    end in
  match preferred with
  | Some p => Some p
  | None =>
      match find_provider (default_provider self) (providers self) with
      | Some p => Some p
      | None =>
          match find_provider (fallback_provider self) (providers self) with
          | Some p => Some p
          | None =>
              match providers self with
              | (_, p) :: _ => Some p
              | [] => None
              end
          end
      end
  end.

(** [provider_stats = self.stats["provider_stats"][provider_name]] and the
    updates behind it; a missing entry starts from zero. *)
Definition bump_provider (ps : ProviderStats) (response_time : Q) (success : bool)
  : ProviderStats :=
  let n := (requests ps + 1)%Z in
  mkProviderStats n
    (if success then (successful ps + 1)%Z else successful ps)
    (if success then failed ps else (failed ps + 1)%Z)
    ((average_time ps * inject_Z (n - 1) + response_time) / inject_Z n)%Q.

Fixpoint update_provider_stats (provider_name : string) (response_time : Q)
         (success : bool) (l : list (string * ProviderStats))
  : list (string * ProviderStats) :=
  match l with
  | [] =>
      [(provider_name,
        bump_provider (mkProviderStats 0 0 0 0.0%Q) response_time success)]
  | (k, ps) :: l' =>
      if String.eqb provider_name k
      then (k, bump_provider ps response_time success) :: l'
      else (k, ps) :: update_provider_stats provider_name response_time success l'
  end.

(** [_update_stats] *)
Definition _update_stats (self : AICommandSender) (response_time : Q)
           (success : bool) (provider_name : string) : AICommandSender :=
  let st := stats self in
  let total := (total_requests st + 1)%Z in
  let total_time := (total_response_time st + response_time)%Q in
  with_stats self
    (mkStats total
       (if success then (successful_requests st + 1)%Z
        else successful_requests st)
       (if success then failed_requests st else (failed_requests st + 1)%Z)
       (total_time / inject_Z total)%Q
       total_time
       (update_provider_stats provider_name response_time success
          (provider_stats st))).

(** [_add_to_history] *)
Definition _add_to_history (self : AICommandSender) (r : ref) : AICommandSender :=
  let h := (request_history self ++ [r])%list in
  with_history self
    (if max_history_size self <? List.length h
     then lastn (max_history_size self) h else h).

(** The readings of the clocks that one call of [send_command] may take. *)
Record Clock : Type := mkClock {
  perf_start : Q;    (* [time.perf_counter()] on entry *)
  now_id : Q;        (* [time.time()] for the request identifier *)
  now_lookup : Q;    (* [time.time()] in [_get_cached_response] *)
  perf_done : Q;     (* [time.perf_counter()] behind the provider call *)
  now_stamp : Q;     (* [time.time()] for the result's time stamp *)
  now_store : Q;     (* [time.time()] in [_cache_response] *)
  perf_fail : Q;     (* [time.perf_counter()] in the [except] clause *)
  now_log : Q;       (* [time.time()] in [log_error] *)
  now_fail : Q       (* [time.time()] for the error result's time stamp *)
}.

Definition request_id_of (self : AICommandSender) (clk : Clock) : string :=
  "req_" ++ PyStr.str_of_Z (int_of_Q (now_id clk)) ++ "_"
    ++ PyStr.str_of_nat (List.length (request_history self)).

(** The [except] clause of [send_command].  [self0] is the sender on entry,
    whose history length went into the request identifier. *)
Definition send_failed (self0 self : AICommandSender) (clk : Clock)
           (command : string) (provider : option string) (e : exn)
  : ref * AICommandSender :=
  let response_time := ((perf_fail clk - perf_start clk) * 1000)%Q in
  (* [error_handler.log_error] *)
  let error_id :=
    "err_" ++ PyStr.str_of_Z (int_of_Q (now_log clk)) ++ "_"
      ++ PyStr.str_of_nat (error_log_size self) in
  let self := with_error_log self (Nat.min (S (error_log_size self)) 1000) in
  let self := _update_stats self response_time false "unknown" in
  let error_result :=
    [ ("request_id", JStr (request_id_of self0 clk));
      ("success", JBool false);
      ("error", JStr (str_of_exn e));
      ("error_id", JStr error_id);
      ("command", JStr command);
      ("provider", JStr (match provider with
                         | Some n => if PyStr.is_empty n then "unknown" else n
                         | None => "unknown"
                         end));
      ("response_time", JFloat response_time);
      ("timestamp", JFloat (now_fail clk));
      ("confidence", JFloat 0.0%Q) ] in
  let (r, self) := alloc self error_result in
  (r, _add_to_history self r).

(** The tail of the [try] block of [send_command], from the creation of
    the result dictionary on: the dictionary is cached (by reference),
    counted and appended to the history. *)
Definition store_result (self : AICommandSender) (clk : Clock)
           (cache_key : string) (response_time : Q) (provider_name : string)
           (result : pydict) : ref * AICommandSender :=
  let (r, self) := alloc self result in
  (* Cache response if enabled *)
  let self :=
    if cache_enabled self
    then _cache_response self (now_store clk) cache_key r
    else self in
  (* Update statistics *)
  let self := _update_stats self response_time true provider_name in
  (* Add to history *)
  let self := _add_to_history self r in
  (r, self).

(** The [try] block of [send_command] behind the cache lookup, with its
    [except] clause.  [self0] is the sender on entry. *)
Definition send_uncached (self0 self : AICommandSender) (w : W) (clk : Clock)
           (cache_key command : string) (provider : option string)
           (ctx : context) : ref * AICommandSender * W * list Event :=
  (* Select provider *)
  match _select_provider self provider with
  | None =>
      let (r, self) :=
        send_failed self0 self clk command provider
          (BridgeError "No available AI providers" COMMUNICATION CRITICAL) in
      (r, self, w, [])
  | Some selected_provider =>
      (* Send request with retries *)
      let '(outcome, w, events) :=
        _send_with_retries selected_provider command ctx w in
      match outcome with
      | Raise e =>
          let (r, self) := send_failed self0 self clk command provider e in
          (r, self, w, events)
      | Ok response =>
          (* Calculate response time *)
          let response_time := ((perf_done clk - perf_start clk) * 1000)%Q in
          let validation_result := _validate_response response in
          let confidence := _calculate_confidence response command in
          let result :=
            [ ("request_id", JStr (request_id_of self0 clk));
              ("success", JBool true);
              ("provider", JStr (name selected_provider));
              ("command", JStr command);
              ("response", JStr (content response));
              ("confidence", JFloat confidence);
              ("validation", JDict validation_result);
              ("response_time", JFloat response_time);
              ("timestamp", JFloat (now_stamp clk));
              ("usage", JDict (usage response));
              ("cached", JBool false) ] in
          let (r, self) :=
            store_result self clk cache_key response_time
              (name selected_provider) result in
          (r, self, w, events)
      end
  end.

(** [send_command].  The answer is the dictionary returned (by reference),
    the sender and the world behind the call, and the events of the call. *)
Definition send_command (self : AICommandSender) (w : W) (clk : Clock)
           (command : string) (provider : option string) (ctx : context)
  : ref * AICommandSender * W * list Event :=
  (* Check cache first *)
  let cache_key := _generate_cache_key command provider ctx in
  let (cached_response, self') :=
    if cache_enabled self
    then _get_cached_response self (now_lookup clk) cache_key
    else (None, self) in
  match cached_response with
  | Some r =>
      (* [if cached_response:] holds, the copy has the key ["cached"] *)
      (r, self', w, [])
  | None => send_uncached self self' w clk cache_key command provider ctx
  end.

End World.

End Sender.


(* ================================================================== *)
(** ** Sample providers and senders for the worked examples            *)
(* ================================================================== *)

Module Samples.

Import Provider Sender.

(** The world of the samples counts the requests made so far. *)
Definition world : Type := nat.

(** A provider whose every request ends in HTTP 500. *)
Definition failing_provider : AIProvider world :=
  mkProvider world "openai" 3
    (fun w _ _ =>
       (Raise (BridgeError
                 ("OpenAI API error: 500 - request " ++ PyStr.str_of_nat w)
                 COMMUNICATION HIGH),
        S w)).

(** A provider that answers every request with a one-line program. *)
Definition hello_response : Response :=
  mkResponse ("10 PRINT " ++ PyStr.dq ++ "hello" ++ PyStr.dq) (JStr "gpt-4")
    [("prompt_tokens", JInt 12); ("completion_tokens", JInt 7);
     ("total_tokens", JInt 19)]
    (JStr "stop") "openai".

Definition hello_provider : AIProvider world :=
  mkProvider world "openai" 3 (fun w _ _ => (Ok hello_response, S w)).

Definition sample_digest (key_data : string * option string * pydict) : string :=
  let '(command, provider, _) := key_data in
  command ++ "/" ++ match provider with Some n => n | None => "None" end.

(** [AICommandSender()] with one provider and the default cache settings. *)
Definition sample_sender : AICommandSender world :=
  mkSender world [("openai", hello_provider)] "openai" "google" [] 1000
    (mkStats 0 0 0 0.0%Q 0.0%Q []) [] true 3600%Q 1000 0 [].

(** Two calls, one minute apart. *)
Definition first_clock : Clock :=
  mkClock 10.0%Q 1700000000.0%Q 1700000000.0%Q 10.4%Q 1700000000.4%Q
    1700000000.5%Q 10.4%Q 1700000000.4%Q 1700000000.4%Q.

Definition second_clock : Clock :=
  mkClock 70.0%Q 1700000060.0%Q 1700000060.0%Q 70.4%Q 1700000060.4%Q
    1700000060.5%Q 70.4%Q 1700000060.4%Q 1700000060.4%Q.

(** The same request twice. *)
Definition first_call : ref * AICommandSender world * world * list Event :=
  send_command world sample_digest sample_sender 0 first_clock
    "Print hello world" None None.

Definition second_call : ref * AICommandSender world * world * list Event :=
  let '(_, self1, w1, _) := first_call in
  send_command world sample_digest self1 w1 second_clock
    "Print hello world" None None.

End Samples.


(* ================================================================== *)
(** ** [ai_layer_integration.py]: [AILayerIntegration]                  *)
(* ================================================================== *)

Module Integration.

Inductive AIInteractionType : Type :=
| COMMAND_EXECUTION | CODE_GENERATION | DEBUGGING | EXPLANATION
| INTERACTIVE_SESSION | BATCH_PROCESSING.

Inductive AIInteractionStatus : Type :=
| PENDING | IN_PROGRESS | COMPLETED | FAILED | CANCELLED.

(** [@dataclass class AIInteraction].  The fields that are filled from
    JSON payloads hold whatever value the payload has. *)
Record AIInteraction : Type := mkInteraction {
  interaction_id : string;
  interaction_type : AIInteractionType;
  status : AIInteractionStatus;
  created_at : Q;
  updated_at : Q;
  prompt : string;
  context : pydict;
  ai_response : option json;
  translated_commands : option json;
  execution_results : option (list json);
  feedback : option string;
  confidence_score : option json;
  error_message : option json;
  ai_processing_time : option Q;
  translation_time : option Q;
  execution_time : option Q;
  total_time : option Q
}.

(** [v[k]] for a string key. *)
Definition getitem (v : json) (k : string) : result json :=
  match v with
  | JDict d =>
      match dict_get k d with
      | Some x => Ok x
      | None => Raise (KeyError k)
      end
  | JList _ =>
      Raise (TypeError "list indices must be integers or slices, not str")
  | JStr _ => Raise (TypeError "string indices must be integers, not 'str'")
  | _ =>
      Raise (TypeError ("'" ++ type_name v ++ "' object is not subscriptable"))
  end.

(** The keyword arguments of [update_status] that the pipeline passes:
    [None] leaves a field as it is. *)
Record Updates : Type := mkUpdates {
  u_ai_response : option json;
  u_translated_commands : option json;
  u_execution_results : option (list json);
  u_confidence_score : option json;
  u_error_message : option json;
  u_ai_processing_time : option Q;
  u_translation_time : option Q;
  u_execution_time : option Q;
  u_total_time : option Q
}.

Definition no_updates : Updates :=
  mkUpdates None None None None None None None None None.

Definition pick {A : Type} (new old : option A) : option A :=
  match new with Some _ => new | None => old end.

(** [AIInteraction.update_status] at the time [now] *)
Definition update_status (i : AIInteraction) (st : AIInteractionStatus)
           (now : Q) (u : Updates) : AIInteraction :=
  mkInteraction (interaction_id i) (interaction_type i) st (created_at i) now
    (prompt i) (context i)
    (pick (u_ai_response u) (ai_response i))
    (pick (u_translated_commands u) (translated_commands i))
    (pick (u_execution_results u) (execution_results i))
    (feedback i)
    (pick (u_confidence_score u) (confidence_score i))
    (pick (u_error_message u) (error_message i))
    (pick (u_ai_processing_time u) (ai_processing_time i))
    (pick (u_translation_time u) (translation_time i))
    (pick (u_execution_time u) (execution_time i))
    (pick (u_total_time u) (total_time i)).

Record Stats : Type := mkStats {
  total_interactions : Z;
  successful_interactions : Z;
  failed_interactions : Z;
  average_interaction_time : Q;
  total_interaction_time : Q;
  last_activity : option Q
}.

Record AILayerIntegration : Type := mkIntegration {
  active_interactions : list (string * AIInteraction);
  interaction_history : list AIInteraction;     (* [deque(maxlen=1000)] *)
  stats : Stats
}.

(** [_update_stats] at the time [now] *)
Definition _update_stats (self : AILayerIntegration) (interaction_time : Q)
           (success : bool) (now : Q) : AILayerIntegration :=
  let st := stats self in
  let total := (total_interactions st + 1)%Z in
  let total_time := (total_interaction_time st + interaction_time)%Q in
  mkIntegration (active_interactions self) (interaction_history self)
    (mkStats total
       (if success then (successful_interactions st + 1)%Z
        else successful_interactions st)
       (if success then failed_interactions st
        else (failed_interactions st + 1)%Z)
       (total_time / inject_Z total)%Q total_time (Some now)).

(** The [finally] clause: the interaction leaves the active map and joins
    the history, which keeps its last 1000 entries. *)
Definition move_to_history (self : AILayerIntegration) (i : AIInteraction)
  : AILayerIntegration :=
  mkIntegration
    (filter (fun x => negb (String.eqb (interaction_id i) (fst x)))
       (active_interactions self))
    (lastn 1000 (interaction_history self ++ [i])%list)
    (stats self).

(** What the three awaited phases answer: [_send_to_ai_provider] and
    [_translate_commands] catch their errors and always return a value;
    [_execute_commands] returns the list of execution records or raises. *)
Record Phases : Type := mkPhases {
  ai_result : json;
  translation_result : json;
  execution : result (list json)
}.

(** The readings of the clocks during [execute_interaction]. *)
Record Clock : Type := mkClock {
  start_time : Q;          (* [time.perf_counter()] on entry *)
  now_in_progress : Q;     (* [time.time()] of the first [update_status] *)
  ai_start : Q;
  ai_end : Q;
  translation_start : Q;
  translation_end : Q;
  execution_start : Q;
  execution_end : Q;
  total_end : Q;           (* [time.perf_counter()] for [total_time] *)
  now_final : Q;           (* [time.time()] of the last [update_status] *)
  now_stats : Q;           (* [time.time()] in [_update_stats] *)
  fail_end : Q             (* [time.perf_counter()] in the [except] clause *)
}.

Definition ms (t0 t1 : Q) : Q := ((t1 - t0) * 1000)%Q.

(** How the [try] block of [execute_interaction] ends: with a [return] of
    the interaction, after [_update_stats] or not, or with an exception. *)
Inductive Ending : Type :=
| Returned (i : AIInteraction) (counted : bool)
| Raised (e : exn).

(** The [try] block.  [i] is the interaction already [IN_PROGRESS]. *)
Definition try_block (i : AIInteraction) (ph : Phases) (clk : Clock) : Ending :=
  let ai_time := ms (ai_start clk) (ai_end clk) in
  (* Step 1: Send to AI provider *)
  match getitem (ai_result ph) "success" with
  | Raise e => Raised e
  | Ok ok1 =>
      if negb (truthy ok1) then
        match Py.get (ai_result ph) "error" (JStr "AI provider failed") with
        | Raise e => Raised e
        | Ok err =>
            Returned
              (update_status i FAILED (now_final clk)
                 (mkUpdates None None None None (Some err) (Some ai_time)
                    None None None))
              false
        end
      else
        (* Step 2: Translate commands *)
        match getitem (ai_result ph) "response" with
        | Raise e => Raised e
        | Ok response =>
            let translation_time :=
              ms (translation_start clk) (translation_end clk) in
            match getitem (translation_result ph) "success" with
            | Raise e => Raised e
            | Ok ok2 =>
                if negb (truthy ok2) then
                  match Py.get (translation_result ph) "error"
                          (JStr "Translation failed") with
                  | Raise e => Raised e
                  | Ok err =>
                      Returned
                        (update_status i FAILED (now_final clk)
                           (mkUpdates None None None None (Some err)
                              (Some ai_time) (Some translation_time) None None))
                        false
                  end
                else
                  (* Step 3: Execute commands *)
                  match getitem (translation_result ph) "commands" with
                  | Raise e => Raised e
                  | Ok commands =>
                      match execution ph with
                      | Raise e => Raised e
                      | Ok execution_results =>
                          let execution_time :=
                            ms (execution_start clk) (execution_end clk) in
                          (* Calculate total time *)
                          let total_time := ms (start_time clk) (total_end clk) in
                          match Py.get (ai_result ph) "confidence"
                                  (JFloat 0.5%Q) with
                          | Raise e => Raised e
                          | Ok confidence =>
                              (* Update interaction *)
                              Returned
                                (update_status i COMPLETED (now_final clk)
                                   (mkUpdates (Some response) (Some commands)
                                      (Some execution_results)
                                      (Some confidence) None
                                      (Some ai_time) (Some translation_time)
                                      (Some execution_time) (Some total_time)))
                                true
                          end
                      end
                  end
            end
        end
  end.

(** [execute_interaction] *)
Definition execute_interaction (self : AILayerIntegration)
           (interaction : AIInteraction) (ph : Phases) (clk : Clock)
  : AIInteraction * AILayerIntegration :=
  (* Update status *)
  let interaction :=
    update_status interaction IN_PROGRESS (now_in_progress clk) no_updates in
  let '(interaction, self) :=
    match try_block interaction ph clk with
    | Returned i true =>
        (i, _update_stats self (ms (start_time clk) (total_end clk)) true
              (now_stats clk))
    | Returned i false => (i, self)
    | Raised e =>
        let total_time := ms (start_time clk) (fail_end clk) in
        (update_status interaction FAILED (now_final clk)
           (mkUpdates None None None None (Some (JStr (str_of_exn e)))
              None None None (Some total_time)),
         _update_stats self total_time false (now_stats clk))
    end in
  (* Move to history *)
  (interaction, move_to_history self interaction).

(** The confidence that a phase reports: its ["confidence"] entry, 0.5
    when there is none. *)
Definition phase_confidence (phase_result : json) : result json :=
  Py.get phase_result "confidence" (JFloat 0.5%Q).

(** A run in which both phases succeed, the provider phase with
    confidence 0.9 and the translation phase with confidence 0.3. *)
Definition sample_interaction : AIInteraction :=
  mkInteraction "int_1700000000_0" COMMAND_EXECUTION PENDING
    1700000000.0%Q 1700000000.0%Q "Print hi" []
    None None None None None None None None None None.

Definition sample_program : string := "10 PRINT " ++ PyStr.dq ++ "HI" ++ PyStr.dq.

Definition sample_phases : Phases :=
  mkPhases
    (JDict [ ("success", JBool true); ("response", JStr sample_program);
             ("confidence", JFloat 0.9%Q) ])
    (JDict [ ("success", JBool true);
             ("commands", JList [JStr sample_program]);
             ("confidence", JFloat 0.3%Q) ])
    (Ok [ JDict [ ("execution_id", JStr "exec_1700000000_0");
                  ("command", JStr sample_program);
                  ("success", JBool true); ("output", JStr "HI") ] ]).

Definition sample_clock : Clock :=
  mkClock 0.0%Q 1700000001.0%Q 0.001%Q 0.301%Q 0.302%Q 0.312%Q 0.313%Q 0.333%Q
    0.334%Q 1700000001.4%Q 1700000001.4%Q 0.334%Q.

Definition new_integration : AILayerIntegration :=
  mkIntegration [("int_1700000000_0", sample_interaction)] []
    (mkStats 0 0 0 0.0%Q 0.0%Q None).

End Integration.


(* ================================================================== *)
(** ** Further operations of [ai_command_translator.py]                 *)
(* ================================================================== *)

Module PyList.

(** [l[start:]] for an [int] [start]: a negative [start] counts from the
    end, and either way the index is clipped to the list. *)
Definition slice_from {A : Type} (start : Z) (l : list A) : list A :=
  let n := Z.of_nat (List.length l) in
  let i := if (start <? 0)%Z then Z.max 0 (start + n) else Z.min start n in
  skipn (Z.to_nat i) l.

(** [l[-limit:] if l else []] *)
Definition recent {A : Type} (limit : Z) (l : list A) : list A :=
  match l with
  | [] => []
  | _ :: _ => slice_from (- limit) l
  end.

End PyList.

Module TranslatorMore.

Import Translator.

(** The sum of the counts in [stats["strategy_usage"]]. *)
Definition usage_total (usage : list (string * Z)) : Z :=
  fold_right (fun x acc => (snd x + acc)%Z) 0%Z usage.

(** Every candidate that a strategy object of the class of [s] can return
    satisfies [P]. *)
Definition strategy_yields (P : Candidate -> Prop) (s : strategy) : Prop :=
  match s with
  | Strategy T cls _ =>
      forall (self : T) (cmd : string) (ctx : context) (c : Candidate),
        fst (translate self cmd ctx) = Ok (Success c) -> P c
  end.

(** A confidence in (0, 1] and the name of one of the three strategies. *)
Definition well_scored (c : Candidate) : Prop :=
  (0 < c_confidence c)%Q /\ (c_confidence c <= 1)%Q /\
  (c_strategy c = "pattern_based" \/ c_strategy c = "rule_based" \/
   c_strategy c = "contextual").

(** [get_recent_translations] *)
Definition get_recent_translations (self : AICommandTranslator) (limit : Z)
  : list TranslationResult :=
  PyList.recent limit (translation_history self).

(** [clear_history] *)
Definition clear_history (self : AICommandTranslator) : AICommandTranslator :=
  mkTranslator (strategies self) [] (max_history_size self) (stats self).

(** The dictionary that [test_translation] returns. *)
Record TestReport : Type := mkReport {
  r_total_commands : nat;
  r_successful : nat;
  r_failed : nat;
  r_success_rate : Q;
  r_average_confidence : Q;
  r_results : list TranslationResult
}.

(** [r.get("confidence", 0)] *)
Definition result_confidence (r : TranslationResult) : Q :=
  match r with
  | Translated f => confidence f
  | NotTranslated _ => 0%Q
  end.

(** [sum(r.get("confidence", 0) for r in successful)] *)
Definition confidence_sum (rs : list TranslationResult) : Q :=
  fold_left (fun acc r => (acc + result_confidence r)%Q) rs 0%Q.

(** [test_translation]: every command is translated without a context;
    each call takes its own clock readings. *)
Definition test_translation (self : AICommandTranslator)
           (test_commands : list (Clock * string))
  : TestReport * AICommandTranslator :=
  let (results, self) :=
    translate_all self (map (fun x => (fst x, snd x, None)) test_commands) in
  (* Analyze results *)
  let successful := filter success results in
  let failed := filter (fun r => negb (success r)) results in
  let avg_confidence :=
    match successful with
    | [] => 0.0%Q
    | _ :: _ => (confidence_sum successful / Qnat (List.length successful))%Q
    end in
  (mkReport (List.length test_commands) (List.length successful)
     (List.length failed)
     (match test_commands with
      | [] => 0%Q
      | _ :: _ =>
          (Qnat (List.length successful) / Qnat (List.length test_commands))%Q
      end)
     avg_confidence results,
   self).

(** A successful result with a confidence in (0, 1]. *)
Definition scored (r : TranslationResult) : Prop :=
  success r = true /\
  (0 < result_confidence r)%Q /\ (result_confidence r <= 1)%Q.

(** [word in self.rules["basic_keywords"]] *)
Definition is_keyword (word : string) : bool :=
  match lookup_word word basic_keywords with
  | Some _ => true
  | None => false
  end.

End TranslatorMore.


(* ================================================================== *)
(** ** The sender: further samples and look-ups                        *)
(* ================================================================== *)

Module SenderMore.

Import Provider Sender.

(** [self.stats["provider_stats"].get(provider_name)] *)
Fixpoint stats_get (k : string) (l : list (string * ProviderStats))
  : option ProviderStats :=
  match l with
  | [] => None
  | (k', ps) :: l' => if String.eqb k k' then Some ps else stats_get k l'
  end.

(** The keys of [self.cache], in insertion order. *)
Definition cache_keys (c : list (string * CacheEntry)) : list string :=
  map fst c.

Section Calls.

Variable W : Type.

(** The outcomes of the calls of [send_request] that a budget of [n]
    attempts allows, from the world [w] on: each call is made in the
    world that the one before it leaves, and the first answer ends the
    calls.  With the outcomes comes the world behind the last call. *)
Fixpoint provider_calls (provider : AIProvider W) (command : string)
         (ctx : context) (n : nat) (w : W) : list (result Response) * W :=
  match n with
  | O => ([], w)
  | S n' =>
      let (outcome, w1) := send_request W provider w command ctx in
      match outcome with
      | Ok _ => ([outcome], w1)
      | Raise _ =>
          let (rest, w2) := provider_calls provider command ctx n' w1 in
          (outcome :: rest, w2)
      end
  end.

End Calls.

(** The trace of the requests with the outcomes given, the first of them
    being the attempt [i]: behind every request but the last comes a
    pause of [2^attempt]. *)
Fixpoint spaced (i : Z) (outcomes : list (result Response)) : list Event :=
  match outcomes with
  | [] => []
  | outcome :: rest =>
      match rest with
      | [] => [Request outcome]
      | _ :: _ => Request outcome :: Sleep (2 ^ i) :: spaced (i + 1) rest
      end
  end.

(** A provider whose first request ends in HTTP 500 and whose later
    requests are answered. *)
Definition flaky_provider : AIProvider Samples.world :=
  mkProvider Samples.world "openai" 3
    (fun w _ _ =>
       match w with
       | O => (Raise (BridgeError "OpenAI API error: 500 - request 0"
                        COMMUNICATION HIGH), S w)
       | S _ => (Ok Samples.hello_response, S w)
       end).

(** A sender whose only provider fails on every request. *)
Definition failing_sender : AICommandSender Samples.world :=
  mkSender Samples.world [("openai", Samples.failing_provider)]
    "openai" "google" [] 1000
    (mkStats 0 0 0 0.0%Q 0.0%Q []) [] true 3600%Q 1000 0 [].

(** A sender whose provider fails and whose cache holds, under the key
    of the sample request, an entry that is older than the time to live
    at the time of the first clock. *)
Definition stale_failing_sender : AICommandSender Samples.world :=
  mkSender Samples.world [("openai", Samples.failing_provider)]
    "openai" "google" [] 1000
    (mkStats 0 0 0 0.0%Q 0.0%Q [])
    [("Print hello world/None", mkEntry 0 1699990000%Q);
     ("List files/None", mkEntry 0 1699999999%Q)]
    true 3600%Q 1000 0 [[("success", JBool true)]].

(** A sender with [caching.enabled] switched off. *)
Definition uncached_sender : AICommandSender Samples.world :=
  mkSender Samples.world [("openai", Samples.hello_provider)]
    "openai" "google" [] 1000
    (mkStats 0 0 0 0.0%Q 0.0%Q []) [] false 3600%Q 1000 0 [].

(** A sender whose cache holds one entry, stored at the time 1700000000. *)
Definition stale_sender : AICommandSender Samples.world :=
  mkSender Samples.world [("openai", Samples.hello_provider)]
    "openai" "google" [] 1000
    (mkStats 0 0 0 0.0%Q 0.0%Q [])
    [("Print hello world/None", mkEntry 0 1700000000%Q)]
    true 3600%Q 1000 0 [[("success", JBool true)]].

(** A sender whose cache is full with one entry. *)
Definition tiny_sender : AICommandSender Samples.world :=
  mkSender Samples.world [("openai", Samples.hello_provider)]
    "openai" "google" [] 1000
    (mkStats 0 0 0 0.0%Q 0.0%Q [])
    [("Print hello world/None", mkEntry 0 1700000000%Q)]
    true 3600%Q 1 0 [[("success", JBool true)]].

End SenderMore.


(* ================================================================== *)
(** ** [ai_layer_integration.py]: context manager and command executor *)
(* ================================================================== *)

Module IntegrationMore.

Import Integration.

(** *** [class AIContextManager] *)

(** An entry of [context_history]. *)
Record HistoryEntry : Type := mkHistoryEntry {
  h_timestamp : Q;
  h_context_type : string;
  h_data : pydict
}.

(** The manager.  [current_context] maps a context type to the dictionary
    kept for it; the dictionaries are modelled by their value, so that a
    dictionary handed out by [get_context] is a snapshot. *)
Record AIContextManager : Type := mkContextManager {
  max_context_size : nat;
  context_history : list HistoryEntry;         (* [deque(maxlen=max_context_size)] *)
  current_context : list (string * pydict)
}.

(** [AIContextManager(max_context_size)] *)
Definition new_context_manager (max_context_size : nat) : AIContextManager :=
  mkContextManager max_context_size [] [].

Fixpoint ctx_get (k : string) (c : list (string * pydict)) : option pydict :=
  match c with
  | [] => None
  | (k', d) :: c' => if String.eqb k k' then Some d else ctx_get k c'
  end.

Fixpoint ctx_set (k : string) (d : pydict) (c : list (string * pydict))
  : list (string * pydict) :=
  match c with
  | [] => [(k, d)]
  | (k', d') :: c' =>
      if String.eqb k k' then (k', d) :: c' else (k', d') :: ctx_set k d c'
  end.

(** [d.update(data)] *)
Definition dict_update (d data : pydict) : pydict :=
  fold_left (fun d kv => dict_set (fst kv) (snd kv) d) data d.

(** [update_context] at the time [now] *)
Definition update_context (self : AIContextManager) (now : Q)
           (context_type : string) (data : pydict) : AIContextManager :=
  let current :=
    match ctx_get context_type (current_context self) with
    | Some d => d
    | None => []
    end in
  mkContextManager (max_context_size self)
    (* Store in history *)
    (lastn (max_context_size self)
       (context_history self ++ [mkHistoryEntry now context_type data])%list)
    (ctx_set context_type (dict_update current data) (current_context self)).

(** [if context_type:] *)
Definition given (context_type : option string) : option string :=
  match context_type with
  | Some t => if PyStr.is_empty t then None else Some t
  | None => None
  end.

(** [get_context] *)
Definition get_context (self : AIContextManager) (context_type : option string)
  : json :=
  match given context_type with
  | Some t =>
      JDict (match ctx_get t (current_context self) with
             | Some d => d
             | None => []
             end)
  | None => JDict (map (fun x => (fst x, JDict (snd x))) (current_context self))
  end.

(** [clear_context] *)
Definition clear_context (self : AIContextManager) (context_type : option string)
  : AIContextManager :=
  mkContextManager (max_context_size self) (context_history self)
    (match given context_type with
     | Some t =>
         filter (fun x => negb (String.eqb t (fst x))) (current_context self)
     | None => []
     end).

(** The entries ["recent_history"] and ["context_size"] of
    [get_context_summary]. *)
Definition recent_history (self : AIContextManager) (max_entries : Z)
  : list HistoryEntry :=
  PyList.slice_from (- max_entries) (context_history self).

Definition context_size (self : AIContextManager) : nat :=
  List.length (context_history self).

(** *** [AICommandExecutor.execute_commands] *)

Section Executor.

(** The executor together with the bridge it talks to. *)
Variable St : Type.

(** [execute_command]: it catches every error of its body, so that it
    always answers an execution record. *)
Variable execute_command : St -> string -> option pydict -> pydict * St.

(** [not result["success"]], when the record has the entry. *)
Definition record_failed (record : pydict) : result bool :=
  ok <- getitem (JDict record) "success" ;;
  Ok (negb (truthy ok)).

(** The [for command in commands] loop of the sequential branch, which
    is the default; [results] is the list built so far. *)
Fixpoint execute_loop (st : St) (commands : list string)
         (context : option pydict) (results : list pydict)
  : result (list pydict) * St :=
  match commands with
  | [] => (Ok results, st)
  | command :: commands' =>
      let (record, st) := execute_command st command context in
      let results := (results ++ [record])%list in
      (* Stop on failure if configured *)
      match record_failed record with
      | Raise e => (Raise e, st)
      | Ok false => execute_loop st commands' context results
      | Ok true =>
          match context with
          | None =>
              (Raise (AttributeError
                        "'NoneType' object has no attribute 'get'"), st)
          | Some d =>
              let stop_on_error :=
                match dict_get "stop_on_error" d with
                | Some v => v
                | None => JBool true
                end in
              if truthy stop_on_error then (Ok results, st)
              else execute_loop st commands' context results
          end
      end
  end.

(** [execute_commands(commands, context)] with [sequential=True] *)
Definition execute_commands (st : St) (commands : list string)
           (context : option pydict) : result (list pydict) * St :=
  execute_loop st commands context [].

(** The records of all the commands, each executed in the state that the
    one before it leaves. *)
Fixpoint run_all (st : St) (commands : list string) (context : option pydict)
  : list pydict :=
  match commands with
  | [] => []
  | command :: commands' =>
      let (record, st) := execute_command st command context in
      record :: run_all st commands' context
  end.

End Executor.

(** A record whose ["success"] entry is true. *)
Definition record_ok (record : pydict) : bool :=
  match dict_get "success" record with
  | Some v => truthy v
  | None => false
  end.

(** The records up to the first one that is not a success, that one
    included. *)
Fixpoint through_first_failure (records : list pydict) : list pydict :=
  match records with
  | [] => []
  | r :: records' =>
      if record_ok r then r :: through_first_failure records' else [r]
  end.

(** [context.get("stop_on_error", True)] is true. *)
Definition stops_on_error (d : pydict) : bool :=
  truthy (match dict_get "stop_on_error" d with
          | Some v => v
          | None => JBool true
          end).

(** A bridge that runs [PRINT] commands only; the state counts the
    commands executed. *)
Definition sample_execute (st : nat) (command : string) (context : option pydict)
  : pydict * nat :=
  ([ ("execution_id", JStr ("exec_1700000000_" ++ PyStr.str_of_nat st));
     ("command", JStr command);
     ("success", JBool (PyStr.startswith "PRINT" command));
     ("output", JStr "");
     ("execution_time", JFloat 12.5%Q) ],
   S st).

(** *** [AILayerIntegration._execute_commands] *)

Section ExecuteCommands.

Variable St : Type.
Variable execute_command : St -> string -> option pydict -> pydict * St.

(** The [for command in commands] loop of [_execute_commands].  Every
    command comes with the reading of [time.time()] that
    [update_context] takes when the command succeeds; [context] is
    [interaction.context]. *)
Fixpoint _execute_commands (st : St) (cm : AIContextManager) (context : pydict)
         (commands : list (string * Q)) (results : list pydict)
  : result (list pydict) * AIContextManager * St :=
  match commands with
  | [] => (Ok results, cm, st)
  | (command, now) :: commands' =>
      let (record, st) := execute_command st command (Some context) in
      let results := (results ++ [record])%list in
      (* Update context with execution result *)
      match getitem (JDict record) "success" with
      | Raise e => (Raise e, cm, st)
      | Ok ok =>
          if truthy ok then
            match getitem (JDict record) "output" with
            | Raise e => (Raise e, cm, st)
            | Ok output =>
                match getitem (JDict record) "execution_time" with
                | Raise e => (Raise e, cm, st)
                | Ok execution_time =>
                    let cm :=
                      update_context cm now "emulator_state"
                        [ ("last_command", JStr command);
                          ("last_output", output);
                          ("execution_time", execution_time) ] in
                    _execute_commands st cm context commands' results
                end
            end
          else _execute_commands st cm context commands' results
      end
  end.

End ExecuteCommands.

(** The last command whose record is a success. *)
Fixpoint last_ok (commands : list string) (records : list pydict)
  : option string :=
  match commands, records with
  | command :: commands', record :: records' =>
      match last_ok commands' records' with
      | Some c => Some c
      | None => if record_ok record then Some command else None
      end
  | _, _ => None
  end.

End IntegrationMore.


(* ================================================================== *)
(** ** [bridge_server.py]: the AI request of the bridge                *)
(* ================================================================== *)

Module BridgeServer.

(** [s.split(sep)] for a separator of one character *)
Fixpoint split_on (sep : ascii) (s : string) : list string :=
  match s with
  | EmptyString => [EmptyString]
  | String c s' =>
      if Ascii.eqb c sep then EmptyString :: split_on sep s'
      else
        match split_on sep s' with
        | w :: ws => String c w :: ws
        | [] => [String c EmptyString]
        end
  end.

Fixpoint all_digits (s : string) : bool :=
  match s with
  | EmptyString => true
  | String c s' => PyStr.is_digit c && all_digits s'
  end.

(** [s.isdigit()] *)
Definition isdigit (s : string) : bool :=
  negb (PyStr.is_empty s) && all_digits s.

Definition newline : ascii := ascii_of_nat 10.

Definition basic_keywords : list string :=
  ["PRINT"; "LET"; "FOR"; "NEXT"; "IF"; "THEN"; "GOTO"; "END"; "REM"].

(** One turn of the [for line in lines] loop of
    [_parse_ai_response_to_commands]: what it appends to [commands]. *)
Definition parse_line (n_lines : nat) (line : string) : list string :=
  let line := PyStr.strip line in
  if PyStr.is_empty line then []
  else
    (* Check if line looks like a BASIC command *)
    if existsb (fun keyword => PyStr.contains keyword (PyStr.upper line))
         basic_keywords
    then [line]
    else if isdigit line && (1 <? n_lines) then
      (* Skip line numbers without commands *)
      []
    else
      (* Try to interpret as a command *)
      if negb (PyStr.is_empty line) then [line] else [].

(** [_parse_ai_response_to_commands] *)
Definition _parse_ai_response_to_commands (ai_response : string) : list string :=
  let lines := split_on newline (PyStr.strip ai_response) in
  flat_map (parse_line (List.length lines)) lines.

(** The same on a value that may not be a [str]. *)
Definition parse_value (v : json) : result (list string) :=
  match v with
  | JStr s => Ok (_parse_ai_response_to_commands s)
  | _ =>
      Raise (AttributeError
               ("'" ++ type_name v ++ "' object has no attribute 'strip'"))
  end.

(** [_translate_prompt_to_basic] *)
Definition _translate_prompt_to_basic (prompt : string) : list string :=
  let prompt_lower := PyStr.lower prompt in
  if PyStr.contains "print" prompt_lower
     || PyStr.contains "display" prompt_lower
     || PyStr.contains "show" prompt_lower
  then
    (* Extract text to print *)
    if PyStr.has_char PyStr.dquote prompt then
      let text := nth 1 (split_on PyStr.dquote prompt) "" in
      ["PRINT " ++ PyStr.dq ++ text ++ PyStr.dq]
    else ["PRINT " ++ PyStr.dq ++ "Hello from AI Vintage OS!" ++ PyStr.dq]
  else if PyStr.contains "calculate" prompt_lower
          || PyStr.contains "math" prompt_lower
          || PyStr.contains "add" prompt_lower
  then
    if PyStr.contains "add" prompt_lower then
      [ "LET A = 5"; "LET B = 3"; "LET C = A + B";
        "PRINT " ++ PyStr.dq ++ "A + B = " ++ PyStr.dq ++ "; C" ]
    else []
  else if PyStr.contains "loop" prompt_lower
          || PyStr.contains "repeat" prompt_lower
  then
    [ "FOR I = 1 TO 10";
      "PRINT " ++ PyStr.dq ++ "Iteration: " ++ PyStr.dq ++ "; I";
      "NEXT I" ]
  else if PyStr.contains "variable" prompt_lower
          || PyStr.contains "assign" prompt_lower
  then
    [ "LET X = 42"; "PRINT " ++ PyStr.dq ++ "X = " ++ PyStr.dq ++ "; X" ]
  else
    (* Default response *)
    [ "PRINT " ++ PyStr.dq ++ "AI command received" ++ PyStr.dq;
      "PRINT " ++ PyStr.dq ++ "Executing default program" ++ PyStr.dq ].

(** A stripped line that the loop keeps: it is not empty, and it is not a
    bare number among several lines. *)
Definition kept (n_lines : nat) (line : string) : bool :=
  negb (PyStr.is_empty line) && negb (isdigit line && (1 <? n_lines)).

(** [min(a, b)]: the first argument, unless the second is smaller. *)
Definition py_min (a b : Q) : Q := if Qltb b a then b else a.

(** [d.get(k, default)] for an entry that holds a number; [None] when it
    holds something else. *)
Definition number_entry (d : pydict) (k : string) (default : Q) : option Q :=
  match dict_get k d with
  | None => Some default
  | Some (JFloat q) => Some q
  | Some (JInt z) => Some (inject_Z z)
  | Some _ => None
  end.

(** [class AIRequest], the fields that [_process_ai_request] reads. *)
Record AIRequest : Type := mkRequest {
  prompt : string;
  model : option string;
  context : option pydict
}.

(** [class AIResponse] *)
Record AIResponse : Type := mkAIResponse {
  success : bool;
  response : option string;
  commands : list string;
  confidence : Q;
  error : option string;
  processing_time : Q
}.

(** The readings of the clocks during [_process_ai_request]. *)
Record Clock : Type := mkClock {
  start_time : Q;                       (* [time.perf_counter()] on entry *)
  send_clock : Sender.Clock;            (* the readings of [send_command] *)
  sent_time : Q;                        (* [time.perf_counter()] behind it *)
  translate_clock : Translator.Clock;   (* the readings of [translate_command] *)
  fail_time : Q                         (* [time.perf_counter()] in the [except] clause *)
}.

Section World.

Variable W : Type.
Variable digest : string * option string * pydict -> string.

(** [class BridgeServer]: the sender, the translator and the counter
    [stats["ai_requests_processed"]]. *)
Record BridgeServer : Type := mkServer {
  ai_sender : Sender.AICommandSender W;
  ai_translator : Translator.AICommandTranslator;
  ai_requests_processed : Z
}.

(** The [except] clause of [_process_ai_request]. *)
Definition request_failed (clk : Clock) (e : exn) : AIResponse :=
  mkAIResponse false None [] 0.0%Q (Some (str_of_exn e))
    ((fail_time clk - start_time clk) * 1000)%Q.

(** [f"Generated {len(commands)} BASIC command(s) from AI response"] *)
Definition generated (commands : list string) : string :=
  "Generated " ++ PyStr.str_of_nat (List.length commands)
    ++ " BASIC command(s) from AI response".

(** [f"Fallback: Generated {len(commands)} BASIC command(s)"] *)
Definition fallback_generated (commands : list string) : string :=
  "Fallback: Generated " ++ PyStr.str_of_nat (List.length commands)
    ++ " BASIC command(s)".

(** [_process_ai_request].  The answer is [None] for a result of the
    sender whose ["response"] is not a [str] or whose ["confidence"] is
    not a number; [send_command] builds no such result, and the model
    stops there. *)
Definition _process_ai_request (self : BridgeServer) (w : W) (clk : Clock)
           (request : AIRequest)
  : option (AIResponse * BridgeServer * W * list Sender.Event) :=
  (* Use the AI command sender for actual AI processing *)
  let '(r, sender, w, events) :=
    Sender.send_command W digest (ai_sender self) w (send_clock clk)
      (prompt request) (model request) (context request) in
  let ai_result := Sender.deref W sender r in
  let self := mkServer sender (ai_translator self) (ai_requests_processed self) in
  (* Calculate processing time *)
  let processing_time := ((sent_time clk - start_time clk) * 1000)%Q in
  match Integration.getitem (JDict ai_result) "success" with
  | Raise e => Some (request_failed clk e, self, w, events)
  | Ok ok =>
      if truthy ok then
        match Integration.getitem (JDict ai_result) "response" with
        | Raise e => Some (request_failed clk e, self, w, events)
        | Ok (JStr ai_response) =>
            (* Translate AI response to BASIC commands *)
            let (translation_result, translator) :=
              Translator.translate_command (ai_translator self)
                (translate_clock clk) ai_response (context request) in
            let self :=
              mkServer (ai_sender self) translator (ai_requests_processed self) in
            match translation_result with
            | Translator.Translated f =>
                (* Parse the translated response into individual commands *)
                match parse_value (Translator.translation f) with
                | Raise e => Some (request_failed clk e, self, w, events)
                | Ok commands =>
                    match number_entry ai_result "confidence" 0.5%Q with
                    | None => None
                    | Some ai_confidence =>
                        Some (mkAIResponse true (Some (generated commands))
                                commands
                                (py_min ai_confidence (Translator.confidence f))
                                None processing_time,
                              (* Update statistics *)
                              mkServer (ai_sender self) (ai_translator self)
                                (ai_requests_processed self + 1)%Z,
                              w, events)
                    end
                end
            | Translator.NotTranslated _ =>
                (* Fallback to simple parsing if translation fails *)
                let commands := _parse_ai_response_to_commands ai_response in
                match number_entry ai_result "confidence" 0.5%Q with
                | None => None
                | Some ai_confidence =>
                    Some (mkAIResponse true (Some (fallback_generated commands))
                            commands (ai_confidence * 0.7)%Q
                            None processing_time,
                          mkServer (ai_sender self) (ai_translator self)
                            (ai_requests_processed self + 1)%Z,
                          w, events)
                end
            end
        | Ok _ => None
        end
      else
        (* Fallback to simple translation if AI fails *)
        let commands := _translate_prompt_to_basic (prompt request) in
        Some (mkAIResponse true (Some (fallback_generated commands)) commands
                0.3%Q None processing_time,
              self, w, events)
  end.

End World.

(** The bridge of the samples, and a request. *)
Definition sample_server : BridgeServer Samples.world :=
  mkServer Samples.world Samples.sample_sender Translator.new_translator 0.

Definition failing_server : BridgeServer Samples.world :=
  mkServer Samples.world SenderMore.failing_sender Translator.new_translator 0.

Definition sample_request : AIRequest :=
  mkRequest "Print hello world" None (Some []).

Definition sample_clock : Clock :=
  mkClock 10.0%Q Samples.first_clock 10.5%Q Translator.sample_clock 10.5%Q.

End BridgeServer.


(* ================================================================== *)
(** ** [error_handler.py]: the health status                           *)
(* ================================================================== *)

Module ErrorHandler.

(** [category.value] *)
Definition category_value (c : ErrorCategory) : string :=
  match c with
  | VALIDATION => "validation"
  | TRANSLATION => "translation"
  | EXECUTION => "execution"
  | COMMUNICATION => "communication"
  | SYSTEM => "system"
  | PERFORMANCE => "performance"
  | SECURITY => "security"
  end.

(** An entry of [health_status["components"]]. *)
Record Component : Type := mkComponent {
  status : string;
  last_error : option Q;
  error_count : Z
}.

(** [self.health_status], without the constant ["uptime"]. *)
Record HealthStatus : Type := mkHealth {
  overall : string;
  components : list (string * Component);
  last_check : Q
}.

(** [health_status] as [ErrorHandler()] sets it up at the time [now]. *)
Definition new_health (now : Q) : HealthStatus := mkHealth "healthy" [] now.

Fixpoint comp_get (k : string) (l : list (string * Component)) : option Component :=
  match l with
  | [] => None
  | (k', c) :: l' => if String.eqb k k' then Some c else comp_get k l'
  end.

Fixpoint comp_set (k : string) (c : Component) (l : list (string * Component))
  : list (string * Component) :=
  match l with
  | [] => [(k, c)]
  | (k', c') :: l' =>
      if String.eqb k k' then (k', c) :: l' else (k', c') :: comp_set k c l'
  end.

(** [s in component_statuses] *)
Definition among (s : string) (statuses : list string) : bool :=
  existsb (String.eqb s) statuses.

(** [_update_health_status] at the time [current_time] *)
Definition _update_health_status (h : HealthStatus) (current_time : Q)
           (severity : ErrorSeverity) (category : ErrorCategory) : HealthStatus :=
  (* Update component health *)
  let component_name := category_value category in
  let component :=
    match comp_get component_name (components h) with
    | Some c => c
    | None => mkComponent "healthy" None 0
    end in
  let count := (error_count component + 1)%Z in
  (* Determine component status *)
  let new_status :=
    match severity with
    | CRITICAL => "critical"
    | HIGH => if (5 <? count)%Z then "degraded" else status component
    | MEDIUM => if (10 <? count)%Z then "warning" else status component
    | LOW => status component
    end in
  let components :=
    comp_set component_name
      (mkComponent new_status (Some current_time) count) (components h) in
  (* Update overall health *)
  let component_statuses := map (fun x => status (snd x)) components in
  let overall :=
    if among "critical" component_statuses then "critical"
    else if among "degraded" component_statuses then "degraded"
    else if among "warning" component_statuses then "warning"
    else "healthy" in
  mkHealth overall components current_time.

(** An error as [_update_health_status] sees it. *)
Record ErrorEvent : Type := mkEvent {
  ev_time : Q;
  ev_severity : ErrorSeverity;
  ev_category : ErrorCategory
}.

(** The health status after the errors [events], in order. *)
Definition after_errors (events : list ErrorEvent) (h : HealthStatus)
  : HealthStatus :=
  fold_left
    (fun h e => _update_health_status h (ev_time e) (ev_severity e) (ev_category e))
    events h.

(** A status other than ["healthy"] that the function assigns. *)
Definition unhealthy (s : string) : bool :=
  String.eqb s "critical" || String.eqb s "degraded" || String.eqb s "warning".

(** Some component has a status that is not healthy. *)
Definition some_unhealthy (h : HealthStatus) : Prop :=
  exists name c, comp_get name (components h) = Some c /\
                 unhealthy (status c) = true.

End ErrorHandler.


(* ================================================================== *)
(** ** The responses that the parsers can read                         *)
(* ================================================================== *)

Module ProviderShape.

Import Provider.

(** A content field as the parsers read it: absent counts as the empty
    string, a string is taken as it is, anything else has no [strip]. *)
Definition text_field (v : option json) : option string :=
  match v with
  | None => Some ""
  | Some (JStr s) => Some s
  | Some _ => None
  end.

(** The content of a completion that [OpenAIProvider._parse_response]
    can read: the response is an object, its ["choices"] a list headed
    by an object, the ["message"] of that choice an object or absent, the
    ["content"] of the message a string or absent, and ["usage"] an
    object or absent.  [None] for every other value. *)
Definition openai_raw_content (response_data : json) : option string :=
  match response_data with
  | JDict d =>
      match dict_get "choices" d with
      | Some (JList (JDict choice :: _)) =>
          if dict_or_absent (dict_get "usage" d) then
            match dict_get "message" choice with
            | None => Some ""
            | Some (JDict message) => text_field (dict_get "content" message)
            | Some _ => None
            end
          else None
      | _ => None
      end
  | _ => None
  end.

(** The text of a Gemini answer that [GoogleProvider._parse_response]
    can read: the response is an object, its ["candidates"] a list headed
    by an object, the ["content"] of that candidate an object whose
    ["parts"] is a list headed by an object, the ["text"] of that part a
    string or absent, and ["usageMetadata"] an object or absent. *)
Definition google_raw_content (response_data : json) : option string :=
  match response_data with
  | JDict d =>
      match dict_get "candidates" d with
      | Some (JList (JDict candidate :: _)) =>
          match dict_get "content" candidate with
          | Some (JDict content) =>
              match dict_get "parts" content with
              | Some (JList (JDict part :: _)) =>
                  if dict_or_absent (dict_get "usageMetadata" d)
                  then text_field (dict_get "text" part)
                  else None
              | _ => None
              end
          | _ => None
          end
      | _ => None
      end
  | _ => None
  end.

(** Sample payloads with a content, and payloads that cannot be read. *)
Definition openai_hello : json :=
  JDict [ ("choices",
           JList [ JDict [ ("message",
                            JDict [("role", JStr "assistant");
                                   ("content", JStr " 10 PRINT X ")]);
                           ("finish_reason", JStr "stop") ] ]);
          ("model", JStr "gpt-4-0613") ].

Definition google_hello : json :=
  JDict [ ("candidates",
           JList [ JDict [ ("content",
                            JDict [("parts",
                                    JList [JDict [("text", JStr " 10 PRINT X ")]])]);
                           ("finishReason", JStr "STOP") ] ]);
          ("modelVersion", JStr "gemini-1.5-pro-002") ].

Definition openai_null_content : json :=
  JDict [ ("choices",
           JList [ JDict [ ("message",
                            JDict [("role", JStr "assistant");
                                   ("content", JNull)]) ] ]) ].

End ProviderShape.


(* ================================================================== *)
(** ** The phases of an interaction on the wire                        *)
(* ================================================================== *)

Module Wire.

Import Integration.

Definition json_of_strings (l : list string) : json := JList (map JStr l).

Definition json_of_option (v : option string) : json :=
  match v with Some s => JStr s | None => JNull end.

(** The dictionary of [_validate_translation] *)
Definition json_of_validation (v : Translator.Validation) : json :=
  JDict [ ("is_valid", JBool (Translator.is_valid v));
          ("issues", json_of_strings (Translator.issues v));
          ("suggestions", json_of_strings (Translator.suggestions v));
          ("syntax_score", JFloat (Translator.syntax_score v)) ].

(** The two dictionaries of [translate_command], as JSON. *)
Definition json_of_result (r : Translator.TranslationResult) : json :=
  match r with
  | Translator.Translated f =>
      JDict [ ("translation_id", JStr (Translator.translation_id f));
              ("success", JBool true);
              ("original_command", JStr (Translator.original_command f));
              ("translation", Translator.translation f);
              ("confidence", JFloat (Translator.confidence f));
              ("strategy_used", JStr (Translator.strategy_used f));
              ("validation", json_of_validation (Translator.validation f));
              ("translation_time", JFloat (Translator.translation_time f));
              ("timestamp", JFloat (Translator.timestamp f));
              ("context_used", JBool (Translator.context_used f)) ]
  | Translator.NotTranslated e =>
      JDict [ ("translation_id", JStr (Translator.e_translation_id e));
              ("success", JBool false);
              ("error", JStr (Translator.e_error e));
              ("original_command", JStr (Translator.e_original_command e));
              ("translation_time", JFloat (Translator.e_translation_time e));
              ("timestamp", JFloat (Translator.e_timestamp e));
              ("suggestions", json_of_strings (Translator.e_suggestions e)) ]
  end.

(** [class AIResponse] as the route [/ai/process] sends it. *)
Definition json_of_response (r : BridgeServer.AIResponse) : json :=
  JDict [ ("success", JBool (BridgeServer.success r));
          ("response", json_of_option (BridgeServer.response r));
          ("commands", json_of_strings (BridgeServer.commands r));
          ("confidence", JFloat (BridgeServer.confidence r));
          ("error", json_of_option (BridgeServer.error r));
          ("processing_time", JFloat (BridgeServer.processing_time r)) ].

(** How a [session.post] of the integration ends: with a response, of
    which the code reads the status and then the body as JSON or as
    text, or with an exception. *)
Inductive HttpOutcome : Type :=
| Responded (status : Z) (body : json) (error_text : string)
| Broken (e : exn).

(** [_send_to_ai_provider], a POST to [/ai/process] *)
Definition _send_to_ai_provider (outcome : HttpOutcome) : json :=
  match outcome with
  | Responded status body error_text =>
      if (status =? 200)%Z then body
      else JDict [ ("success", JBool false);
                   ("error", JStr ("AI provider error: " ++ PyStr.str_of_Z status
                                     ++ " - " ++ error_text)) ]
  | Broken e =>
      JDict [ ("success", JBool false);
              ("error", JStr ("AI provider communication failed: "
                                ++ str_of_exn e)) ]
  end.

(** [_translate_commands], a POST to [/ai/translate] *)
Definition _translate_commands (outcome : HttpOutcome) : json :=
  match outcome with
  | Responded status body error_text =>
      if (status =? 200)%Z then body
      else JDict [ ("success", JBool false);
                   ("error", JStr ("Translation error: " ++ PyStr.str_of_Z status
                                     ++ " - " ++ error_text)) ]
  | Broken e =>
      JDict [ ("success", JBool false);
              ("error", JStr ("Translation communication failed: "
                                ++ str_of_exn e)) ]
  end.

Section World.

Variable W : Type.

(** [BridgeServer._translate_ai_command], the handler of [/ai/translate]:
    it answers the dictionary of [translate_command] for the prompt of
    the request.  Nothing in its [try] block raises; what its [except]
    clause would answer is [translate_handler_failed] below. *)
Definition _translate_ai_command (self : BridgeServer.BridgeServer W)
           (clk : Translator.Clock) (request : BridgeServer.AIRequest)
  : json * BridgeServer.BridgeServer W :=
  let (result, translator) :=
    Translator.translate_command (BridgeServer.ai_translator W self) clk
      (BridgeServer.prompt request) (BridgeServer.context request) in
  (json_of_result result,
   BridgeServer.mkServer W (BridgeServer.ai_sender W self) translator
     (* Update statistics *)
     (BridgeServer.ai_requests_processed W self + 1)%Z).

End World.



(** The interaction of the samples against the bridge of the samples: the
    answer of [/ai/process], and the answer that [/ai/translate] gives
    when it accepts the text of that answer as a prompt. *)
Definition sample_provider_answer : json :=
  match BridgeServer._process_ai_request Samples.world Samples.sample_digest
          BridgeServer.sample_server 0 BridgeServer.sample_clock
          BridgeServer.sample_request with
  | Some (r, _, _, _) => json_of_response r
  | None => JNull
  end.

Definition sample_translate_answer : HttpOutcome :=
  Responded 200
    (fst (_translate_ai_command Samples.world BridgeServer.sample_server
            Translator.sample_clock
            (BridgeServer.mkRequest
               "Generated 1 BASIC command(s) from AI response" None (Some []))))
    "".

(** The answer to the request that [_translate_commands] really sends,
    which has no [prompt]. *)
Definition sample_translate_refusal : HttpOutcome :=
  Responded 422 JNull "{detail: [{loc: [body, prompt], msg: field required}]}".

End Wire.


(* ===== PROPERTIES ===== *)

(* ================================================================== *)
(** ** Sanity checks of the primitives                                 *)
(* ================================================================== *)

Example lower_ex : PyStr.lower "Print Hello" = "print hello".
Proof. reflexivity. Qed.

Example strip_ex : PyStr.strip "  a b   " = "a b".
Proof. reflexivity. Qed.

Example split_ex : PyStr.split "  set  x to 42 " = ["set"; "x"; "to"; "42"].
Proof. reflexivity. Qed.

Example count_ex :
  PyStr.count "aa" "aaaaa" = 2 /\
  PyStr.count "FOR" "FOR I = 1 TO 10 NEXT I FORFOR" = 3.
Proof. split; reflexivity. Qed.

Example search_ex :
  Re.search (Re.seqs [Re.lit "to"; Re.plus Re.ws; Re.Grp 1 (Re.plus Re.digit)])
    "from 1 to  42." = Some [(1, "42")].
Proof. reflexivity. Qed.

(* ================================================================== *)
(** ** The bound of the repetition loop                                *)
(* ================================================================== *)

Section StarBound.

Import Re.

Lemma agree_below_shorter (s s' : string) (k1 k2 : string -> caps -> option caps) :
  String.length s' <= String.length s ->
  agree_below s k1 k2 -> agree_below s' k1 k2.
Proof. intros Hl H t ct Ht. apply H. lia. Qed.

Section Loop.

Variable step : string -> caps -> (string -> caps -> option caps) -> option caps.

(** The body of the repetition calls its continuation on the rest of the
    text only, and fails when its continuation does. *)
Hypothesis step_ext :
  forall s cs k1 k2, agree_below s k1 k2 -> step s cs k1 = step s cs k2.
Hypothesis step_fails : forall s cs, step s cs fails = None.

Lemma star_loop_ext (n : nat) (s : string) (cs : caps)
      (k1 k2 : string -> caps -> option caps) :
  agree_below s k1 k2 -> star_loop step k1 n s cs = star_loop step k2 n s cs.
Proof.
  revert s cs. induction n as [|n IH]; intros s cs H; cbn [star_loop].
  - apply H. lia.
  - rewrite (H s cs) by lia.
    erewrite step_ext; [reflexivity|].
    intros s' cs' Hs'. destruct (String.length s' <? String.length s); [|reflexivity].
    apply IH. now apply agree_below_shorter with s.
Qed.

Lemma star_loop_fails (n : nat) (s : string) (cs : caps) :
  star_loop step fails n s cs = None.
Proof.
  revert s cs. induction n as [|n IH]; intros s cs; cbn [star_loop];
    [reflexivity|].
  erewrite step_ext; [rewrite step_fails; reflexivity|].
  intros s' cs' _. destruct (_ <? _); [apply IH|reflexivity].
Qed.

(** On the empty text no iteration is possible. *)
Lemma star_loop_empty (n : nat) (s : string) (cs : caps)
      (k : string -> caps -> option caps) :
  String.length s = 0 -> star_loop step k n s cs = k s cs.
Proof.
  intros Hs. destruct n as [|n]; cbn [star_loop]; [reflexivity|].
  erewrite step_ext; [rewrite step_fails; reflexivity|].
  intros s' cs' _. rewrite Hs. reflexivity.
Qed.

(** Any bound that is at least the length of the text gives the same
    answer: the bound never cuts the repetition short. *)
Lemma star_loop_bound (n m : nat) (s : string) (cs : caps)
      (k : string -> caps -> option caps) :
  String.length s <= n -> String.length s <= m ->
  star_loop step k n s cs = star_loop step k m s cs.
Proof.
  revert m s cs. induction n as [|n IH]; intros m s cs Hn Hm.
  - rewrite !star_loop_empty by lia. reflexivity.
  - destruct m as [|m].
    + rewrite !star_loop_empty by lia. reflexivity.
    + cbn [star_loop]. erewrite step_ext; [reflexivity|].
      intros s' cs' Hs'.
      destruct (String.length s' <? String.length s) eqn:E; [|reflexivity].
      apply Nat.ltb_lt in E. apply IH; lia.
Qed.

End Loop.

Lemma rmatch_ext (r : regex) (s : string) (cs : caps)
      (k1 k2 : string -> caps -> option caps) :
  agree_below s k1 k2 -> rmatch r s cs k1 = rmatch r s cs k2.
Proof.
  revert s cs k1 k2.
  induction r as [|c|p|r1 IH1 r2 IH2|r1 IH1 r2 IH2|r IH|i r IH];
    intros s cs k1 k2 H; cbn [rmatch].
  - apply H. lia.
  - destruct s as [|a s]; [reflexivity|]. destruct (chr_eq c a); [|reflexivity].
    apply H. cbn. lia.
  - destruct s as [|a s]; [reflexivity|]. destruct (p a); [|reflexivity].
    apply H. cbn. lia.
  - apply IH1. intros s' cs' Hs'. apply IH2.
    now apply agree_below_shorter with s.
  - rewrite (IH1 s cs k1 k2 H), (IH2 s cs k1 k2 H). reflexivity.
  - now apply star_loop_ext.
  - apply IH. intros s' cs' Hs'. now apply H.
Qed.

Lemma rmatch_fails (r : regex) (s : string) (cs : caps) :
  rmatch r s cs fails = None.
Proof.
  revert s cs.
  induction r as [|c|p|r1 IH1 r2 IH2|r1 IH1 r2 IH2|r IH|i r IH];
    intros s cs; cbn [rmatch].
  - reflexivity.
  - destruct s as [|a s]; [reflexivity|]. now destruct (chr_eq c a).
  - destruct s as [|a s]; [reflexivity|]. now destruct (p a).
  - erewrite rmatch_ext; [apply IH1|]. intros s' cs' _. apply IH2.
  - now rewrite IH1, IH2.
  - apply star_loop_fails; [intros; now apply rmatch_ext|apply IH].
  - erewrite rmatch_ext; [apply IH|]. intros s' cs' _. reflexivity.
Qed.

(** The repetition of the matcher does not depend on its bound, as long
    as the bound is at least the length of the text. *)
Lemma rmatch_star_bound (r : regex) (n : nat) (s : string) (cs : caps)
      (k : string -> caps -> option caps) :
  String.length s <= n ->
  rmatch (Star r) s cs k = star_loop (rmatch r) k n s cs.
Proof.
  intros Hn. cbn [rmatch].
  apply star_loop_bound; try lia.
  - intros; now apply rmatch_ext.
  - apply rmatch_fails.
Qed.

End StarBound.

(* ================================================================== *)
(** ** Counting and stripping                                          *)
(* ================================================================== *)

Section CountStrip.

Import PyStr.

Lemma prefix_cons (a b : ascii) (p s : string) :
  String.prefix (String a p) (String b s) = Ascii.eqb a b && String.prefix p s.
Proof.
  simpl. destruct (ascii_dec a b) as [->|Hne].
  - now rewrite Ascii.eqb_refl.
  - apply Ascii.eqb_neq in Hne. now rewrite Hne.
Qed.

Lemma rstrip_empty_all_space (s : string) :
  PyStr.rstrip s = EmptyString -> all_space s = true.
Proof.
  induction s as [|c s IH]; simpl; [reflexivity|].
  destruct (PyStr.rstrip s) eqn:E; [|discriminate].
  destruct (PyStr.isspace c); [|discriminate].
  intros _. now rewrite IH.
Qed.

Lemma rstrip_cons (c : ascii) (s : string) :
  PyStr.rstrip (String c s) = EmptyString /\ all_space (String c s) = true
  \/ PyStr.rstrip (String c s) = String c (PyStr.rstrip s).
Proof.
  simpl. destruct (PyStr.rstrip s) eqn:E.
  - destruct (PyStr.isspace c) eqn:Hc.
    + left. split; [reflexivity|]. now rewrite rstrip_empty_all_space.
    + now right.
  - now right.
Qed.

Lemma prefix_space_head (a c : ascii) (p s : string) :
  PyStr.isspace a = false -> PyStr.isspace c = true ->
  String.prefix (String a p) (String c s) = false.
Proof.
  intros Ha Hc. rewrite prefix_cons.
  destruct (Ascii.eqb a c) eqn:E; [|reflexivity].
  apply Ascii.eqb_eq in E. congruence.
Qed.

Lemma prefix_rstrip (p s : string) :
  no_space p = true -> String.prefix p (PyStr.rstrip s) = String.prefix p s.
Proof.
  revert p. induction s as [|c s IH]; intros p Hp; [reflexivity|].
  destruct p as [|a p]; [now destruct (rstrip (String c s))|].
  simpl in Hp. apply andb_true_iff in Hp as [Ha Hp].
  apply negb_true_iff in Ha.
  destruct (rstrip_cons c s) as [[E Hall]| E]; rewrite E.
  - simpl in Hall. apply andb_true_iff in Hall as [Hc _].
    now rewrite prefix_space_head.
  - rewrite !prefix_cons. now rewrite IH.
Qed.

Lemma count_from_all_space (k : nat) (a : ascii) (p s : string) :
  PyStr.isspace a = false -> all_space s = true ->
  PyStr.count_from k (String a p) s = 0.
Proof.
  intros Ha. revert k. induction s as [|c s IH]; intros k Hs; [reflexivity|].
  simpl in Hs. apply andb_true_iff in Hs as [Hc Hs].
  cbn [PyStr.count_from]. destruct k as [|k]; [|now apply IH].
  rewrite prefix_space_head by assumption. now apply IH.
Qed.

Lemma count_from_rstrip (k : nat) (a : ascii) (p s : string) :
  no_space (String a p) = true ->
  PyStr.count_from k (String a p) (PyStr.rstrip s)
  = PyStr.count_from k (String a p) s.
Proof.
  intros Hp. revert k. induction s as [|c s IH]; intros k; [reflexivity|].
  pose proof Hp as Hp'. simpl in Hp'.
  apply andb_true_iff in Hp' as [Ha _]. apply negb_true_iff in Ha.
  destruct (rstrip_cons c s) as [[E Hall]| E]; rewrite E.
  - rewrite (count_from_all_space k a p (String c s)) by assumption.
    now destruct k.
  - cbn [PyStr.count_from]. destruct k as [|k]; [|apply IH].
    rewrite <- E, prefix_rstrip by assumption.
    destruct (String.prefix (String a p) (String c s)); now rewrite IH.
Qed.

Lemma count_from_lstrip (a : ascii) (p s : string) :
  PyStr.isspace a = false ->
  PyStr.count_from 0 (String a p) (PyStr.lstrip s)
  = PyStr.count_from 0 (String a p) s.
Proof.
  intros Ha. induction s as [|c s IH]; [reflexivity|].
  cbn [PyStr.lstrip]. destruct (PyStr.isspace c) eqn:Hc; [|reflexivity].
  rewrite IH. cbn [PyStr.count_from].
  now rewrite prefix_space_head.
Qed.

Lemma prefix_avoids (a : ascii) (p s : string) :
  has_char a p = false -> String.prefix p s = true ->
  avoids (String.length p) a s = true.
Proof.
  revert s. induction p as [|b p IH]; intros s Ha Hp; [reflexivity|].
  destruct s as [|c s]; [reflexivity|].
  rewrite prefix_cons in Hp. apply andb_true_iff in Hp as [Hbc Hp].
  apply Ascii.eqb_eq in Hbc. subst c.
  cbn [has_char] in Ha. apply orb_false_iff in Ha as [Hba Ha].
  cbn [String.length avoids]. rewrite Hba. cbn [negb andb]. now apply IH.
Qed.

(** For a pattern whose first character does not occur in it again, as in
    FOR, NEXT, IF and THEN, occurrences cannot overlap: [str.count] counts
    all of them. *)
Lemma count_from_occurrences (a : ascii) (p s : string) (k : nat) :
  has_char a p = false -> avoids k a s = true ->
  count_from k (String a p) s = occurrences (String a p) s.
Proof.
  intros Ha. revert k. induction s as [|c s IH]; intros k Hk.
  - now destruct k.
  - cbn [count_from occurrences]. destruct k as [|k].
    + destruct (String.prefix (String a p) (String c s)) eqn:Hp.
      * cbn [String.length Nat.sub]. rewrite Nat.sub_0_r.
        rewrite IH; [reflexivity|].
        rewrite prefix_cons in Hp. apply andb_true_iff in Hp as [_ Hp].
        now apply prefix_avoids.
      * now rewrite IH.
    + cbn [avoids] in Hk. apply andb_true_iff in Hk as [Hc Hk].
      apply negb_true_iff in Hc.
      rewrite prefix_cons, Ascii.eqb_sym, Hc. cbn [andb Nat.add].
      now apply IH.
Qed.

Lemma count_occurrences (a : ascii) (p s : string) :
  has_char a p = false ->
  count (String a p) s = occurrences (String a p) s.
Proof.
  intros Ha. unfold count. cbn [is_empty].
  now apply count_from_occurrences.
Qed.

(** Stripping a text does not change how often a keyword occurs in it. *)
Lemma count_strip (p s : string) :
  no_space p = true -> PyStr.is_empty p = false ->
  PyStr.count p (PyStr.strip s) = PyStr.count p s.
Proof.
  intros Hp Hne. destruct p as [|a p]; [discriminate|].
  unfold PyStr.count, PyStr.strip. cbn [PyStr.is_empty].
  rewrite count_from_rstrip by assumption.
  apply count_from_lstrip.
  simpl in Hp. apply andb_true_iff in Hp as [Ha _]. now apply negb_true_iff in Ha.
Qed.

End CountStrip.

(* ================================================================== *)
(** ** The statement validator                                         *)
(* ================================================================== *)

Section Validator.

Import Translator.

Lemma flag_issues_nil (c : bool) (i h : string) (v : list string * list string) :
  fst (flag c i h v) = [] -> c = false /\ fst v = [].
Proof.
  unfold flag. destruct c; cbn [fst].
  - intros H. destruct (fst v); discriminate H.
  - auto.
Qed.

Lemma flag_length (c : bool) (i h : string) (v : list string * list string) :
  List.length (fst (flag c i h v))
  = List.length (fst v) + (if c then 1 else 0).
Proof.
  unfold flag. destruct c; cbn [fst].
  - now rewrite length_app.
  - now rewrite Nat.add_0_r.
Qed.

(** When no check of the validator fires, the block keywords are balanced
    in the stripped upper-case text. *)
Lemma collect_issues_nil (s : string) :
  fst (collect_issues s) = [] ->
  let u := PyStr.strip (PyStr.upper s) in
  PyStr.count "FOR" u = PyStr.count "NEXT" u /\
  PyStr.count "IF" u = PyStr.count "THEN" u.
Proof.
  unfold collect_issues. intros H.
  apply flag_issues_nil in H as [Hif H].
  apply flag_issues_nil in H as [Hfor _].
  apply negb_false_iff in Hif, Hfor.
  apply Nat.eqb_eq in Hif, Hfor. now split.
Qed.

Lemma validate_str_nonempty (s : string) :
  PyStr.is_empty (PyStr.strip s) = false ->
  validate_str s =
  mkValidation (List.length (fst (collect_issues s)) =? 0)
    (fst (collect_issues s)) (snd (collect_issues s))
    (Qmax (1.0 - Qnat (List.length (fst (collect_issues s))) * 0.2) 0.0)%Q.
Proof.
  intros H. unfold validate_str. rewrite H.
  now destruct (collect_issues s).
Qed.

(** C5.  Whenever the validator marks a statement valid, its upper-cased
    text has as many occurrences of FOR as of NEXT and as many of IF as of
    THEN -- counted as [str.count] does and, which is the same for these
    keywords, as the number of positions at which the keyword occurs. *)
Theorem validator_balance (s : string) :
  is_valid (_validate_translation (JStr s)) = true ->
  let u := PyStr.upper s in
  (PyStr.count "FOR" u = PyStr.count "NEXT" u /\
   PyStr.count "IF" u = PyStr.count "THEN" u) /\
  (PyStr.occurrences "FOR" u = PyStr.occurrences "NEXT" u /\
   PyStr.occurrences "IF" u = PyStr.occurrences "THEN" u).
Proof.
  cbn [_validate_translation]. intros Hv. cbv zeta.
  destruct (PyStr.is_empty (PyStr.strip s)) eqn:He.
  - unfold validate_str in Hv. rewrite He in Hv. discriminate Hv.
  - rewrite validate_str_nonempty in Hv by assumption. cbn [is_valid] in Hv.
    apply Nat.eqb_eq in Hv. apply length_zero_iff_nil in Hv.
    apply collect_issues_nil in Hv. cbv zeta in Hv.
    rewrite !count_strip in Hv by reflexivity.
    split; [exact Hv|].
    rewrite <- !count_occurrences by reflexivity. exact Hv.
Qed.

Lemma validator_balance_witness :
  let s := "for i = 1 to 3: if i = 2 then print i;: next i" in
  is_valid (_validate_translation (JStr s)) = true /\
  PyStr.occurrences "FOR" (PyStr.upper s) = PyStr.occurrences "NEXT" (PyStr.upper s) /\
  PyStr.occurrences "IF" (PyStr.upper s) = PyStr.occurrences "THEN" (PyStr.upper s).
Proof.
  cbv zeta. split; [reflexivity|].
  apply (validator_balance "for i = 1 to 3: if i = 2 then print i;: next i").
  reflexivity.
Defined.

(** C6.  A statement that is empty once stripped is invalid.  For any other
    statement the syntax score is [max(0, 1.0 - 0.2 * n)], [n] the number of
    issues found, and the statement is valid exactly when no issue was
    found. *)
Theorem validator_score (s : string) :
  let v := _validate_translation (JStr s) in
  if PyStr.is_empty (PyStr.strip s) then is_valid v = false
  else
    (syntax_score v == Qmax 0 (1.0 - 0.2 * Qnat (List.length (issues v))))%Q /\
    (is_valid v = true <-> issues v = []).
Proof.
  cbn [_validate_translation]. cbv zeta.
  destruct (PyStr.is_empty (PyStr.strip s)) eqn:He.
  - unfold validate_str. now rewrite He.
  - rewrite validate_str_nonempty by assumption.
    cbn [syntax_score is_valid issues]. split.
    + rewrite Q.max_comm.
      apply Q.max_compat; [reflexivity|].
      unfold Qminus. apply Qplus_comp; [reflexivity|].
      apply Qopp_comp, Qmult_comm.
    + rewrite Nat.eqb_eq. apply length_zero_iff_nil.
Qed.

(** At most five checks can fire, so the floor of the score at 0 is never
    below the plain difference. *)
Lemma collect_issues_length (s : string) :
  List.length (fst (collect_issues s)) <= 5.
Proof.
  unfold collect_issues. rewrite !flag_length. cbn [fst List.length].
  repeat match goal with
         | |- context [if ?c then 1 else 0] => destruct c
         end; lia.
Qed.

Lemma validator_score_no_floor (s : string) :
  PyStr.is_empty (PyStr.strip s) = false ->
  let v := _validate_translation (JStr s) in
  (syntax_score v == 1.0 - 0.2 * Qnat (List.length (issues v)))%Q /\
  (0 <= syntax_score v)%Q /\ (syntax_score v <= 1)%Q.
Proof.
  intros He. cbn [_validate_translation]. cbv zeta.
  rewrite validate_str_nonempty by assumption. cbn [syntax_score issues].
  pose proof (collect_issues_length s) as Hn.
  destruct (List.length (fst (collect_issues s)))
    as [|[|[|[|[|[|n]]]]]]; try lia;
    repeat split; vm_compute; discriminate || reflexivity.
Qed.

Example validator_score_unbalanced :
  _validate_translation (JStr "FOR I = 1 TO 10") =
  mkValidation false ["Unbalanced FOR/NEXT loops (1 FOR, 0 NEXT)"]
    ["Ensure each FOR statement has a corresponding NEXT statement"]
    (Qmax (1.0 - Qnat 1 * 0.2) 0.0)%Q.
Proof. reflexivity. Qed.

Example validator_blank :
  _validate_translation (JStr "   ") =
  mkValidation false ["Empty translation"] [] 0.0%Q.
Proof. reflexivity. Qed.

End Validator.

(* ================================================================== *)
(** ** The rule-based strategy                                         *)
(* ================================================================== *)

Section RuleConfidence.

Import Translator.

Lemma Qnat_nonneg (n : nat) : (0 <= Qnat n)%Q.
Proof.
  unfold Qnat. change 0%Q with (inject_Z 0).
  rewrite <- Zle_Qle. lia.
Qed.

Lemma bonus_nonneg (n : nat) (cap : Q) :
  (0 <= cap)%Q -> (0 <= Qmin (Qnat n * 0.1) cap)%Q.
Proof.
  intros Hcap. apply Q.min_glb; [|assumption].
  apply Qmult_le_0_compat; [apply Qnat_nonneg|discriminate].
Qed.

(** C7.  The confidence of the rule-based strategy is
    [min(1.0, 0.5 + min(0.1 * k, 0.3) + min(0.1 * m, 0.2))], where [k] is the
    number of rule keywords that occur in the command and [m] the number of
    BASIC keywords that occur in the translation; it lies between 0.5 and 1. *)
Theorem rule_confidence_formula (command translation : string) :
  let k := Qnat (keyword_count command) in
  let m := Qnat (syntax_count translation) in
  let c := _calculate_rule_confidence command translation in
  (c == Qmin 1.0 (0.5 + Qmin (0.1 * k) 0.3 + Qmin (0.1 * m) 0.2))%Q /\
  (0.5 <= c)%Q /\ (c <= 1.0)%Q /\ (0 <= c)%Q.
Proof.
  cbv zeta. unfold _calculate_rule_confidence.
  set (k := Qnat (keyword_count command)).
  set (m := Qnat (syntax_count translation)).
  assert (Ha : (0 <= Qmin (k * 0.1) 0.3)%Q) by (apply bonus_nonneg; discriminate).
  assert (Hb : (0 <= Qmin (m * 0.1) 0.2)%Q) by (apply bonus_nonneg; discriminate).
  assert (Hlow : (0.5 <= Qmin (0.5 + Qmin (k * 0.1) 0.3 + Qmin (m * 0.1) 0.2) 1.0)%Q).
  { apply Q.min_glb; [|discriminate].
    rewrite <- (Qplus_0_r 0.5) at 1. rewrite <- Qplus_assoc.
    apply Qplus_le_compat; [apply Qle_refl|].
    rewrite <- (Qplus_0_r 0). now apply Qplus_le_compat. }
  split; [|split; [exact Hlow|split]].
  - rewrite Q.min_comm. apply Q.min_compat; [reflexivity|].
    apply Qplus_comp; [apply Qplus_comp; [reflexivity|]|];
      (apply Q.min_compat; [apply Qmult_comm|reflexivity]).
  - apply Q.le_min_r.
  - eapply Qle_trans; [|exact Hlow]. discriminate.
Qed.

Example rule_confidence_ex :
  rule_translate "if condition then action" None =
  Success (mkCandidate (JStr "IF THEN")
             (_calculate_rule_confidence "if condition then action" "IF THEN")
             "rule_based" None "if condition then action" None) /\
  (_calculate_rule_confidence "if condition then action" "IF THEN" == 0.9)%Q.
Proof. split; reflexivity. Qed.

(** The confidence that [RuleBasedTranslator.translate] reports is the
    one of [_calculate_rule_confidence] on the lower-cased, stripped
    command and the emitted translation. *)
Lemma rule_translate_confidence (ai_command : string) (ctx : context) (c : Candidate) :
  rule_translate ai_command ctx = Success c ->
  exists translation,
    c_translation c = JStr translation /\
    c_confidence c =
      _calculate_rule_confidence (PyStr.strip (PyStr.lower ai_command)) translation.
Proof.
  unfold rule_translate.
  destruct (rule_scan 0 _) as [|w ws]; [discriminate|].
  intros [= <-]. eexists. split; reflexivity.
Qed.

End RuleConfidence.

(* ================================================================== *)
(** ** The contextual strategy and the strategy loop                   *)
(* ================================================================== *)

Section Contextual.

Import Translator.

Lemma contextual_choice_positive (history : list string)
      (command_lower ai_command : string) (ctx : context) :
  (0 < snd (contextual_choice history command_lower ai_command ctx))%Q.
Proof.
  unfold contextual_choice.
  repeat match goal with
         | |- context [if ?b then _ else _] => destruct b
         | |- context [match ?x with _ => _ end] => destruct x
         end; reflexivity.
Qed.

Lemma contextual_translate_eq (self : ContextualTranslator)
      (ai_command : string) (ctx : context) :
  contextual_translate self ai_command ctx =
  let self' := remember self ai_command in
  let ch := contextual_choice (context_history self')
              (PyStr.strip (PyStr.lower ai_command)) ai_command ctx in
  (Success (mkCandidate (fst ch) (snd ch) "contextual" None ai_command
              (Some (context_truthy ctx))), self').
Proof.
  unfold contextual_translate. cbv zeta.
  now destruct (contextual_choice _ _ _ _).
Qed.

(** The contextual strategy answers every command with a candidate of
    positive confidence. *)
Lemma contextual_translate_success (self : ContextualTranslator)
      (ai_command : string) (ctx : context) :
  exists c,
    fst (contextual_translate self ai_command ctx) = Success c /\
    (0 < c_confidence c)%Q /\ c_strategy c = "contextual".
Proof.
  rewrite contextual_translate_eq. cbv zeta. cbn [fst].
  eexists. split; [reflexivity|]. cbn [c_confidence c_strategy].
  split; [apply contextual_choice_positive|reflexivity].
Qed.

Lemma Qltb_true (a b : Q) : (a < b)%Q -> Qltb a b = true.
Proof.
  intros H. unfold Qltb. apply negb_true_iff.
  destruct (Qle_bool b a) eqn:E; [|reflexivity].
  apply Qle_bool_iff in E. now apply Qle_not_lt in E.
Qed.

(** Once the loop holds a candidate it ends with one. *)
Lemma try_strategies_keeps (ss : list strategy) (cmd : string) (ctx : context)
      (b : Candidate) (bc : Q) :
  exists b', fst (fst (try_strategies ss cmd ctx (Some b) bc)) = Some b'.
Proof.
  revert b bc. induction ss as [|[T cls self] ss IH]; intros b bc.
  - now exists b.
  - cbn [try_strategies].
    destruct (can_translate self cmd).
    + destruct (translate self cmd ctx) as [r self'].
      destruct r as [[c|err oc]|e].
      * destruct (Qltb bc (c_confidence c)).
        -- destruct (Qleb 0.8 (c_confidence c)).
           ++ now exists c.
           ++ destruct (IH c (c_confidence c)) as [b' Hb'].
              destruct (try_strategies ss cmd ctx (Some c) _) as [[x y] z].
              now exists b'.
        -- destruct (IH b bc) as [b' Hb'].
           destruct (try_strategies ss cmd ctx (Some b) bc) as [[x y] z].
           now exists b'.
      * destruct (IH b bc) as [b' Hb'].
        destruct (try_strategies ss cmd ctx (Some b) bc) as [[x y] z].
        now exists b'.
      * destruct (IH b bc) as [b' Hb'].
        destruct (try_strategies ss cmd ctx (Some b) bc) as [[x y] z].
        now exists b'.
    + destruct (IH b bc) as [b' Hb'].
      destruct (try_strategies ss cmd ctx (Some b) bc) as [[x y] z].
      now exists b'.
Qed.

(** A strategy list that ends with the contextual strategy always yields a
    candidate, whatever the strategies before it answer or raise. *)
Lemma try_strategies_contextual_last (pre : list strategy)
      (c : ContextualTranslator) (cmd : string) (ctx : context) (bc : Q) :
  (bc <= 0)%Q ->
  exists b,
    fst (fst (try_strategies
                (pre ++ [Strategy ContextualTranslator Contextual_strategy c])%list
                cmd ctx None bc)) = Some b.
Proof.
  intros Hbc. induction pre as [|[T cls self] pre IH].
  - cbn [app try_strategies can_translate translate Contextual_strategy].
    destruct (contextual_translate_success c cmd ctx) as (b & Hb & Hpos & _).
    destruct (contextual_translate c cmd ctx) as [r c']. cbn [fst] in Hb.
    subst r. rewrite Qltb_true by (eapply Qle_lt_trans; eassumption).
    destruct (Qleb 0.8 (c_confidence b)); now exists b.
  - cbn [app try_strategies].
    destruct (can_translate self cmd).
    + destruct (translate self cmd ctx) as [r self'].
      destruct r as [[d|err oc]|e].
      * destruct (Qltb bc (c_confidence d)).
        -- destruct (Qleb 0.8 (c_confidence d)).
           ++ now exists d.
           ++ destruct (try_strategies_keeps
                          (pre ++ [Strategy ContextualTranslator Contextual_strategy c])%list
                          cmd ctx d (c_confidence d)) as [b' Hb'].
              destruct (try_strategies _ cmd ctx (Some d) _) as [[x y] z].
              now exists b'.
        -- destruct IH as [b' Hb'].
           destruct (try_strategies _ cmd ctx None bc) as [[x y] z].
           now exists b'.
      * destruct IH as [b' Hb'].
        destruct (try_strategies _ cmd ctx None bc) as [[x y] z].
        now exists b'.
      * destruct IH as [b' Hb'].
        destruct (try_strategies _ cmd ctx None bc) as [[x y] z].
        now exists b'.
    + destruct IH as [b' Hb'].
      destruct (try_strategies _ cmd ctx None bc) as [[x y] z].
      now exists b'.
Qed.

(** What [translate_command] returns once the loop has a candidate. *)
Lemma translate_command_candidate (self : AICommandTranslator) (clk : Clock)
      (cmd : string) (ctx : context) (best : Candidate) (bc : Q)
      (ss : list strategy) :
  try_strategies (strategies self) cmd ctx None 0.0%Q = (Some best, bc, ss) ->
  fst (translate_command self clk cmd ctx) =
  Translated
    (mkFinal
       ("trans_" ++ PyStr.str_of_Z (int_of_Q (now_id clk)) ++ "_"
          ++ PyStr.str_of_nat (List.length (translation_history self)))
       cmd (c_translation best) bc (c_strategy best)
       (_validate_translation (c_translation best))
       ((perf_end clk - perf_start clk) * 1000)%Q
       (now_stamp clk) (context_truthy ctx)).
Proof.
  intros H. unfold translate_command. rewrite H. reflexivity.
Qed.

(** C9.  The contextual strategy accepts every command and answers it with
    a successful candidate of positive confidence; hence a translator whose
    strategy list ends with the contextual strategy, as the one of
    [AICommandTranslator] does, returns a success result for every command:
    the branch for the case that no strategy could handle the command is
    never taken. *)
Theorem translate_command_always_succeeds :
  (forall (self : ContextualTranslator) (cmd : string),
      can_translate self cmd = true) /\
  (forall (self : ContextualTranslator) (cmd : string) (ctx : context),
      exists c, translate self cmd ctx
                = (Ok (Success c), snd (contextual_translate self cmd ctx)) /\
                (0 < c_confidence c)%Q) /\
  (forall (pre : list strategy) (c : ContextualTranslator)
          (hist : list TranslationResult) (mh : nat) (st : Stats)
          (clk : Clock) (cmd : string) (ctx : context),
      exists r,
        fst (translate_command
               (mkTranslator
                  (pre ++ [Strategy ContextualTranslator Contextual_strategy c])%list
                  hist mh st) clk cmd ctx) = Translated r).
Proof.
  split; [reflexivity|split].
  - intros self cmd ctx.
    destruct (contextual_translate_success self cmd ctx) as (c & Hc & Hpos & _).
    exists c. split; [|assumption].
    cbn [translate Contextual_strategy].
    destruct (contextual_translate self cmd ctx) as [r s'].
    cbn [fst] in Hc. now subst r.
  - intros pre c hist mh st clk cmd ctx.
    destruct (try_strategies_contextual_last pre c cmd ctx 0.0%Q) as [b Hb];
      [discriminate|].
    destruct (try_strategies _ cmd ctx None 0.0%Q) as [[x bc] ss] eqn:E.
    cbn [fst] in Hb. subst x.
    eexists. apply (translate_command_candidate _ clk cmd ctx b bc ss).
    exact E.
Qed.

Example new_translator_standard :
  strategies new_translator = ([Strategy PatternBasedTranslator _ PatternBased;
                                Strategy RuleBasedTranslator _ RuleBased]
                               ++ [Strategy ContextualTranslator _ new_contextual])%list.
Proof. reflexivity. Qed.

End Contextual.

Section Scenario.

Import Translator.

Lemma nonsense_choice (history : list string) (ctx : context) :
  contextual_choice history (PyStr.strip (PyStr.lower "asdkjqwe nonsense"))
    "asdkjqwe nonsense" ctx
  = (JStr "REM asdkjqwe nonsense", 0.4%Q).
Proof. reflexivity. Qed.

Lemma nonsense_loop (c : ContextualTranslator) (ctx : context) :
  try_strategies (standard_strategies c) "asdkjqwe nonsense" ctx None 0.0%Q =
  (Some (mkCandidate (JStr "REM asdkjqwe nonsense") 0.4%Q "contextual" None
           "asdkjqwe nonsense" (Some (context_truthy ctx))),
   0.4%Q, standard_strategies (remember c "asdkjqwe nonsense")).
Proof.
  unfold standard_strategies.
  cbn [try_strategies can_translate translate PatternBased_strategy
       RuleBased_strategy Contextual_strategy].
  replace (pattern_can_translate "asdkjqwe nonsense") with false
    by (vm_compute; reflexivity).
  replace (rule_can_translate "asdkjqwe nonsense") with false
    by (vm_compute; reflexivity).
  rewrite contextual_translate_eq. cbv zeta.
  rewrite nonsense_choice. reflexivity.
Qed.

(** C8, as the code has it.  The text [asdkjqwe nonsense] matches no pattern
    and holds no rule keyword; the translator answers it through the
    contextual strategy, with the comment [REM asdkjqwe nonsense] and a
    confidence of exactly 0.4 -- not below it. *)
Theorem scenario_nonsense (c : ContextualTranslator)
        (hist : list TranslationResult) (mh : nat) (st : Stats)
        (clk : Clock) (ctx : context) :
  pattern_can_translate "asdkjqwe nonsense" = false /\
  rule_can_translate "asdkjqwe nonsense" = false /\
  exists r,
    fst (translate_command (mkTranslator (standard_strategies c) hist mh st)
           clk "asdkjqwe nonsense" ctx) = Translated r /\
    strategy_used r = "contextual" /\
    translation r = JStr "REM asdkjqwe nonsense" /\
    confidence r = 0.4%Q /\
    ~ (confidence r < 0.4)%Q.
Proof.
  split; [vm_compute; reflexivity|split; [vm_compute; reflexivity|]].
  eexists. split.
  - eapply translate_command_candidate. apply nonsense_loop.
  - cbn [strategy_used translation confidence c_strategy c_translation].
    repeat split. discriminate.
Qed.

(** C8, as the specification has it, fails: the confidence of the answer
    is not strictly below 0.4. *)
Lemma scenario_nonsense_not_below_04 :
  ~ (exists r,
        fst (translate_command new_translator sample_clock
               "asdkjqwe nonsense" None) = Translated r /\
        strategy_used r = "contextual" /\
        (confidence r < 0.4)%Q).
Proof.
  intros (r & Hr & _ & Hlt).
  change new_translator
    with (mkTranslator (standard_strategies new_contextual) [] 1000 new_stats) in Hr.
  erewrite translate_command_candidate in Hr by apply nonsense_loop.
  injection Hr as <-. cbn [confidence] in Hlt. discriminate Hlt.
Qed.

End Scenario.

Section Repeat.

Import Translator.

Lemma second_last_snoc2 (h : list string) (y x : string) :
  second_last ((h ++ [y]) ++ [x])%list = y.
Proof.
  unfold second_last. rewrite <- app_assoc. cbn [app].
  rewrite length_app. cbn [List.length].
  replace (List.length h + 2 - 2) with (List.length h) by lia.
  apply nth_middle.
Qed.

Lemma lastn_snoc (n : nat) (l : list string) (x : string) :
  1 <= n -> exists l', lastn n (l ++ [x])%list = (l' ++ [x])%list.
Proof.
  intros Hn. unfold lastn. rewrite length_app. cbn [List.length].
  rewrite skipn_app.
  replace (List.length l + 1 - n - List.length l) with 0 by lia.
  now eexists.
Qed.

Lemma second_last_lastn (n : nat) (l : list string) :
  2 <= n -> n < List.length l -> second_last (lastn n l) = second_last l.
Proof.
  intros Hn Hl. unfold second_last, lastn.
  rewrite nth_skipn, length_skipn. f_equal. lia.
Qed.

(** The history behind [remember]: it ends with the command, and -- when
    it ended with [y] before -- [y] is its last but one entry. *)
Lemma remember_after (self : ContextualTranslator) (h : list string)
      (y cmd : string) :
  2 <= max_history self -> context_history self = (h ++ [y])%list ->
  let h' := context_history (remember self cmd) in
  second_last h' = y /\ (1 <? List.length h') = true /\
  exists h0, h' = (h0 ++ [cmd])%list.
Proof.
  intros Hn Hh. unfold remember. cbn [context_history]. rewrite Hh.
  destruct (max_history self <? _) eqn:E.
  - apply Nat.ltb_lt in E.
    rewrite second_last_lastn by (assumption || lia).
    rewrite second_last_snoc2. split; [reflexivity|split].
    + apply Nat.ltb_lt. unfold lastn. rewrite length_skipn. lia.
    + apply lastn_snoc. lia.
  - rewrite second_last_snoc2. split; [reflexivity|split].
    + apply Nat.ltb_lt. rewrite !length_app. cbn [List.length]. lia.
    + now eexists.
Qed.

Lemma remember_first (self : ContextualTranslator) (cmd : string) :
  1 <= max_history self -> context_history self = [] ->
  context_history (remember self cmd) = [cmd].
Proof.
  intros Hn Hh. unfold remember. cbn [context_history]. rewrite Hh.
  cbn [app List.length].
  destruct (max_history self <? 1) eqn:E; [|reflexivity].
  apply Nat.ltb_lt in E. lia.
Qed.

Lemma remember_max (self : ContextualTranslator) (cmd : string) :
  max_history (remember self cmd) = max_history self.
Proof. reflexivity. Qed.

Lemma contextual_translate_state (self : ContextualTranslator)
      (cmd : string) (ctx : context) :
  snd (contextual_translate self cmd ctx) = remember self cmd.
Proof. now rewrite contextual_translate_eq. Qed.

(** The state of the strategy after a run: its history is empty when
    nothing was submitted and ends with the text submitted last otherwise. *)
Lemma submit_all_history (prev : list (string * context)) :
  let self := submit_all prev new_contextual in
  max_history self = 10 /\
  match rev prev with
  | [] => context_history self = []
  | (previous, _) :: _ =>
      exists h, context_history self = (h ++ [previous])%list
  end.
Proof.
  cbv zeta. induction prev as [|[t c] prev IH] using rev_ind.
  - split; reflexivity.
  - unfold submit_all in *. rewrite fold_left_app. cbn [fold_left fst snd].
    set (self := fold_left _ prev new_contextual) in *.
    rewrite contextual_translate_state, rev_app_distr. cbn [rev app].
    destruct IH as [Hmax IH]. split; [now rewrite remember_max|].
    destruct (rev prev) as [|[y cy] rest].
    + exists []. rewrite remember_first; [reflexivity|rewrite Hmax; lia|assumption].
    + destruct IH as [h Hh].
      destruct (remember_after self h y t) as (_ & _ & h0 & H0);
        [rewrite Hmax; lia|assumption|].
      now exists h0.
Qed.

(** C10.  A command that contains [again] or [repeat], and neither [it]
    nor [that] (all four looked for in the lower-cased, stripped command,
    as the strategy does), is answered with the text submitted to the
    strategy just before it, verbatim and with confidence 0.8; when nothing
    was submitted before, with the comment [REM Nothing to repeat] and
    confidence 0.2. *)
Theorem contextual_repeat (prev : list (string * context)) (cmd : string)
        (ctx : context) :
  let command_lower := PyStr.strip (PyStr.lower cmd) in
  PyStr.contains "again" command_lower || PyStr.contains "repeat" command_lower
  = true ->
  PyStr.contains "it" command_lower = false ->
  PyStr.contains "that" command_lower = false ->
  fst (contextual_translate (submit_all prev new_contextual) cmd ctx) =
  match rev prev with
  | (previous, _) :: _ =>
      Success (mkCandidate (JStr previous) 0.8%Q "contextual" None cmd
                 (Some (context_truthy ctx)))
  | [] =>
      Success (mkCandidate (JStr "REM Nothing to repeat") 0.2%Q "contextual"
                 None cmd (Some (context_truthy ctx)))
  end.
Proof.
  cbv zeta. intros Hrep Hit Hthat.
  rewrite contextual_translate_eq. cbv zeta. cbn [fst].
  destruct (submit_all_history prev) as [Hmax Hh].
  set (self := submit_all prev new_contextual) in *.
  unfold contextual_choice. rewrite Hit, Hthat, Hrep. cbn [orb].
  destruct (rev prev) as [|[y cy] rest].
  - rewrite remember_first; [reflexivity|rewrite Hmax; lia|assumption].
  - destruct Hh as [h Hh].
    destruct (remember_after self h y cmd) as (H2 & Hlen & h0 & H0);
      [rewrite Hmax; lia|assumption|].
    rewrite Hlen, H2.
    destruct (context_history (remember self cmd)) as [|a l] eqn:E.
    + destruct h0; discriminate H0.
    + reflexivity.
Qed.

Lemma contextual_repeat_witness :
  fst (contextual_translate
         (submit_all [("print x", None); ("LET Y = 2", None)] new_contextual)
         "Once AGAIN please" None)
  = Success (mkCandidate (JStr "LET Y = 2") 0.8%Q "contextual" None
               "Once AGAIN please" (Some false)).
Proof.
  apply (contextual_repeat [("print x", None); ("LET Y = 2", None)]
           "Once AGAIN please" None); reflexivity.
Defined.

Example contextual_repeat_nothing :
  fst (contextual_translate new_contextual "repeat" None)
  = Success (mkCandidate (JStr "REM Nothing to repeat") 0.2%Q "contextual"
               None "repeat" (Some false)).
Proof. reflexivity. Qed.

End Repeat.

(* ================================================================== *)
(** ** Parsing the providers' responses                                *)
(* ================================================================== *)

Section ParseResponse.

Import Provider.

Lemma get_present (d : pydict) (k : string) (default v : json) :
  dict_get k d = Some v -> Py.get (JDict d) k default = Ok v.
Proof. intros H. cbn [Py.get]. now rewrite H. Qed.

Lemma get_absent (d : pydict) (k : string) (default : json) :
  dict_get k d = None -> Py.get (JDict d) k default = Ok default.
Proof. intros H. cbn [Py.get]. now rewrite H. Qed.

(** A field that is absent or a dictionary reads as a dictionary when the
    default is the empty dictionary. *)
Lemma get_dict_or_absent (d : pydict) (k : string) :
  dict_or_absent (dict_get k d) = true ->
  exists u, Py.get (JDict d) k (JDict []) = Ok (JDict u).
Proof.
  cbn [Py.get]. destruct (dict_get k d) as [[]|]; try discriminate;
    intros _; now eexists.
Qed.

(** A blank field strips to the empty string. *)
Lemma strip_blank_field (d : pydict) (k : string) :
  blank_field (dict_get k d) = true ->
  (v <- Py.get (JDict d) k (JStr "") ;; Py.strip v) = Ok "".
Proof.
  cbn [Py.get bind]. destruct (dict_get k d) as [[]|]; try discriminate.
  - cbn [blank_field Py.strip]. intros H.
    now destruct (PyStr.strip s).
  - reflexivity.
Qed.

Lemma openai_blank_content (self_model : string) (d choice : pydict)
      (rest : list json) :
  dict_get "choices" d = Some (JList (JDict choice :: rest)) ->
  blank_message (dict_get "message" choice) = true ->
  dict_or_absent (dict_get "usage" d) = true ->
  exists r, openai_parse_response self_model (JDict d) = Ok r /\ content r = "".
Proof.
  intros Hc Hm Hu.
  unfold openai_parse_response, openai_parse_body.
  rewrite (get_present _ _ _ _ Hc). cbn [bind truthy negb Py.index0].
  assert (Hcontent :
            (message <- Py.get (JDict choice) "message" (JDict []) ;;
             v <- Py.get message "content" (JStr "") ;; Py.strip v) = Ok "").
  { cbn [Py.get bind]. destruct (dict_get "message" choice) as [[]|];
      try discriminate Hm.
    - cbn [blank_message] in Hm. now apply strip_blank_field.
    - reflexivity. }
  destruct (Py.get (JDict choice) "message" (JDict [])) as [message|e];
    [|discriminate Hcontent].
  cbn [bind] in Hcontent |- *.
  destruct (Py.get message "content" (JStr "")) as [v|e];
    [|discriminate Hcontent].
  cbn [bind] in Hcontent |- *. rewrite Hcontent. cbn [bind].
  destruct (get_dict_or_absent d "usage" Hu) as [u ->].
  cbn [bind Py.get]. eexists. split; reflexivity.
Qed.

Lemma google_blank_text (self_model : string) (d cand c part : pydict)
      (rest rest' : list json) :
  dict_get "candidates" d = Some (JList (JDict cand :: rest)) ->
  dict_get "content" cand = Some (JDict c) ->
  dict_get "parts" c = Some (JList (JDict part :: rest')) ->
  blank_field (dict_get "text" part) = true ->
  dict_or_absent (dict_get "usageMetadata" d) = true ->
  exists r, google_parse_response self_model (JDict d) = Ok r /\ content r = "".
Proof.
  intros Hc Hcont Hp Ht Hu.
  unfold google_parse_response, google_parse_body.
  rewrite (get_present _ _ _ _ Hc). cbn [bind truthy negb Py.index0].
  rewrite (get_present _ _ _ _ Hcont). cbn [bind].
  rewrite (get_present _ _ _ _ Hp). cbn [bind truthy negb Py.index0].
  pose proof (strip_blank_field part "text" Ht) as Hs.
  destruct (Py.get (JDict part) "text" (JStr "")) as [v|e];
    [|discriminate Hs].
  cbn [bind] in Hs |- *. rewrite Hs. cbn [bind].
  destruct (get_dict_or_absent d "usageMetadata" Hu) as [u ->].
  cbn [bind Py.get]. eexists. split; reflexivity.
Qed.

Lemma openai_no_choices (self_model : string) (d : pydict) :
  dict_get "choices" d = None \/ dict_get "choices" d = Some (JList []) ->
  openai_parse_response self_model (JDict d) =
  Raise (BridgeError
           "Failed to parse OpenAI response: No choices in OpenAI response"
           COMMUNICATION MEDIUM).
Proof.
  intros [H|H]; unfold openai_parse_response, openai_parse_body;
    cbn [Py.get bind]; now rewrite H.
Qed.

Lemma google_no_parts (self_model : string) (d cand : pydict)
      (rest : list json) :
  dict_get "candidates" d = Some (JList (JDict cand :: rest)) ->
  dict_get "content" cand = None \/
  (exists c, dict_get "content" cand = Some (JDict c) /\
             (dict_get "parts" c = None \/ dict_get "parts" c = Some (JList []))) ->
  google_parse_response self_model (JDict d) =
  Raise (BridgeError
           "Failed to parse Google Gemini response: No content parts in Google Gemini response"
           COMMUNICATION MEDIUM).
Proof.
  intros Hc Hcont.
  unfold google_parse_response, google_parse_body.
  rewrite (get_present _ _ _ _ Hc). cbn [bind truthy negb Py.index0].
  destruct Hcont as [Hnone|(c & Hcont & Hp)].
  - rewrite (get_absent _ _ _ Hnone). reflexivity.
  - rewrite (get_present _ _ _ _ Hcont). cbn [bind].
    destruct Hp as [H|H]; cbn [Py.get bind]; now rewrite H.
Qed.

Lemma google_no_candidates (self_model : string) (d : pydict) :
  dict_get "candidates" d = None \/ dict_get "candidates" d = Some (JList []) ->
  google_parse_response self_model (JDict d) =
  Raise (BridgeError
           "Failed to parse Google Gemini response: No candidates in Google Gemini response"
           COMMUNICATION MEDIUM).
Proof.
  intros [H|H]; unfold google_parse_response, google_parse_body;
    cbn [Py.get bind]; now rewrite H.
Qed.

Lemma strip_blank (s : string) :
  PyStr.is_empty (PyStr.strip s) = true -> PyStr.strip s = "".
Proof. now destruct (PyStr.strip s). Qed.

Lemma text_field_strip (d : pydict) (k : string) :
  (v <- Py.get (JDict d) k (JStr "") ;; Py.strip v)
  = match ProviderShape.text_field (dict_get k d) with
    | Some s => Ok (PyStr.strip s)
    | None =>
        Raise (AttributeError
                 ("'" ++ type_name (match dict_get k d with
                                    | Some v => v
                                    | None => JNull
                                    end)
                    ++ "' object has no attribute 'strip'"))
    end.
Proof.
  cbn [Py.get bind]. now destruct (dict_get k d) as [[]|].
Qed.

Ltac read_step :=
  match goal with
  | |- context [dict_get ?k ?d] => is_var d; destruct (dict_get k d)
  | |- context [match ?x with _ => _ end] => is_var x; destruct x
  | |- context [Py.get ?v _ _] => is_var v; destruct v
  | |- context [Py.strip ?v] => is_var v; destruct v
  | |- context [Py.index0 ?v] => is_var v; destruct v
  | |- context [truthy ?v] => is_var v; destruct v
  | |- context [if ?b then _ else _] =>
      lazymatch b with
      | context [match _ with _ => _ end] => fail
      | _ => destruct b
      end
  end.

Ltac read_response :=
  repeat (cbn [Py.get Py.index0 Py.strip bind truthy negb dict_or_absent
               ProviderShape.text_field];
          read_step);
  cbn [Py.get Py.index0 Py.strip bind truthy negb dict_or_absent
       ProviderShape.text_field content];
  try (eexists; split; reflexivity); try (eexists; reflexivity).

(** The OpenAI parser answers exactly the responses that it can read,
    with their content stripped. *)
Lemma openai_parse_readable (self_model : string) (response_data : json) :
  match ProviderShape.openai_raw_content response_data with
  | Some s =>
      exists r, openai_parse_response self_model response_data = Ok r /\
                content r = PyStr.strip s
  | None =>
      exists m, openai_parse_response self_model response_data
                = Raise (BridgeError m COMMUNICATION MEDIUM)
  end.
Proof.
  unfold ProviderShape.openai_raw_content, openai_parse_response,
    openai_parse_body.
  read_response.
Qed.

(** So does the Gemini parser. *)
Lemma google_parse_readable (self_model : string) (response_data : json) :
  match ProviderShape.google_raw_content response_data with
  | Some s =>
      exists r, google_parse_response self_model response_data = Ok r /\
                content r = PyStr.strip s
  | None =>
      exists m, google_parse_response self_model response_data
                = Raise (BridgeError m COMMUNICATION MEDIUM)
  end.
Proof.
  unfold ProviderShape.google_raw_content, google_parse_response,
    google_parse_body.
  read_response.
Qed.

(** C3, as the code has it.  Either parser answers exactly the responses
    that it can read: an object whose list of choices (of candidates and
    of content parts) is headed by an object, with a message that is an
    object or absent, a usage that is an object or absent, and a content
    (a text) that is a string or absent.  The answer is a success whose
    content is the stripped content: the empty string when the content is
    empty, blank or absent; emptiness is no error.  Every other response
    raises a [BridgeError] of the communication category and medium
    severity: the code has no error for empty content. *)
Theorem parse_response_blank_content (self_model : string)
        (response_data : json) :
  match ProviderShape.openai_raw_content response_data with
  | Some s =>
      exists r, openai_parse_response self_model response_data = Ok r /\
                content r = PyStr.strip s /\
                (PyStr.is_empty (PyStr.strip s) = true -> content r = "")
  | None =>
      exists m, openai_parse_response self_model response_data
                = Raise (BridgeError m COMMUNICATION MEDIUM)
  end /\
  match ProviderShape.google_raw_content response_data with
  | Some s =>
      exists r, google_parse_response self_model response_data = Ok r /\
                content r = PyStr.strip s /\
                (PyStr.is_empty (PyStr.strip s) = true -> content r = "")
  | None =>
      exists m, google_parse_response self_model response_data
                = Raise (BridgeError m COMMUNICATION MEDIUM)
  end.
Proof.
  split.
  - pose proof (openai_parse_readable self_model response_data) as H.
    destruct (ProviderShape.openai_raw_content response_data) as [s|];
      [|exact H].
    destruct H as (r & Hr & Hc). exists r.
    split; [assumption|split; [assumption|]].
    intros Hb. rewrite Hc. now apply strip_blank.
  - pose proof (google_parse_readable self_model response_data) as H.
    destruct (ProviderShape.google_raw_content response_data) as [s|];
      [|exact H].
    destruct H as (r & Hr & Hc). exists r.
    split; [assumption|split; [assumption|]].
    intros Hb. rewrite Hc. now apply strip_blank.
Qed.

Lemma parse_response_blank_content_witness :
  (exists r, openai_parse_response "gpt-4" openai_absent_content = Ok r /\
             content r = "") /\
  (exists r, google_parse_response "gemini-pro" google_empty_text = Ok r /\
             content r = "") /\
  (exists m, openai_parse_response "gpt-4" ProviderShape.openai_null_content
             = Raise (BridgeError m COMMUNICATION MEDIUM)).
Proof.
  split; [|split].
  - destruct (proj1 (parse_response_blank_content "gpt-4" openai_absent_content))
      as (r & Hr & _ & Hb).
    exists r. split; [exact Hr|]. apply Hb. reflexivity.
  - destruct (proj2 (parse_response_blank_content "gemini-pro" google_empty_text))
      as (r & Hr & _ & Hb).
    exists r. split; [exact Hr|]. apply Hb. reflexivity.
  - exact (proj1 (parse_response_blank_content "gpt-4"
                    ProviderShape.openai_null_content)).
Defined.

(** C3, as the specification has it, fails: a completion whose content is
    the empty string is not rejected; the parser returns it as a success. *)
Lemma parse_empty_content_accepted :
  openai_parse_response "gpt-4" openai_empty_content =
  Ok (mkResponse "" (JStr "gpt-4")
        [("prompt_tokens", JInt 0); ("completion_tokens", JInt 0);
         ("total_tokens", JInt 0)]
        (JStr "stop") "openai") /\
  ~ (exists e, openai_parse_response "gpt-4" openai_empty_content = Raise e).
Proof.
  split; [reflexivity|]. intros [e He]. discriminate He.
Qed.

End ParseResponse.

(* ================================================================== *)
(** ** Retries                                                         *)
(* ================================================================== *)

Section Retries.

Import Provider Sender.

Variable W : Type.
Variable p : AIProvider W.
Variables (command : string) (ctx : context).

Lemma failing_request (w : W) :
  always_fails W p command ctx ->
  exists e w', send_request W p w command ctx = (Raise e, w').
Proof.
  intros H. destruct (H w) as [e He].
  destruct (send_request W p w command ctx) as [o w'].
  cbn [fst] in He. subst o. now exists e, w'.
Qed.

(** C1.  With three attempts and a provider that fails on every call,
    [_send_with_retries] calls [send_request] exactly three times, each
    call in the world that the one before it leaves: the three requests
    of its trace carry the errors of these calls, and the world it
    leaves is the one behind the third call.  It pauses [2^0] time units
    behind the first failure and [2^1] behind the second, does not pause
    behind the third, and raises the error of the third call. *)
Theorem retry_bound (w : W) :
  retry_attempts W p = 3%Z ->
  always_fails W p command ctx ->
  exists e1 e2 e3 w1 w2 w3,
    send_request W p w command ctx = (Raise e1, w1) /\
    send_request W p w1 command ctx = (Raise e2, w2) /\
    send_request W p w2 command ctx = (Raise e3, w3) /\
    _send_with_retries W p command ctx w =
    (Raise e3, w3,
     [ Request (Raise e1); Sleep (2 ^ 0); Request (Raise e2); Sleep (2 ^ 1);
       Request (Raise e3) ]).
Proof.
  intros H3 Hf. unfold _send_with_retries. rewrite H3.
  change (range 3) with [0%Z; 1%Z; 2%Z].
  destruct (failing_request w Hf) as (e1 & w1 & E1).
  destruct (failing_request w1 Hf) as (e2 & w2 & E2).
  destruct (failing_request w2 Hf) as (e3 & w3 & E3).
  exists e1, e2, e3, w1, w2, w3.
  split; [assumption|split; [assumption|split; [assumption|]]].
  cbn [retry_loop]. rewrite E1. cbn [retry_loop]. rewrite E2, E3, H3.
  reflexivity.
Qed.

End Retries.

Lemma retry_bound_witness :
  exists e1 e2 e3 w1 w2 w3,
    Sender.send_request Samples.world Samples.failing_provider 0
      "Print hello world" None = (Raise e1, w1) /\
    Sender.send_request Samples.world Samples.failing_provider w1
      "Print hello world" None = (Raise e2, w2) /\
    Sender.send_request Samples.world Samples.failing_provider w2
      "Print hello world" None = (Raise e3, w3) /\
    Sender._send_with_retries Samples.world Samples.failing_provider
      "Print hello world" None 0 =
    (Raise e3, w3,
     [ Sender.Request (Raise e1); Sender.Sleep (2 ^ 0);
       Sender.Request (Raise e2); Sender.Sleep (2 ^ 1);
       Sender.Request (Raise e3) ]).
Proof.
  apply (retry_bound Samples.world Samples.failing_provider
           "Print hello world" None 0).
  - reflexivity.
  - intros w. eexists. reflexivity.
Defined.

Example retry_bound_run :
  Sender._send_with_retries Samples.world Samples.failing_provider
    "Print hello world" None 0 =
  (Raise (BridgeError "OpenAI API error: 500 - request 2" COMMUNICATION HIGH),
   3,
   [ Sender.Request
       (Raise (BridgeError "OpenAI API error: 500 - request 0" COMMUNICATION HIGH));
     Sender.Sleep 1;
     Sender.Request
       (Raise (BridgeError "OpenAI API error: 500 - request 1" COMMUNICATION HIGH));
     Sender.Sleep 2;
     Sender.Request
       (Raise (BridgeError "OpenAI API error: 500 - request 2" COMMUNICATION HIGH)) ]).
Proof. reflexivity. Qed.

(* ================================================================== *)
(** ** The response cache                                              *)
(* ================================================================== *)

Section Cache.

Import Provider Sender.

Variable W : Type.
Variable digest : string * option string * pydict -> string.

Lemma cache_get_set_same (k : string) (e : CacheEntry) (c : list (string * CacheEntry)) :
  cache_get k (cache_set k e c) = Some e.
Proof.
  induction c as [|[k' e'] c IH]; cbn [cache_set cache_get].
  - now rewrite String.eqb_refl.
  - destruct (String.eqb k k') eqn:E; cbn [cache_get]; rewrite E; auto.
Qed.

Lemma cache_get_del (k k' : string) (c : list (string * CacheEntry)) :
  cache_get k (cache_del k' c) =
  if String.eqb k' k then None else cache_get k c.
Proof.
  induction c as [|[k0 e0] c IH]; cbn [cache_del filter cache_get fst].
  - now destruct (String.eqb k' k).
  - fold (cache_del k' c).
    destruct (String.eqb k' k0) eqn:E0; cbn [negb].
    + rewrite IH. apply String.eqb_eq in E0. subst k0.
      destruct (String.eqb k' k) eqn:E; [reflexivity|].
      rewrite String.eqb_sym in E. now rewrite E.
    + cbn [cache_get]. rewrite IH.
      destruct (String.eqb k k0) eqn:E1; [|reflexivity].
      apply String.eqb_eq in E1. subst k0. now rewrite E0.
Qed.

Lemma cache_get_dels (k : string) (ks : list string)
      (c : list (string * CacheEntry)) (e : CacheEntry) :
  cache_get k (fold_left (fun c key => cache_del key c) ks c) = Some e ->
  cache_get k c = Some e.
Proof.
  revert c. induction ks as [|k' ks IH]; intros c H; [exact H|].
  cbn [fold_left] in H. apply IH in H. rewrite cache_get_del in H.
  now destruct (String.eqb k' k).
Qed.

(** Whatever the trimming removes, an entry found under the key just
    stored is the entry just stored. *)
Lemma cache_get_after_store (self : AICommandSender W) (now : Q) (k : string)
      (r : ref) (e : CacheEntry) :
  cache_get k (cache W (_cache_response W self now k r)) = Some e ->
  e = mkEntry r now.
Proof.
  unfold _cache_response.
  destruct (max_cache_size W self <? _); cbn [cache with_cache]; intros H.
  - apply cache_get_dels in H. rewrite cache_get_set_same in H. congruence.
  - rewrite cache_get_set_same in H. congruence.
Qed.

Lemma cache_response_frame (self : AICommandSender W) (now : Q) (k : string)
      (r : ref) :
  heap W (_cache_response W self now k r) = heap W self /\
  cache_enabled W (_cache_response W self now k r) = cache_enabled W self /\
  cache_ttl W (_cache_response W self now k r) = cache_ttl W self.
Proof. unfold _cache_response. now destruct (_ <? _). Qed.

Lemma dict_get_set_same (k : string) (v : json) (d : pydict) :
  dict_get k (dict_set k v d) = Some v.
Proof.
  induction d as [|[k' v'] d IH]; cbn [dict_set dict_get].
  - now rewrite String.eqb_refl.
  - destruct (String.eqb k k') eqn:E; cbn [dict_get]; rewrite E; auto.
Qed.

Lemma dict_get_set_other (k k' : string) (v : json) (d : pydict) :
  k' <> k -> dict_get k' (dict_set k v d) = dict_get k' d.
Proof.
  intros Hne. induction d as [|[k0 v0] d IH]; cbn [dict_set dict_get].
  - apply String.eqb_neq in Hne. now rewrite Hne.
  - destruct (String.eqb k k0) eqn:E; cbn [dict_get].
    + apply String.eqb_eq in E. subst k0.
      apply String.eqb_neq in Hne. now rewrite Hne.
    + now rewrite IH.
Qed.

(** An entry stored while the cache is within its size limit stays. *)
Lemma cache_response_kept (self : AICommandSender W) (now : Q) (k : string)
      (r : ref) :
  List.length (cache_set k (mkEntry r now) (cache W self))
  <= max_cache_size W self ->
  cache_get k (cache W (_cache_response W self now k r)) = Some (mkEntry r now).
Proof.
  intros Hlen. unfold _cache_response.
  destruct (max_cache_size W self <? _) eqn:E.
  - apply Nat.ltb_lt in E. lia.
  - cbn [cache with_cache]. apply cache_get_set_same.
Qed.

(** A call whose key is in the cache and has not expired: the answer is a
    new dictionary, the stored one with ["cached"] set; the provider is not
    called and nothing but the heap changes. *)
Lemma send_command_hit (self : AICommandSender W) (w : W) (clk : Clock)
      (command : string) (provider : option string) (ctx : context)
      (e : CacheEntry) :
  cache_enabled W self = true ->
  cache_get (_generate_cache_key digest command provider ctx) (cache W self)
  = Some e ->
  Qltb (cache_ttl W self) (now_lookup clk - timestamp e)%Q = false ->
  send_command W digest self w clk command provider ctx =
  (List.length (heap W self),
   with_heap W self
     (heap W self
        ++ [dict_set "cached" (JBool true) (deref W self (response e))])%list,
   w, []).
Proof.
  intros Hen Hget Hfresh. unfold send_command, _get_cached_response.
  rewrite Hen, Hget, Hfresh. reflexivity.
Qed.

(** [store_result]: the new dictionary gets the next reference; an entry
    found under the key afterwards is this dictionary with the time of
    its storing. *)
Lemma store_result_spec (self : AICommandSender W) (clk : Clock) (k : string)
      (rt : Q) (pname : string) (d : pydict) :
  cache_enabled W self = true ->
  let (r, self1) := store_result W self clk k rt pname d in
  r = List.length (heap W self) /\
  heap W self1 = (heap W self ++ [d])%list /\
  cache_enabled W self1 = true /\
  cache_ttl W self1 = cache_ttl W self /\
  (forall e, cache_get k (cache W self1) = Some e ->
             e = mkEntry r (now_store clk)).
Proof.
  intros Hen. unfold store_result. cbn [alloc].
  cbn [cache_enabled with_heap]. rewrite Hen.
  set (s0 := with_heap W self _).
  destruct (cache_response_frame s0 (now_store clk) k
              (List.length (heap W self))) as (Hh & He & Ht).
  cbn [_add_to_history _update_stats with_history with_stats heap
       cache_enabled cache_ttl cache].
  rewrite Hh, He, Ht. subst s0. cbn [heap cache_enabled cache_ttl with_heap].
  repeat split; try assumption. apply cache_get_after_store.
Qed.

Lemma send_failed_spec (self0 self : AICommandSender W) (clk : Clock)
      (command : string) (provider : option string) (e : exn) :
  let (r, self1) := send_failed W self0 self clk command provider e in
  dict_get "cached" (deref W self1 r) = None.
Proof.
  unfold send_failed. cbn [alloc]. unfold deref.
  cbn [_add_to_history _update_stats with_history with_stats with_error_log
       with_heap heap].
  now rewrite nth_middle.
Qed.

(** The path through the provider, when it answers with a dictionary that
    is marked as not cached. *)
Lemma send_uncached_spec (self0 self : AICommandSender W) (w : W) (clk : Clock)
      (k command : string) (provider : option string) (ctx : context) :
  cache_enabled W self = true ->
  let '(r, self1, w1, events) :=
    send_uncached W self0 self w clk k command provider ctx in
  dict_get "cached" (deref W self1 r) = Some (JBool false) ->
  r = List.length (heap W self) /\
  (exists d, heap W self1 = (heap W self ++ [d])%list /\
             dict_get "success" d = Some (JBool true)) /\
  cache_enabled W self1 = true /\
  cache_ttl W self1 = cache_ttl W self /\
  (forall e, cache_get k (cache W self1) = Some e ->
             e = mkEntry r (now_store clk)).
Proof.
  intros Hen. unfold send_uncached.
  destruct (_select_provider W self provider) as [sel|].
  - destruct (_send_with_retries W sel command ctx w) as [[o w1] ev].
    destruct o as [resp|e].
    + cbv zeta.
      match goal with
      | |- context [store_result W self clk k ?rt ?pn ?d] =>
          pose proof (store_result_spec self clk k rt pn d Hen) as Hs;
          destruct (store_result W self clk k rt pn d) as [r s1]
      end.
      destruct Hs as (Hr & Hh & He & Ht & Hc). intros _.
      split; [assumption|split; [|auto]].
      eexists. split; [exact Hh|reflexivity].
    + pose proof (send_failed_spec self0 self clk command provider e) as Hn.
      destruct (send_failed W self0 self clk command provider e) as [r s1].
      intros H. congruence.
  - pose proof (send_failed_spec self0 self clk command provider
                  (BridgeError "No available AI providers" COMMUNICATION CRITICAL))
      as Hn.
    destruct (send_failed W self0 self clk command provider _) as [r s1].
    intros H. congruence.
Qed.

(** A call that answers with a dictionary marked as not cached took the
    path through the provider: the dictionary is new, it reports a
    success, and an entry found under the key of the call afterwards is
    this very dictionary with the time of its storing. *)
Lemma send_command_fresh (self : AICommandSender W) (w : W) (clk : Clock)
      (command : string) (provider : option string) (ctx : context) :
  cache_enabled W self = true ->
  let '(r, self1, w1, events) :=
    send_command W digest self w clk command provider ctx in
  dict_get "cached" (deref W self1 r) = Some (JBool false) ->
  r < List.length (heap W self1) /\
  dict_get "success" (deref W self1 r) = Some (JBool true) /\
  cache_enabled W self1 = true /\
  cache_ttl W self1 = cache_ttl W self /\
  (forall e,
      cache_get (_generate_cache_key digest command provider ctx)
        (cache W self1) = Some e ->
      e = mkEntry r (now_store clk)).
Proof.
  intros Hen. unfold send_command. rewrite Hen.
  set (k := _generate_cache_key digest command provider ctx).
  assert (Hpath : forall self',
             cache_enabled W self' = true ->
             cache_ttl W self' = cache_ttl W self ->
             let '(r, self1, w1, events) :=
               send_uncached W self self' w clk k command provider ctx in
             dict_get "cached" (deref W self1 r) = Some (JBool false) ->
             r < List.length (heap W self1) /\
             dict_get "success" (deref W self1 r) = Some (JBool true) /\
             cache_enabled W self1 = true /\
             cache_ttl W self1 = cache_ttl W self /\
             (forall e, cache_get k (cache W self1) = Some e ->
                        e = mkEntry r (now_store clk))).
  { intros self' Hen' Httl'.
    pose proof (send_uncached_spec self self' w clk k command provider ctx Hen')
      as Hs.
    destruct (send_uncached W self self' w clk k command provider ctx)
      as [[[r s1] w1] ev].
    intros Hc. destruct (Hs Hc) as (Hr & (d & Hh & Hd) & He & Ht & Hk).
    unfold deref. rewrite Hh, Hr, nth_middle, length_app. cbn [List.length].
    repeat split; try assumption; try lia. congruence.
    intros e. rewrite <- Hr. apply Hk. }
  unfold _get_cached_response.
  destruct (cache_get k (cache W self)) as [e0|] eqn:Hget.
  - destruct (Qltb _ _) eqn:Hexp.
    + apply Hpath; [assumption|reflexivity].
    + cbn [alloc]. unfold deref at 1. cbn [heap with_heap].
      rewrite nth_middle, dict_get_set_same. discriminate.
  - apply Hpath; [assumption|reflexivity].
Qed.

(** C2.  Two calls of [send_command] with the same command, provider hint
    and context, the first of which answered through the provider (its
    result says that it was not cached) and left its result in the cache,
    the second made no later than [ttl_seconds] after the storing: the
    second result is a new dictionary that agrees with the first one in
    every entry but ["cached"], which is [False] in the first and [True] in
    the second; the second call makes no request and leaves the world as
    it is. *)
Theorem cache_idempotence (self0 self1 self2 : AICommandSender W)
        (w0 w1 w2 : W) (clk1 clk2 : Clock) (command : string)
        (provider : option string) (ctx : context) (r1 r2 : ref)
        (events1 events2 : list Event) :
  cache_enabled W self0 = true ->
  send_command W digest self0 w0 clk1 command provider ctx
  = (r1, self1, w1, events1) ->
  dict_get "cached" (deref W self1 r1) = Some (JBool false) ->
  cache_get (_generate_cache_key digest command provider ctx) (cache W self1)
  <> None ->
  (now_lookup clk2 - now_store clk1 <= cache_ttl W self0)%Q ->
  send_command W digest self1 w1 clk2 command provider ctx
  = (r2, self2, w2, events2) ->
  deref W self2 r2 = dict_set "cached" (JBool true) (deref W self1 r1) /\
  dict_get "success" (deref W self2 r2) = Some (JBool true) /\
  dict_get "cached" (deref W self2 r2) = Some (JBool true) /\
  dict_get "cached" (deref W self2 r1) = Some (JBool false) /\
  (forall k, k <> "cached" ->
             dict_get k (deref W self2 r2) = dict_get k (deref W self1 r1)) /\
  r2 <> r1 /\ w2 = w1 /\ events2 = [].
Proof.
  intros Hen Hfirst Hcached Hstored Httl Hsecond.
  pose proof (send_command_fresh self0 w0 clk1 command provider ctx Hen)
    as Hfresh.
  rewrite Hfirst in Hfresh.
  destruct (Hfresh Hcached) as (Hr1 & Hsucc & Hen1 & Httl1 & Hentry).
  destruct (cache_get _ (cache W self1)) as [e|] eqn:Hget; [|congruence].
  specialize (Hentry e eq_refl). subst e.
  rewrite (send_command_hit self1 w1 clk2 command provider ctx
             (mkEntry r1 (now_store clk1)) Hen1 Hget) in Hsecond.
  - injection Hsecond as <- <- <- <-.
    cbn [response].
    assert (Hd2 : deref W (with_heap W self1
                             (heap W self1 ++
                              [dict_set "cached" (JBool true) (deref W self1 r1)]))
                    (List.length (heap W self1))
                  = dict_set "cached" (JBool true) (deref W self1 r1)).
    { unfold deref at 1. cbn [heap with_heap]. apply nth_middle. }
    assert (Hd1 : deref W (with_heap W self1
                             (heap W self1 ++
                              [dict_set "cached" (JBool true) (deref W self1 r1)]))
                    r1 = deref W self1 r1).
    { unfold deref. cbn [heap with_heap]. now apply app_nth1. }
    rewrite Hd2, Hd1.
    repeat split; try assumption; try reflexivity.
    + rewrite dict_get_set_other by discriminate. assumption.
    + apply dict_get_set_same.
    + intros k Hk. now apply dict_get_set_other.
    + lia.
  - cbn [timestamp]. rewrite Httl1. unfold Qltb.
    apply negb_false_iff. now apply Qle_bool_iff.
Qed.

End Cache.

Lemma cache_idempotence_witness :
  let '(r1, self1, w1, events1) := Samples.first_call in
  let '(r2, self2, w2, events2) := Samples.second_call in
  Sender.deref Samples.world self2 r2
  = dict_set "cached" (JBool true) (Sender.deref Samples.world self1 r1) /\
  dict_get "success" (Sender.deref Samples.world self2 r2) = Some (JBool true) /\
  dict_get "cached" (Sender.deref Samples.world self2 r2) = Some (JBool true) /\
  dict_get "cached" (Sender.deref Samples.world self2 r1) = Some (JBool false) /\
  (forall k, k <> "cached" ->
             dict_get k (Sender.deref Samples.world self2 r2)
             = dict_get k (Sender.deref Samples.world self1 r1)) /\
  r2 <> r1 /\ w2 = w1 /\ events2 = [].
Proof.
  destruct Samples.first_call as [[[r1 self1] w1] events1] eqn:E1.
  destruct Samples.second_call as [[[r2 self2] w2] events2] eqn:E2.
  apply (cache_idempotence Samples.world Samples.sample_digest
           Samples.sample_sender self1 self2 0 w1 w2 Samples.first_clock
           Samples.second_clock "Print hello world" None None r1 r2
           events1 events2).
  - reflexivity.
  - exact E1.
  - vm_compute in E1. injection E1 as <- <- <- <-. reflexivity.
  - vm_compute in E1. injection E1 as <- <- <- <-. discriminate.
  - vm_compute. discriminate.
  - rewrite <- E2. unfold Samples.second_call. now rewrite E1.
Defined.

Example cache_first_result :
  let '(r1, self1, _, events1) := Samples.first_call in
  Sender.deref Samples.world self1 r1 =
  [ ("request_id", JStr "req_1700000000_0"); ("success", JBool true);
    ("provider", JStr "openai"); ("command", JStr "Print hello world");
    ("response", JStr ("10 PRINT " ++ PyStr.dq ++ "hello" ++ PyStr.dq));
    ("confidence",
     JFloat (Sender._calculate_confidence Samples.hello_response
               "Print hello world"));
    ("validation",
     JDict [("is_valid", JBool true); ("issues", JList []);
            ("suggestions", JList [])]);
    ("response_time", JFloat ((10.4 - 10.0) * 1000)%Q);
    ("timestamp", JFloat 1700000000.4%Q);
    ("usage", JDict [("prompt_tokens", JInt 12); ("completion_tokens", JInt 7);
                     ("total_tokens", JInt 19)]);
    ("cached", JBool false) ] /\
  events1 = [Sender.Request (Ok Samples.hello_response)] /\
  (Sender._calculate_confidence Samples.hello_response "Print hello world"
   == 0.8)%Q.
Proof. vm_compute. repeat split; reflexivity. Qed.

(* ================================================================== *)
(** ** The interaction pipeline                                        *)
(* ================================================================== *)

Section Interaction.

Import Integration.

(** The [try] block ends [COMPLETED] only through its last step, which
    records the four times and the confidence of the provider phase. *)
Lemma try_block_completed (i i' : AIInteraction) (ph : Phases) (clk : Clock)
      (counted : bool) :
  try_block i ph clk = Returned i' counted ->
  status i' = COMPLETED ->
  (exists c, phase_confidence (ai_result ph) = Ok c /\
             confidence_score i' = Some c) /\
  ai_processing_time i' = Some (ms (ai_start clk) (ai_end clk)) /\
  translation_time i' = Some (ms (translation_start clk) (translation_end clk)) /\
  execution_time i' = Some (ms (execution_start clk) (execution_end clk)) /\
  total_time i' = Some (ms (start_time clk) (total_end clk)).
Proof.
  unfold try_block, phase_confidence.
  repeat match goal with
         | |- context [match ?x with _ => _ end] => destruct x eqn:?
         end;
    intros [= <- <-]; cbn [status update_status]; try discriminate.
  intros _. cbn. repeat split. now eexists.
Qed.

(** What a completed interaction carries: the confidence of the provider
    phase alone -- the translation phase's confidence is not looked at --
    and a time for each of the four phases. *)
Lemma completed_interaction_records (self : AILayerIntegration)
      (i : AIInteraction) (ph : Phases) (clk : Clock) :
  let i' := fst (execute_interaction self i ph clk) in
  status i' = COMPLETED ->
  (exists c, phase_confidence (ai_result ph) = Ok c /\
             confidence_score i' = Some c) /\
  ai_processing_time i' = Some (ms (ai_start clk) (ai_end clk)) /\
  translation_time i' = Some (ms (translation_start clk) (translation_end clk)) /\
  execution_time i' = Some (ms (execution_start clk) (execution_end clk)) /\
  total_time i' = Some (ms (start_time clk) (total_end clk)).
Proof.
  cbv zeta. unfold execute_interaction.
  destruct (try_block _ ph clk) as [j [|]|e] eqn:E; cbn [fst].
  - now apply try_block_completed with (1 := E).
  - now apply try_block_completed with (1 := E).
  - discriminate.
Qed.

(** A run on stand-ins for the phases, the translation phase answering
    with a list of commands: the last step records a time for each
    phase and the confidence of the provider phase. *)
Example completed_run_records :
  let i' := fst (execute_interaction new_integration sample_interaction
                   sample_phases sample_clock) in
  status i' = COMPLETED /\
  confidence_score i' = Some (JFloat 0.9%Q) /\
  ai_processing_time i' = Some (ms 0.001 0.301)%Q /\
  translation_time i' = Some (ms 0.302 0.312)%Q /\
  execution_time i' = Some (ms 0.313 0.333)%Q /\
  total_time i' = Some (ms 0.0 0.334)%Q.
Proof. cbv zeta. repeat split; reflexivity. Qed.




(** The run of the witness in full.  The provider phase is answered by
    [/ai/process] with the confidence 0.8, which is already the smaller
    of the provider's and the translator's; the translation phase gets a
    dictionary without ["commands"], and the interaction fails on the
    look-up.  Against the refusal that the request without a prompt
    really meets, it fails with the error of the route. *)
Example interaction_against_bridge :
  getitem Wire.sample_provider_answer "success" = Ok (JBool true) /\
  getitem (Wire._translate_commands Wire.sample_translate_answer) "success"
  = Ok (JBool true) /\
  (let i' := fst (execute_interaction new_integration sample_interaction
                    (mkPhases Wire.sample_provider_answer
                       (Wire._translate_commands Wire.sample_translate_answer)
                       (Ok []))
                    sample_clock) in
   status i' = FAILED /\ error_message i' = Some (JStr "'commands'") /\
   confidence_score i' = None) /\
  (let i' := fst (execute_interaction new_integration sample_interaction
                    (mkPhases Wire.sample_provider_answer
                       (Wire._translate_commands Wire.sample_translate_refusal)
                       (Ok []))
                    sample_clock) in
   status i' = FAILED /\ total_time i' = None /\ confidence_score i' = None).
Proof. repeat split; reflexivity. Qed.

Example failed_provider_phase :
  let i' := fst (execute_interaction new_integration sample_interaction
                   (mkPhases (JDict [("success", JBool false);
                                     ("error", JStr "AI provider error: 500 - ")])
                      JNull (Ok []))
                   sample_clock) in
  status i' = FAILED /\
  error_message i' = Some (JStr "AI provider error: 500 - ") /\
  confidence_score i' = None /\ translation_time i' = None.
Proof. repeat split; reflexivity. Qed.

End Interaction.

(* ================================================================== *)
(** ** Sessions of the translator and retries in general               *)
(* ================================================================== *)

Section Sessions.

Import Translator.

(** One turn of the strategy loop keeps the strategy object in its place,
    changed at most by its own [translate]; the list behind it is left as
    it is (after a [break]) or as the rest of the loop leaves it. *)
Lemma try_strategies_step (T : Type) (cls : TranslationStrategy T) (self : T)
      (ss : list strategy) (cmd : string) (ctx : context)
      (b : option Candidate) (bc : Q) (P : list strategy -> Prop) :
  P ss ->
  (forall b' bc', P (snd (try_strategies ss cmd ctx b' bc'))) ->
  exists self' ss',
    snd (try_strategies (Strategy T cls self :: ss) cmd ctx b bc)
    = Strategy T cls self' :: ss' /\
    P ss' /\ (self' = self \/ self' = snd (translate self cmd ctx)).
Proof.
  intros Hss Hrec. cbn [try_strategies].
  assert (Hgo : forall (x : T) b' bc',
             exists ss',
               snd (let '(b0, c0, ss'') := try_strategies ss cmd ctx b' bc' in
                    (b0, c0, Strategy T cls x :: ss''))
               = Strategy T cls x :: ss' /\ P ss').
  { intros x b' bc'. specialize (Hrec b' bc').
    destruct (try_strategies ss cmd ctx b' bc') as [[b0 c0] ss''].
    now exists ss''. }
  destruct (can_translate self cmd).
  - destruct (translate self cmd ctx) as [r self']. cbn [snd].
    destruct r as [[d|err oc]|e].
    + destruct (Qltb bc (c_confidence d)).
      * destruct (Qleb 0.8 (c_confidence d)).
        -- exists self', ss. auto.
        -- destruct (Hgo self' (Some d) (c_confidence d)) as (ss' & H1 & H2).
           exists self', ss'. auto.
      * destruct (Hgo self' b bc) as (ss' & H1 & H2). exists self', ss'. auto.
    + destruct (Hgo self' b bc) as (ss' & H1 & H2). exists self', ss'. auto.
    + destruct (Hgo self' b bc) as (ss' & H1 & H2). exists self', ss'. auto.
  - destruct (Hgo self b bc) as (ss' & H1 & H2). exists self, ss'. auto.
Qed.

(** The strategy loop leaves the three standard strategies in place; only
    the history of the contextual one may have grown. *)
Lemma try_strategies_standard (c : ContextualTranslator) (cmd : string)
      (ctx : context) (b : option Candidate) (bc : Q) :
  exists c',
    snd (try_strategies (standard_strategies c) cmd ctx b bc)
    = standard_strategies c'.
Proof.
  unfold standard_strategies.
  assert (H3 : forall c0 b' bc',
             exists c',
               snd (try_strategies
                      [Strategy ContextualTranslator Contextual_strategy c0]
                      cmd ctx b' bc')
               = [Strategy ContextualTranslator Contextual_strategy c']).
  { intros c0 b' bc'.
    destruct (try_strategies_step ContextualTranslator Contextual_strategy c0
                [] cmd ctx b' bc' (fun ss => ss = []))
      as (c' & ss' & H & -> & _); [reflexivity|reflexivity|].
    now exists c'. }
  assert (H2 : forall b' bc',
             exists c',
               snd (try_strategies
                      [Strategy RuleBasedTranslator RuleBased_strategy RuleBased;
                       Strategy ContextualTranslator Contextual_strategy c]
                      cmd ctx b' bc')
               = [Strategy RuleBasedTranslator RuleBased_strategy RuleBased;
                  Strategy ContextualTranslator Contextual_strategy c']).
  { intros b' bc'.
    destruct (try_strategies_step RuleBasedTranslator RuleBased_strategy
                RuleBased
                [Strategy ContextualTranslator Contextual_strategy c]
                cmd ctx b' bc'
                (fun ss => exists c',
                     ss = [Strategy ContextualTranslator Contextual_strategy c']))
      as (r' & ss' & H & (c' & ->) & _); [now exists c|apply H3|].
    exists c'. rewrite H. now destruct r'. }
  destruct (try_strategies_step PatternBasedTranslator PatternBased_strategy
              PatternBased
              [Strategy RuleBasedTranslator RuleBased_strategy RuleBased;
               Strategy ContextualTranslator Contextual_strategy c]
              cmd ctx b bc
              (fun ss => exists c',
                   ss = [Strategy RuleBasedTranslator RuleBased_strategy RuleBased;
                         Strategy ContextualTranslator Contextual_strategy c']))
    as (p' & ss' & H & (c' & ->) & _); [now exists c|apply H2|].
  exists c'. rewrite H. now destruct p'.
Qed.

Lemma translate_command_standard (self : AICommandTranslator) (clk : Clock)
      (cmd : string) (ctx : context) (c : ContextualTranslator) :
  strategies self = standard_strategies c ->
  exists c',
    strategies (snd (translate_command self clk cmd ctx))
    = standard_strategies c'.
Proof.
  intros Hs. unfold translate_command. rewrite Hs.
  destruct (try_strategies_standard c cmd ctx None 0.0%Q) as [c' Hc'].
  destruct (try_strategies (standard_strategies c) cmd ctx None 0.0%Q)
    as [[b bc] ss].
  cbn [snd] in Hc'. subst ss. exists c'. now destruct b.
Qed.

Lemma translate_command_standard_success (self : AICommandTranslator)
      (clk : Clock) (cmd : string) (ctx : context) (c : ContextualTranslator) :
  strategies self = standard_strategies c ->
  success (fst (translate_command self clk cmd ctx)) = true.
Proof.
  intros Hs.
  destruct (try_strategies_contextual_last
              [Strategy PatternBasedTranslator _ PatternBased;
               Strategy RuleBasedTranslator _ RuleBased] c cmd ctx 0.0%Q)
    as [b Hb]; [discriminate|].
  change ([_; _] ++ [_])%list with (standard_strategies c) in Hb.
  destruct (try_strategies (standard_strategies c) cmd ctx None 0.0%Q)
    as [[x bc] ss] eqn:E.
  cbn [fst] in Hb. subst x. rewrite <- Hs in E.
  now rewrite (translate_command_candidate self clk cmd ctx b bc ss E).
Qed.

(** Every command of a session is translated with success, whatever was
    translated before. *)
Lemma translate_all_success (inputs : list (Clock * string * context))
      (self : AICommandTranslator) (c : ContextualTranslator) :
  strategies self = standard_strategies c ->
  Forall (fun r => success r = true) (fst (translate_all self inputs)).
Proof.
  revert self c. induction inputs as [|[[clk cmd] ctx] inputs IH];
    intros self c Hs; cbn [translate_all].
  - constructor.
  - pose proof (translate_command_standard_success self clk cmd ctx c Hs) as H1.
    destruct (translate_command_standard self clk cmd ctx c Hs) as [c' Hc'].
    destruct (translate_command self clk cmd ctx) as [r self1].
    cbn [fst snd] in H1, Hc'. specialize (IH self1 c' Hc').
    destruct (translate_all self1 inputs) as [rs self2].
    cbn [fst] in IH |- *. now constructor.
Qed.

Example session_example :
  map success
    (fst (translate_all new_translator
            [ (sample_clock, "Print hello world", None);
              (sample_clock, "", None);
              (sample_clock, "do it again", None) ]))
  = [true; true; true].
Proof. vm_compute. reflexivity. Qed.

End Sessions.

Section RetriesInGeneral.

Import Provider Sender.

Variable W : Type.
Variable p : AIProvider W.
Variables (command : string) (ctx : context).
Hypothesis failing : always_fails W p command ctx.

Lemma request_count_app (t1 t2 : list Event) :
  request_count (t1 ++ t2) = request_count t1 + request_count t2.
Proof. unfold request_count. now rewrite filter_app, length_app. Qed.

Lemma sleeps_app (t1 t2 : list Event) :
  sleeps (t1 ++ t2) = (sleeps t1 ++ sleeps t2)%list.
Proof.
  induction t1 as [|[o|d] t1 IH]; cbn [app sleeps]; [reflexivity|assumption|].
  now rewrite IH.
Qed.

(** The retry loop against a provider that always fails: one request per
    attempt, a pause of [2^attempt] behind every attempt but the last of
    the budget, and an error at the end. *)
Lemma retry_loop_failing (attempts : list Z) (last_exception : option exn)
      (w : W) (trace : list Event) :
  let '(outcome, _, trace') :=
    retry_loop W p command ctx attempts last_exception w trace in
  (exists e, outcome = Raise e) /\
  request_count trace' = request_count trace + List.length attempts /\
  sleeps trace' =
  (sleeps trace
     ++ map (fun a => (2 ^ a)%Z)
          (filter (fun a => (a <? retry_attempts W p - 1)%Z) attempts))%list.
Proof.
  revert last_exception w trace.
  induction attempts as [|a attempts IH]; intros last_exception w trace.
  - cbn [retry_loop List.length filter map]. rewrite Nat.add_0_r, app_nil_r.
    split; [now eexists|split; reflexivity].
  - cbn [retry_loop].
    destruct (failing w) as [e He].
    destruct (send_request W p w command ctx) as [o w1]. cbn [fst] in He.
    subst o.
    match goal with
    | |- context [retry_loop W p command ctx attempts ?l ?w' ?t] =>
        specialize (IH l w' t);
        destruct (retry_loop W p command ctx attempts l w' t) as [[o' w2] t']
    end.
    destruct IH as (H1 & H2 & H3). split; [assumption|split].
    + rewrite H2. cbn [List.length].
      destruct (a <? retry_attempts W p - 1)%Z;
        rewrite !request_count_app; cbn; lia.
    + rewrite H3. cbn [filter].
      destruct (a <? retry_attempts W p - 1)%Z;
        rewrite !sleeps_app; cbn [sleeps map app];
        rewrite ?app_nil_r, <- ?app_assoc; reflexivity.
Qed.

Lemma filter_below (n : nat) :
  filter (fun a => (a <? Z.of_nat n)%Z) (map Z.of_nat (seq 0 (S n)))
  = map Z.of_nat (seq 0 n).
Proof.
  rewrite seq_S, map_app, filter_app. cbn [map filter Nat.add].
  rewrite Z.ltb_irrefl, app_nil_r.
  apply forallb_filter_id. apply forallb_forall.
  intros x Hx. apply in_map_iff in Hx as (i & <- & Hi).
  apply in_seq in Hi. apply Z.ltb_lt. lia.
Qed.

(** With a budget of [n + 1] attempts the sender makes [n + 1] requests and
    pauses [2^0], ..., [2^(n-1)] between them. *)
Lemma retry_budget (n : nat) (w : W) :
  retry_attempts W p = Z.of_nat (S n) ->
  let '(outcome, _, trace) := _send_with_retries W p command ctx w in
  (exists e, outcome = Raise e) /\
  request_count trace = S n /\
  sleeps trace = map (fun a => (2 ^ a)%Z) (range (Z.of_nat n)).
Proof.
  intros Hn. unfold _send_with_retries.
  pose proof (retry_loop_failing (range (retry_attempts W p)) None w []) as H.
  destruct (retry_loop W p command ctx _ None w []) as [[o w'] t].
  destruct H as (H1 & H2 & H3). split; [assumption|split].
  - rewrite H2. unfold range. rewrite Hn, Nat2Z.id, length_map, length_seq.
    reflexivity.
  - rewrite H3. cbn [sleeps app]. f_equal. unfold range.
    rewrite Hn, !Nat2Z.id.
    replace (Z.of_nat (S n) - 1)%Z with (Z.of_nat n) by lia.
    apply filter_below.
Qed.

End RetriesInGeneral.

(* ================================================================== *)
(** ** Bounded histories                                               *)
(* ================================================================== *)

Section RingBuffers.

Variable A : Type.

Lemma lastn_all (n : nat) (l : list A) :
  List.length l <= n -> lastn n l = l.
Proof.
  intros H. unfold lastn.
  replace (List.length l - n) with 0 by lia. reflexivity.
Qed.

Lemma lastn_length (n : nat) (l : list A) :
  List.length (lastn n l) = Nat.min n (List.length l).
Proof. unfold lastn. rewrite length_skipn. lia. Qed.

Lemma lastn_rev (n : nat) (l : list A) :
  lastn n l = rev (firstn n (rev l)).
Proof. unfold lastn. now rewrite firstn_rev, rev_involutive. Qed.

(** Trimming early does not change what a later trimming keeps. *)
Lemma lastn_app_lastn (n : nat) (a b : list A) :
  lastn n (lastn n a ++ b) = lastn n (a ++ b).
Proof.
  rewrite !(lastn_rev n (_ ++ _)), (lastn_rev n a). f_equal.
  rewrite !rev_app_distr, rev_involutive, !firstn_app, firstn_firstn.
  f_equal. f_equal. lia.
Qed.

(** [if len(h) > n: h = h[-n:]] *)
Lemma trim_lastn (n : nat) (h : list A) :
  (if n <? List.length h then lastn n h else h) = lastn n h.
Proof.
  destruct (n <? List.length h) eqn:E; [reflexivity|].
  apply Nat.ltb_ge in E. now rewrite lastn_all.
Qed.

End RingBuffers.

Section ContextualHistory.

Import Translator.

Lemma remember_lastn (self : ContextualTranslator) (cmd : string) :
  context_history (remember self cmd)
  = lastn (max_history self) (context_history self ++ [cmd])%list.
Proof. unfold remember. cbn [context_history]. apply trim_lastn. Qed.

(** X1.  The contextual strategy keeps a rolling window of the texts
    submitted to it: after any run from a new strategy object its history
    is exactly the last ten submitted texts, in order. *)
Theorem contextual_history_window (prev : list (string * context)) :
  let self := submit_all prev new_contextual in
  context_history self = lastn 10 (map fst prev) /\
  List.length (context_history self) = Nat.min 10 (List.length prev) /\
  max_history self = 10.
Proof.
  cbv zeta.
  assert (H : context_history (submit_all prev new_contextual)
              = lastn 10 (map fst prev) /\
              max_history (submit_all prev new_contextual) = 10).
  { induction prev as [|[t c] prev IH] using rev_ind.
    - split; reflexivity.
    - unfold submit_all in *. rewrite fold_left_app. cbn [fold_left fst snd].
      set (self := fold_left _ prev new_contextual) in *.
      destruct IH as [Hh Hm].
      rewrite contextual_translate_state. split; [|exact Hm].
      rewrite remember_lastn, Hm, Hh, map_app. cbn [map fst].
      apply lastn_app_lastn. }
  destruct H as [Hh Hm]. split; [exact Hh|split; [|exact Hm]].
  now rewrite Hh, lastn_length, length_map.
Qed.

End ContextualHistory.

Section TranslatorSessions.

Import Translator TranslatorMore.

Lemma translate_command_history (self : AICommandTranslator) (clk : Clock)
      (cmd : string) (ctx : context) :
  let out := translate_command self clk cmd ctx in
  translation_history (snd out)
  = lastn (max_history_size self) (translation_history self ++ [fst out])%list /\
  max_history_size (snd out) = max_history_size self.
Proof.
  cbv zeta. unfold translate_command.
  destruct (try_strategies (strategies self) cmd ctx None 0.0%Q) as [[b bc] ss].
  destruct b as [best|]; cbn [fst snd _add_to_history translation_history
                              max_history_size with_stats with_strategies];
    split; try reflexivity; apply trim_lastn.
Qed.

Lemma translate_all_length (inputs : list (Clock * string * context))
      (self : AICommandTranslator) :
  List.length (fst (translate_all self inputs)) = List.length inputs.
Proof.
  revert self. induction inputs as [|[[clk cmd] ctx] inputs IH]; intros self;
    cbn [translate_all]; [reflexivity|].
  destruct (translate_command self clk cmd ctx) as [r self1].
  specialize (IH self1). destruct (translate_all self1 inputs) as [rs self2].
  cbn [fst List.length] in *. now rewrite IH.
Qed.

Lemma translate_all_history (inputs : list (Clock * string * context))
      (self : AICommandTranslator) :
  List.length (translation_history self) <= max_history_size self ->
  let out := translate_all self inputs in
  translation_history (snd out)
  = lastn (max_history_size self) (translation_history self ++ fst out)%list.
Proof.
  cbv zeta. revert self.
  induction inputs as [|[[clk cmd] ctx] inputs IH]; intros self Hlen;
    cbn [translate_all].
  - cbn [fst snd]. rewrite app_nil_r. now rewrite lastn_all.
  - destruct (translate_command_history self clk cmd ctx) as [Hh Hm].
    destruct (translate_command self clk cmd ctx) as [r self1].
    cbn [fst snd] in Hh, Hm.
    assert (Hlen1 : List.length (translation_history self1)
                    <= max_history_size self1).
    { rewrite Hh, Hm, lastn_length. lia. }
    specialize (IH self1 Hlen1).
    destruct (translate_all self1 inputs) as [rs self2].
    cbn [fst snd] in IH |- *.
    rewrite IH, Hm, Hh, lastn_app_lastn, <- app_assoc. reflexivity.
Qed.

(** X2.  The translation history is a ring buffer: after a session of any
    length on a new translator it holds exactly the results of the last
    1000 calls, oldest first. *)
Theorem translation_history_window (inputs : list (Clock * string * context)) :
  let out := translate_all new_translator inputs in
  translation_history (snd out) = lastn 1000 (fst out) /\
  List.length (translation_history (snd out))
  = Nat.min 1000 (List.length inputs).
Proof.
  cbv zeta.
  pose proof (translate_all_history inputs new_translator) as H.
  cbv zeta in H. cbn [new_translator translation_history max_history_size
                      List.length app] in H.
  rewrite H by lia. split; [reflexivity|].
  now rewrite lastn_length, translate_all_length.
Qed.

Lemma usage_total_bump (s : string) (u : list (string * Z)) :
  usage_total (bump s u) = (usage_total u + 1)%Z.
Proof.
  induction u as [|[k n] u IH]; cbn [bump usage_total fold_right snd].
  - lia.
  - destruct (String.eqb s k); cbn [usage_total fold_right snd].
    + fold (usage_total u). lia.
    + fold (usage_total (bump s u)) (usage_total u). rewrite IH. lia.
Qed.

(** One call of [translate_command] counts itself once: in the totals, in
    the counter of its outcome and in the usage of one strategy name. *)
Lemma translate_command_counts (self : AICommandTranslator) (clk : Clock)
      (cmd : string) (ctx : context) :
  let out := translate_command self clk cmd ctx in
  let st := stats self in
  let st' := stats (snd out) in
  total_translations st' = (total_translations st + 1)%Z /\
  successful_translations st'
  = (successful_translations st + if success (fst out) then 1 else 0)%Z /\
  failed_translations st'
  = (failed_translations st + if success (fst out) then 0 else 1)%Z /\
  usage_total (strategy_usage st') = (usage_total (strategy_usage st) + 1)%Z.
Proof.
  cbv zeta. unfold translate_command.
  destruct (try_strategies (strategies self) cmd ctx None 0.0%Q) as [[b bc] ss].
  destruct b as [best|];
    cbn [fst snd _add_to_history stats with_stats with_strategies
         _update_stats total_translations successful_translations
         failed_translations strategy_usage success];
    rewrite usage_total_bump; repeat split; lia.
Qed.

(** X3.  The counters of a translator agree with what it did: after a
    session of [n] commands on a new translator, [total_translations] and
    [successful_translations] are [n], [failed_translations] is 0, and the
    counts in [strategy_usage] sum to [n]. *)
Theorem translator_session_counters (inputs : list (Clock * string * context)) :
  let st := stats (snd (translate_all new_translator inputs)) in
  let n := Z.of_nat (List.length inputs) in
  total_translations st = n /\
  successful_translations st = n /\
  failed_translations st = 0%Z /\
  usage_total (strategy_usage st) = n.
Proof.
  cbv zeta.
  assert (H : forall inputs self c,
             strategies self = standard_strategies c ->
             let st := stats self in
             let st' := stats (snd (translate_all self inputs)) in
             let n := Z.of_nat (List.length inputs) in
             total_translations st' = (total_translations st + n)%Z /\
             successful_translations st' = (successful_translations st + n)%Z /\
             failed_translations st' = failed_translations st /\
             usage_total (strategy_usage st')
             = (usage_total (strategy_usage st) + n)%Z).
  { clear inputs. induction inputs as [|[[clk cmd] ctx] inputs IH];
      intros self c Hs; cbv zeta; cbn [translate_all].
    - cbn [snd List.length]. repeat split; lia.
    - pose proof (translate_command_counts self clk cmd ctx) as Hc.
      pose proof (translate_command_standard_success self clk cmd ctx c Hs) as Hok.
      destruct (translate_command_standard self clk cmd ctx c Hs) as [c' Hc'].
      destruct (translate_command self clk cmd ctx) as [r self1].
      cbv zeta in Hc. cbn [fst snd] in Hc, Hok, Hc'. rewrite Hok in Hc.
      specialize (IH self1 c' Hc'). cbv zeta in IH.
      destruct (translate_all self1 inputs) as [rs self2].
      cbn [snd] in IH |- *. cbn [List.length].
      destruct Hc as (H1 & H2 & H3 & H4). destruct IH as (I1 & I2 & I3 & I4).
      rewrite I1, I2, I3, I4, H1, H2, H3, H4. repeat split; lia. }
  specialize (H inputs new_translator new_contextual eq_refl).
  cbv zeta in H. exact H.
Qed.

End TranslatorSessions.

Section StrategyLoop.

Import Translator TranslatorMore.

Lemma Qleb_true (a b : Q) : (a <= b)%Q -> Qleb a b = true.
Proof. intros H. unfold Qleb. now apply Qle_bool_iff. Qed.

(** A success of the pattern loop comes from a pattern of the table that
    matches, and carries its confidence. *)
Lemma pattern_loop_success (ps : list pattern_info) (cl cmd : string)
      (c : Candidate) :
  pattern_translate_loop ps cl cmd = Success c ->
  c_strategy c = "pattern_based" /\
  exists p, In p ps /\ c_confidence c = p_confidence p /\
            Re.search (p_pattern p) cl <> None.
Proof.
  induction ps as [|p ps IH]; cbn [pattern_translate_loop]; [discriminate|].
  destruct (Re.search (p_pattern p) cl) as [cs|] eqn:E.
  - destruct (apply_template (p_name p) (Re.groups (p_groups p) cs)) as [t|e].
    + intros [= <-]. split; [reflexivity|]. exists p.
      cbn [c_confidence]. rewrite E. repeat split; [now left|discriminate].
    + intros H. destruct (IH H) as (Hs & q & Hq & Hc & Hm).
      split; [assumption|]. exists q. repeat split; auto. now right.
  - intros H. destruct (IH H) as (Hs & q & Hq & Hc & Hm).
    split; [assumption|]. exists q. repeat split; auto. now right.
Qed.

(** Every pattern of the table has a confidence of at least 0.8 and at
    most 0.95. *)
Lemma patterns_confident :
  Forall (fun p => (0.8 <= p_confidence p)%Q /\ (p_confidence p <= 0.95)%Q)
    patterns.
Proof. unfold patterns. repeat constructor; discriminate. Qed.

Lemma pattern_translate_confident (cmd : string) (ctx : context) (c : Candidate) :
  pattern_translate cmd ctx = Success c ->
  c_strategy c = "pattern_based" /\
  (0.8 <= c_confidence c)%Q /\ (c_confidence c <= 0.95)%Q /\
  pattern_can_translate cmd = true.
Proof.
  intros H. apply pattern_loop_success in H as (Hs & p & Hp & Hc & Hm).
  pose proof patterns_confident as Hall. rewrite Forall_forall in Hall.
  destruct (Hall p Hp) as [Hlo Hhi]. rewrite Hc.
  repeat split; try assumption.
  unfold pattern_can_translate. apply existsb_exists. exists p.
  split; [assumption|]. now destruct (Re.search _ _).
Qed.

(** X4.  A match of the pattern table ends the strategy loop at once: the
    result of [translate_command] is the pattern strategy's candidate, with
    its confidence of at least 0.8, and the later strategies are not
    consulted -- the history of the contextual strategy stays as it was. *)
Theorem pattern_match_ends_loop (c : ContextualTranslator)
        (hist : list TranslationResult) (mh : nat) (st : Stats)
        (clk : Clock) (cmd : string) (ctx : context) (cand : Candidate) :
  pattern_translate cmd ctx = Success cand ->
  let out :=
    translate_command (mkTranslator (standard_strategies c) hist mh st)
      clk cmd ctx in
  (exists r, fst out = Translated r /\
             strategy_used r = "pattern_based" /\
             translation r = c_translation cand /\
             confidence r = c_confidence cand /\
             (0.8 <= confidence r)%Q) /\
  strategies (snd out) = standard_strategies c.
Proof.
  intros Hp. cbv zeta.
  destruct (pattern_translate_confident cmd ctx cand Hp) as (Hs & Hlo & Hhi & Hcan).
  assert (Hloop : try_strategies (standard_strategies c) cmd ctx None 0.0%Q
                  = (Some cand, c_confidence cand, standard_strategies c)).
  { unfold standard_strategies.
    cbn [try_strategies can_translate translate PatternBased_strategy].
    rewrite Hcan, Hp.
    rewrite Qltb_true by (eapply Qlt_le_trans; [|exact Hlo]; reflexivity).
    now rewrite Qleb_true. }
  split.
  - eexists. split.
    + eapply translate_command_candidate. exact Hloop.
    + cbn [strategy_used translation confidence]. auto.
  - unfold translate_command. cbn [strategies]. rewrite Hloop. reflexivity.
Qed.

Lemma pattern_match_ends_loop_witness :
  let out :=
    translate_command
      (mkTranslator (standard_strategies (mkContextual ["earlier text"] 10))
         [] 1000 new_stats)
      sample_clock "Print hello world" None in
  (exists r, fst out = Translated r /\
             strategy_used r = "pattern_based" /\
             translation r
             = JStr ("PRINT " ++ PyStr.dq ++ "hello world" ++ PyStr.dq) /\
             confidence r = 0.9%Q /\
             (0.8 <= confidence r)%Q) /\
  strategies (snd out)
  = standard_strategies (mkContextual ["earlier text"] 10).
Proof.
  apply (pattern_match_ends_loop (mkContextual ["earlier text"] 10) [] 1000
           new_stats sample_clock "Print hello world" None
           (mkCandidate
              (JStr ("PRINT " ++ PyStr.dq ++ "hello world" ++ PyStr.dq))
              0.9%Q "pattern_based" (Some "print_statement")
              "Print hello world" None)).
  reflexivity.
Defined.

(** The loop returns a candidate that one of the strategies produced,
    together with its confidence. *)
Lemma try_strategies_yields (P : Candidate -> Prop) (ss : list strategy)
      (cmd : string) (ctx : context) (b : option Candidate) (bc : Q) :
  Forall (strategy_yields P) ss ->
  (forall x, b = Some x -> P x /\ bc = c_confidence x) ->
  forall x,
    fst (fst (try_strategies ss cmd ctx b bc)) = Some x ->
    P x /\ snd (fst (try_strategies ss cmd ctx b bc)) = c_confidence x.
Proof.
  intros Hall. revert b bc.
  induction Hall as [|[T cls self] ss Hs Hall IH]; intros b bc Hb x.
  - cbn [try_strategies fst snd]. apply Hb.
  - cbn [try_strategies].
    assert (Hgo : forall (s' : T) b' bc',
               (forall y, b' = Some y -> P y /\ bc' = c_confidence y) ->
               fst (fst (let '(b0, c0, ss'') :=
                           try_strategies ss cmd ctx b' bc' in
                         (b0, c0, Strategy T cls s' :: ss''))) = Some x ->
               P x /\
               snd (fst (let '(b0, c0, ss'') :=
                           try_strategies ss cmd ctx b' bc' in
                         (b0, c0, Strategy T cls s' :: ss''))) = c_confidence x).
    { intros s' b' bc' Hb' Hx. specialize (IH b' bc' Hb' x).
      destruct (try_strategies ss cmd ctx b' bc') as [[b0 c0] ss''].
      cbn [fst snd] in *. now apply IH. }
    destruct (can_translate self cmd); [|now apply Hgo].
    pose proof (Hs self cmd ctx) as Hy.
    destruct (translate self cmd ctx) as [r self']. cbn [fst] in Hy.
    destruct r as [[d|err oc]|e]; try (now apply Hgo).
    specialize (Hy d eq_refl).
    destruct (Qltb bc (c_confidence d)); [|now apply Hgo].
    destruct (Qleb 0.8 (c_confidence d)).
    + cbn [fst snd]. intros [= <-]. now split.
    + apply Hgo. intros y [= <-]. now split.
Qed.

Lemma rule_confidence_range (command translation : string) :
  (0.5 <= _calculate_rule_confidence command translation)%Q /\
  (_calculate_rule_confidence command translation <= 1)%Q.
Proof.
  unfold _calculate_rule_confidence. split.
  - apply Q.min_glb; [|discriminate].
    rewrite <- (Qplus_0_r 0.5) at 1. rewrite <- Qplus_assoc.
    apply Qplus_le_compat; [apply Qle_refl|].
    rewrite <- (Qplus_0_r 0).
    apply Qplus_le_compat; apply bonus_nonneg; discriminate.
  - eapply Qle_trans; [apply Q.le_min_r|discriminate].
Qed.

Lemma contextual_choice_range (history : list string)
      (command_lower ai_command : string) (ctx : context) :
  (0 < snd (contextual_choice history command_lower ai_command ctx))%Q /\
  (snd (contextual_choice history command_lower ai_command ctx) <= 1)%Q.
Proof.
  unfold contextual_choice.
  repeat match goal with
         | |- context [if ?b then _ else _] => destruct b
         | |- context [match ?x with _ => _ end] => destruct x
         end; split; (reflexivity || discriminate).
Qed.

Lemma standard_strategies_well_scored (c : ContextualTranslator) :
  Forall (strategy_yields well_scored) (standard_strategies c).
Proof.
  unfold standard_strategies.
  apply Forall_cons; [|apply Forall_cons; [|apply Forall_cons; [|apply Forall_nil]]].
  - intros self cmd ctx d. cbn [translate PatternBased_strategy fst].
    intros [= H]. apply pattern_translate_confident in H as (Hs & Hlo & Hhi & _).
    repeat split.
    + eapply Qlt_le_trans; [|exact Hlo]. reflexivity.
    + eapply Qle_trans; [exact Hhi|]. discriminate.
    + now left.
  - intros self cmd ctx d. cbn [translate RuleBased_strategy fst].
    intros [= H]. unfold rule_translate in H.
    destruct (rule_scan 0 _) as [|w ws]; [discriminate|].
    injection H as <-. cbn [c_confidence c_strategy].
    destruct (rule_confidence_range
                (PyStr.strip (PyStr.lower cmd)) (PyStr.join " " (w :: ws)))
      as [Hlo Hhi].
    repeat split; [|assumption|now right; left].
    eapply Qlt_le_trans; [|exact Hlo]. reflexivity.
  - intros self cmd ctx d. cbn [translate Contextual_strategy].
    rewrite contextual_translate_eq. cbv zeta. cbn [fst].
    intros [= <-]. cbn [c_confidence c_strategy].
    destruct (contextual_choice_range
                (context_history (remember self cmd))
                (PyStr.strip (PyStr.lower cmd)) cmd ctx) as [Hlo Hhi].
    repeat split; [assumption|assumption|now right; right].
Qed.

(** X5.  Every result of [translate_command] carries a confidence in
    (0, 1], the name of the strategy that produced the translation, and the
    validation of that very translation. *)
Theorem translate_command_well_scored (c : ContextualTranslator)
        (hist : list TranslationResult) (mh : nat) (st : Stats)
        (clk : Clock) (cmd : string) (ctx : context) :
  exists r,
    fst (translate_command (mkTranslator (standard_strategies c) hist mh st)
           clk cmd ctx) = Translated r /\
    (0 < confidence r)%Q /\ (confidence r <= 1)%Q /\
    (strategy_used r = "pattern_based" \/ strategy_used r = "rule_based" \/
     strategy_used r = "contextual") /\
    validation r = _validate_translation (translation r) /\
    original_command r = cmd.
Proof.
  destruct (try_strategies_contextual_last
              [Strategy PatternBasedTranslator _ PatternBased;
               Strategy RuleBasedTranslator _ RuleBased] c cmd ctx 0.0%Q)
    as [b Hb]; [discriminate|].
  change ([_; _] ++ [_])%list with (standard_strategies c) in Hb.
  pose proof (try_strategies_yields well_scored (standard_strategies c) cmd ctx
                None 0.0%Q (standard_strategies_well_scored c)) as Hy.
  destruct (try_strategies (standard_strategies c) cmd ctx None 0.0%Q)
    as [[x bc] ss] eqn:E.
  cbn [fst snd] in Hb, Hy. subst x.
  destruct (Hy ltac:(discriminate) b eq_refl) as ((Hpos & Hle & Hname) & Hbc).
  eexists. split.
  - eapply translate_command_candidate. exact E.
  - cbn [confidence strategy_used validation translation original_command].
    rewrite Hbc. repeat split; assumption.
Qed.

End StrategyLoop.

Section RuleWords.

Import Translator TranslatorMore.

(** The scan emits something exactly when one of the words is a keyword. *)
Lemma rule_scan_nil (words : list string) :
  rule_scan 0 words = [] <-> existsb is_keyword words = false.
Proof.
  induction words as [|w ws IH]; cbn [rule_scan existsb]; [tauto|].
  unfold is_keyword at 1.
  destruct (lookup_word w basic_keywords) as [b|].
  - destruct (keyword_step w ws) as [parts moved]. cbn [orb app].
    split; discriminate.
  - cbn [orb]. exact IH.
Qed.

(** X6.  The rule strategy translates a command exactly when one of its
    white-space separated words, in lower case, is a keyword of the table;
    a keyword inside a longer word, or an operator word, which
    [can_translate] accepts, is not enough.  A translation has a
    confidence of at least 0.5; a failure carries the text of the source. *)
Theorem rule_translate_needs_keyword_word (cmd : string) (ctx : context) :
  let words := PyStr.split (PyStr.strip (PyStr.lower cmd)) in
  match rule_translate cmd ctx with
  | Success c =>
      existsb is_keyword words = true /\
      c_strategy c = "rule_based" /\ (0.5 <= c_confidence c)%Q /\
      c_translation c = JStr (PyStr.join " " (rule_scan 0 words))
  | Failure err oc =>
      existsb is_keyword words = false /\
      err = "No recognizable patterns found" /\ oc = cmd
  end.
Proof.
  cbv zeta. unfold rule_translate.
  pose proof (rule_scan_nil (PyStr.split (PyStr.strip (PyStr.lower cmd)))) as H.
  destruct (rule_scan 0 _) as [|p ps].
  - repeat split. now apply H.
  - cbn [c_strategy c_confidence c_translation]. repeat split.
    + destruct (existsb is_keyword _); [reflexivity|].
      destruct H as [_ H]. specialize (H eq_refl). discriminate.
    + apply rule_confidence_range.
Qed.

(** An operator word passes [can_translate] and still has no translation;
    so does a keyword inside a longer word. *)
Example rule_operator_only :
  rule_can_translate "x plus y" = true /\
  rule_translate "x plus y" None
  = Failure "No recognizable patterns found" "x plus y" /\
  rule_can_translate "reprint" = true /\
  rule_translate "reprint" None
  = Failure "No recognizable patterns found" "reprint".
Proof. repeat split; reflexivity. Qed.

End RuleWords.

Section ValidatorKeywords.

Import Translator TranslatorMore.

(** A text that does not contain [p] has no occurrence of it to count. *)
Lemma count_from_absent (p s : string) (k : nat) :
  PyStr.contains p s = false -> PyStr.count_from k p s = 0.
Proof.
  revert k. induction s as [|c s IH]; intros k H; [reflexivity|].
  cbn [PyStr.contains] in H. apply orb_false_iff in H as [Hp Hs].
  cbn [PyStr.count_from]. destruct k as [|k].
  - rewrite Hp. now apply IH.
  - now apply IH.
Qed.

Lemma count_absent (p s : string) :
  PyStr.is_empty p = false -> PyStr.contains p s = false ->
  PyStr.count p s = 0.
Proof.
  intros Hne H. unfold PyStr.count. rewrite Hne. now apply count_from_absent.
Qed.

Lemma existsb_false_in {A : Type} (f : A -> bool) (l : list A) (x : A) :
  existsb f l = false -> In x l -> f x = false.
Proof.
  intros H Hx. destruct (f x) eqn:E; [|reflexivity].
  assert (existsb f l = true) by (apply existsb_exists; eauto). congruence.
Qed.

(** Without a keyword the four later checks cannot fire. *)
Lemma collect_issues_no_keyword (s : string) :
  existsb (fun keyword => PyStr.contains keyword (PyStr.strip (PyStr.upper s)))
    valid_keywords = false ->
  collect_issues s
  = (["No valid BASIC keywords found"],
     ["Consider using PRINT, LET, FOR, IF, or other BASIC commands"]).
Proof.
  intros H. unfold collect_issues. rewrite H.
  assert (Hk : forall k, In k valid_keywords ->
                 PyStr.contains k (PyStr.strip (PyStr.upper s)) = false).
  { intros k Hin.
    exact (existsb_false_in
             (fun keyword => PyStr.contains keyword (PyStr.strip (PyStr.upper s)))
             valid_keywords k H Hin). }
  rewrite (Hk "PRINT") by (cbn; tauto).
  rewrite (Hk "LET") by (cbn; tauto).
  rewrite !count_absent by (reflexivity || (apply Hk; cbn; tauto)).
  reflexivity.
Qed.

Lemma collect_issues_at_most_four (s : string) :
  List.length (fst (collect_issues s)) <= 4.
Proof.
  destruct (existsb
              (fun keyword => PyStr.contains keyword (PyStr.strip (PyStr.upper s)))
              valid_keywords) eqn:E.
  - unfold collect_issues. rewrite E. rewrite !flag_length.
    cbn [negb flag fst List.length].
    repeat match goal with
           | |- context [if ?c then 1 else 0] => destruct c
           end; lia.
  - rewrite collect_issues_no_keyword by assumption. cbn. lia.
Qed.

(** X7.  The five checks of the validator cannot all fire: a text without
    a keyword fails the first check only.  So a non-blank text has at
    most four issues, its syntax score [1.0 - n * 0.2] is positive, and
    the clamping by [max(.., 0.0)] never changes it; a non-blank text
    without any keyword has exactly the one issue and the score 0.8. *)
Theorem validator_score_positive (s : string) :
  PyStr.is_empty (PyStr.strip s) = false ->
  let v := _validate_translation (JStr s) in
  List.length (issues v) <= 4 /\
  (0 < syntax_score v)%Q /\
  (syntax_score v == 1.0 - Qnat (List.length (issues v)) * 0.2)%Q /\
  (existsb (fun keyword => PyStr.contains keyword (PyStr.strip (PyStr.upper s)))
     valid_keywords = false ->
   is_valid v = false /\
   issues v = ["No valid BASIC keywords found"] /\
   (syntax_score v == 0.8)%Q).
Proof.
  intros He. cbn [_validate_translation]. cbv zeta.
  rewrite validate_str_nonempty by assumption.
  cbn [issues syntax_score is_valid].
  pose proof (collect_issues_at_most_four s) as Hn.
  set (n := List.length (fst (collect_issues s))) in *.
  assert (Hq : (Qnat n <= 4)%Q).
  { unfold Qnat, Qle. cbn. lia. }
  assert (Hpos : (0 < 1.0 - Qnat n * 0.2)%Q) by lra.
  split; [assumption|]. split; [|split].
  - eapply Qlt_le_trans; [exact Hpos|apply Q.le_max_l].
  - apply Q.max_l. lra.
  - intros Hk. subst n. rewrite collect_issues_no_keyword by assumption.
    cbn [fst List.length Nat.eqb]. repeat split; reflexivity.
Qed.

Lemma validator_score_positive_witness :
  (PyStr.is_empty (PyStr.strip "LET PRINT IF FOR") = false /\
   let v := _validate_translation (JStr "LET PRINT IF FOR") in
   List.length (issues v) <= 4 /\
   (0 < syntax_score v)%Q /\
   (syntax_score v == 1.0 - Qnat (List.length (issues v)) * 0.2)%Q) /\
  (PyStr.is_empty (PyStr.strip "hello there") = false /\
   existsb (fun keyword =>
              PyStr.contains keyword (PyStr.strip (PyStr.upper "hello there")))
     valid_keywords = false /\
   let v := _validate_translation (JStr "hello there") in
   is_valid v = false /\
   issues v = ["No valid BASIC keywords found"] /\
   (syntax_score v == 0.8)%Q).
Proof.
  split.
  - split; [reflexivity|].
    destruct (validator_score_positive "LET PRINT IF FOR" eq_refl)
      as (Hn & Hpos & Heq & _).
    exact (conj Hn (conj Hpos Heq)).
  - split; [reflexivity|]. split; [reflexivity|].
    destruct (validator_score_positive "hello there" eq_refl)
      as (_ & _ & _ & Hk).
    exact (Hk eq_refl).
Defined.

(** The bound of four is reached, and a text without keywords has the
    one issue.  With four issues the exact score is one fifth; the
    floating-point subtraction of the source gives the double next
    below it, which is positive as well. *)
Example validator_four_issues :
  List.length (issues (_validate_translation (JStr "LET PRINT IF FOR"))) = 4 /\
  (syntax_score (_validate_translation (JStr "LET PRINT IF FOR")) == 1 # 5)%Q /\
  issues (_validate_translation (JStr "hello there"))
  = ["No valid BASIC keywords found"].
Proof. repeat split; reflexivity. Qed.

End ValidatorKeywords.

(* ================================================================== *)
(** ** The sender in general                                           *)
(* ================================================================== *)

Section RetryTrace.

Import Provider Sender SenderMore.

Variable W : Type.
Variable p : AIProvider W.
Variables (command : string) (ctx : context).

Lemma last_cons_default {A : Type} (a : A) (l : list A) (d : A) :
  last (a :: l) d = last l a.
Proof.
  revert a d. induction l as [|b l IH]; intros a d; [reflexivity|].
  change (last (a :: b :: l) d) with (last (b :: l) d).
  now rewrite (IH b d), (IH b a).
Qed.

Lemma provider_calls_length (n : nat) (w : W) :
  List.length (fst (provider_calls W p command ctx n w)) <= n.
Proof.
  revert w. induction n as [|n IH]; intros w; cbn [provider_calls];
    [cbn; lia|].
  destruct (send_request W p w command ctx) as [[r|e] w1]; [cbn; lia|].
  specialize (IH w1).
  destruct (provider_calls W p command ctx n w1) as [rest w2].
  cbn [fst List.length] in *. lia.
Qed.

Lemma provider_calls_nonempty (n : nat) (w : W) :
  fst (provider_calls W p command ctx (S n) w) <> [].
Proof.
  cbn [provider_calls].
  destruct (send_request W p w command ctx) as [[r|e] w1]; [discriminate|].
  destruct (provider_calls W p command ctx n w1). discriminate.
Qed.

Lemma request_count_spaced (outcomes : list (result Response)) (i : Z) :
  request_count (spaced i outcomes) = List.length outcomes.
Proof.
  revert i. induction outcomes as [|o rest IH]; intros i; [reflexivity|].
  cbn [spaced]. destruct rest as [|o' rest']; [reflexivity|].
  change (request_count (Request o :: Sleep (2 ^ i) :: spaced (i + 1) (o' :: rest')))
    with (S (request_count (spaced (i + 1) (o' :: rest')))).
  now rewrite IH.
Qed.

(** The loop from the attempt [i] on, [k] attempts before the end of the
    budget: it makes the calls of [provider_calls] and appends their
    trace. *)
Lemma retry_loop_calls (k i : nat) (last_exception : option exn) (w : W)
      (trace : list Event) :
  Z.to_nat (retry_attempts W p) = i + k ->
  let calls := provider_calls W p command ctx k w in
  retry_loop W p command ctx (map Z.of_nat (seq i k)) last_exception w trace
  = (last (fst calls)
       (Raise (match last_exception with
               | Some e => e
               | None => OtherError "All retry attempts failed"
               end)),
     snd calls,
     (trace ++ spaced (Z.of_nat i) (fst calls))%list).
Proof.
  revert i last_exception w trace.
  induction k as [|k IH]; intros i last_exception w trace Hn; cbv zeta.
  - cbn [seq map retry_loop provider_calls fst snd last spaced].
    now rewrite app_nil_r.
  - cbn [seq map retry_loop provider_calls].
    destruct (send_request W p w command ctx) as [[r|e] w1].
    + reflexivity.
    + assert (Hc : (Z.of_nat i <? retry_attempts W p - 1)%Z = (0 <? k)).
      { destruct (0 <? k) eqn:E.
        - apply Nat.ltb_lt in E. apply Z.ltb_lt. lia.
        - apply Nat.ltb_ge in E. apply Z.ltb_ge. lia. }
      rewrite Hc.
      match goal with
      | |- retry_loop _ _ _ _ _ _ _ ?t = _ =>
          specialize (IH (S i) (Some e) w1 t ltac:(lia))
      end.
      cbv zeta in IH. rewrite IH.
      pose proof (provider_calls_nonempty) as Hne.
      destruct k as [|k].
      * cbn [provider_calls fst snd last spaced Nat.ltb Nat.leb].
        now rewrite app_nil_r.
      * specialize (Hne k w1).
        destruct (provider_calls W p command ctx (S k) w1) as [rest w2].
        cbn [fst snd] in *. destruct rest as [|o rest]; [contradiction|].
        change (0 <? S k) with true. cbv iota.
        rewrite (last_cons_default (Raise e) (o :: rest)).
        change (spaced (Z.of_nat i) (Raise e :: o :: rest))
          with (Request (Raise e) :: Sleep (2 ^ Z.of_nat i)
                  :: spaced (Z.of_nat i + 1) (o :: rest)).
        rewrite Nat2Z.inj_succ, <- Z.add_1_r, <- !app_assoc.
        reflexivity.
Qed.

(** X8.  [_send_with_retries] against any provider is the run of
    [provider_calls] with the budget [retry_attempts]: it calls
    [send_request] in the world that the call before leaves until the
    first answer or the end of the budget, leaves the world of the last
    call, and answers the outcome of the last call, or
    [Exception(All retry attempts failed)] when the budget allows no
    call.  Its trace is these requests in order, at most
    [retry_attempts] of them, with a pause of [2^attempt] behind every
    request but the last. *)
Theorem send_with_retries_trace (w : W) :
  let calls :=
    provider_calls W p command ctx (Z.to_nat (retry_attempts W p)) w in
  _send_with_retries W p command ctx w
  = (last (fst calls) (Raise (OtherError "All retry attempts failed")),
     snd calls, spaced 0 (fst calls)) /\
  request_count (spaced 0 (fst calls)) = List.length (fst calls) /\
  List.length (fst calls) <= Z.to_nat (retry_attempts W p).
Proof.
  cbv zeta. split; [|split].
  - unfold _send_with_retries, range.
    now rewrite (retry_loop_calls (Z.to_nat (retry_attempts W p)) 0 None w []
                   eq_refl).
  - apply request_count_spaced.
  - apply provider_calls_length.
Qed.

End RetryTrace.

(** A provider that answers the second request: two requests, one pause,
    and the world behind the second call. *)
Example send_with_retries_flaky :
  Sender._send_with_retries Samples.world SenderMore.flaky_provider
    "Print hello world" None 0
  = (Ok Samples.hello_response, 2,
     [ Sender.Request
         (Raise (BridgeError "OpenAI API error: 500 - request 0"
                   COMMUNICATION HIGH));
       Sender.Sleep 1;
       Sender.Request (Ok Samples.hello_response) ]).
Proof. reflexivity. Qed.

Section SelectProvider.

Import Provider Sender.

Variable W : Type.

Lemma find_provider_in (k : string) (ps : list (string * AIProvider W))
      (p : AIProvider W) :
  find_provider W k ps = Some p -> In (k, p) ps.
Proof.
  induction ps as [|[k' q] ps IH]; cbn [find_provider]; [discriminate|].
  destruct (String.eqb k k') eqn:E.
  - intros [= ->]. apply String.eqb_eq in E. subst k'. now left.
  - intros H. right. now apply IH.
Qed.

(** X9.  [_select_provider] answers [None] only when no provider is
    registered; what it selects is a registered provider; and a
    registered provider that the caller names is the one selected. *)
Theorem select_provider_registered (self : AICommandSender W)
        (preferred_provider : option string) :
  (_select_provider W self preferred_provider = None <->
   providers W self = []) /\
  (forall p, _select_provider W self preferred_provider = Some p ->
             exists k, In (k, p) (providers W self)) /\
  (forall n p, preferred_provider = Some n -> PyStr.is_empty n = false ->
               find_provider W n (providers W self) = Some p ->
               _select_provider W self preferred_provider = Some p).
Proof.
  unfold _select_provider. repeat split.
  - destruct (match preferred_provider with Some _ => _ | None => _ end);
      [discriminate|].
    destruct (find_provider W (default_provider W self) _); [discriminate|].
    destruct (find_provider W (fallback_provider W self) _); [discriminate|].
    now destruct (providers W self) as [|[k q] l].
  - intros ->. destruct preferred_provider as [n|]; [destruct (PyStr.is_empty n)|];
      reflexivity.
  - intros q.
    destruct preferred_provider as [n|].
    + destruct (PyStr.is_empty n).
      * destruct (find_provider W (default_provider W self) _) eqn:Ed;
          [intros [= <-]; eexists; eapply find_provider_in; eassumption|].
        destruct (find_provider W (fallback_provider W self) _) eqn:Ef;
          [intros [= <-]; eexists; eapply find_provider_in; eassumption|].
        destruct (providers W self) as [|[k q'] l]; [discriminate|].
        intros [= <-]. exists k. now left.
      * destruct (find_provider W n _) eqn:En;
          [intros [= <-]; eexists; eapply find_provider_in; eassumption|].
        destruct (find_provider W (default_provider W self) _) eqn:Ed;
          [intros [= <-]; eexists; eapply find_provider_in; eassumption|].
        destruct (find_provider W (fallback_provider W self) _) eqn:Ef;
          [intros [= <-]; eexists; eapply find_provider_in; eassumption|].
        destruct (providers W self) as [|[k q'] l]; [discriminate|].
        intros [= <-]. exists k. now left.
    + destruct (find_provider W (default_provider W self) _) eqn:Ed;
        [intros [= <-]; eexists; eapply find_provider_in; eassumption|].
      destruct (find_provider W (fallback_provider W self) _) eqn:Ef;
        [intros [= <-]; eexists; eapply find_provider_in; eassumption|].
      destruct (providers W self) as [|[k q'] l]; [discriminate|].
      intros [= <-]. exists k. now left.
  - intros n q -> Hn Hf. now rewrite Hn, Hf.
Qed.

End SelectProvider.

Section SenderAccounting.

Import Provider Sender SenderMore.

Variable W : Type.
Variable digest : string * option string * pydict -> string.

Lemma stats_get_update_other (k n : string) (rt : Q) (b : bool)
      (l : list (string * ProviderStats)) :
  k <> n ->
  stats_get k (update_provider_stats n rt b l) = stats_get k l.
Proof.
  intros Hk. induction l as [|[k' ps] l IH]; cbn [update_provider_stats stats_get].
  - apply String.eqb_neq in Hk. now rewrite Hk.
  - destruct (String.eqb n k') eqn:E; cbn [stats_get].
    + apply String.eqb_eq in E. subst k'.
      apply String.eqb_neq in Hk. now rewrite Hk.
    + now rewrite IH.
Qed.

Lemma stats_get_update_same (n : string) (rt : Q) (b : bool)
      (l : list (string * ProviderStats)) :
  stats_get n (update_provider_stats n rt b l)
  = Some (bump_provider
            (match stats_get n l with
             | Some ps => ps
             | None => mkProviderStats 0 0 0 0.0%Q
             end) rt b).
Proof.
  induction l as [|[k' ps] l IH]; cbn [update_provider_stats stats_get].
  - now rewrite String.eqb_refl.
  - destruct (String.eqb n k') eqn:E; cbn [stats_get]; now rewrite E.
Qed.

(** The [except] clause: the error dictionary, and what it leaves of the
    sender. *)
Lemma send_failed_result (self0 self : AICommandSender W) (clk : Clock)
      (command : string) (provider : option string) (e : exn) :
  let out := send_failed W self0 self clk command provider e in
  let d := deref W (snd out) (fst out) in
  let rt := ((perf_fail clk - perf_start clk) * 1000)%Q in
  fst out = List.length (heap W self) /\
  dict_get "success" d = Some (JBool false) /\
  dict_get "error" d = Some (JStr (str_of_exn e)) /\
  dict_get "confidence" d = Some (JFloat 0.0%Q) /\
  dict_get "provider" d
  = Some (JStr (match provider with
                | Some n => if PyStr.is_empty n then "unknown" else n
                | None => "unknown"
                end)) /\
  dict_get "cached" d = None /\
  cache W (snd out) = cache W self /\
  cache_enabled W (snd out) = cache_enabled W self /\
  total_requests (stats W (snd out)) = (total_requests (stats W self) + 1)%Z /\
  failed_requests (stats W (snd out)) = (failed_requests (stats W self) + 1)%Z /\
  successful_requests (stats W (snd out)) = successful_requests (stats W self) /\
  provider_stats (stats W (snd out))
  = update_provider_stats "unknown" rt false (provider_stats (stats W self)).
Proof.
  cbv zeta. unfold send_failed. cbn [alloc fst snd]. unfold deref.
  cbn [_add_to_history _update_stats with_history with_stats with_error_log
       with_heap heap cache cache_enabled stats total_requests failed_requests
       successful_requests provider_stats].
  rewrite nth_middle. repeat split; reflexivity.
Qed.

(** The path through a provider that gives up, from the sender [self1]
    that the look-up leaves. *)
Lemma send_uncached_failed (self0 self1 : AICommandSender W) (w w' : W)
      (clk : Clock) (k command : string) (provider : option string)
      (ctx : context) (p : AIProvider W) (e : exn) (events : list Event) :
  _select_provider W self1 provider = Some p ->
  _send_with_retries W p command ctx w = (Raise e, w', events) ->
  let out := send_uncached W self0 self1 w clk k command provider ctx in
  let self' := snd (fst (fst out)) in
  let d := deref W self' (fst (fst (fst out))) in
  snd out = events /\ snd (fst out) = w' /\
  dict_get "success" d = Some (JBool false) /\
  dict_get "error" d = Some (JStr (str_of_exn e)) /\
  dict_get "confidence" d = Some (JFloat 0.0%Q) /\
  dict_get "provider" d
  = Some (JStr (match provider with
                | Some n => if PyStr.is_empty n then "unknown" else n
                | None => "unknown"
                end)) /\
  cache W self' = cache W self1 /\
  failed_requests (stats W self') = (failed_requests (stats W self1) + 1)%Z /\
  successful_requests (stats W self') = successful_requests (stats W self1) /\
  provider_stats (stats W self')
  = update_provider_stats "unknown"
      ((perf_fail clk - perf_start clk) * 1000)%Q false
      (provider_stats (stats W self1)).
Proof.
  intros Hsel Hret. cbv zeta. unfold send_uncached. rewrite Hsel, Hret.
  pose proof (send_failed_result self0 self1 clk command provider e) as H.
  cbv zeta in H.
  destruct (send_failed W self0 self1 clk command provider e) as [r s1].
  cbn [fst snd] in *.
  destruct H as (_ & Hs & He & Hc & Hp & _ & Hca & _ & _ & Hf & Hok & Hps).
  repeat split; assumption.
Qed.

(** X10.  A call that misses the cache -- caching is off, there is no
    entry under its key, or the entry has expired -- and whose provider
    gives up: the answer is an error dictionary with the text of the last
    error and the confidence 0; its provider field is the caller's hint,
    or [unknown], not the provider that was tried.  The failure is not
    cached: with caching on there is no entry under the key afterwards
    (an expired one is deleted by the look-up), the entries under other
    keys are as before, and without an expired entry the cache is
    unchanged.  The failure is counted, but against the provider name
    [unknown]: the counters kept for the provider that failed do not
    move. *)
Theorem failed_call_accounting (self : AICommandSender W) (w w' : W)
        (clk : Clock) (command : string) (provider : option string)
        (ctx : context) (p : AIProvider W) (e : exn) (events : list Event) :
  let key := _generate_cache_key digest command provider ctx in
  fst (if cache_enabled W self
       then _get_cached_response W self (now_lookup clk) key
       else (None, self)) = None ->
  _select_provider W self provider = Some p ->
  _send_with_retries W p command ctx w = (Raise e, w', events) ->
  let out := send_command W digest self w clk command provider ctx in
  let self' := snd (fst (fst out)) in
  let d := deref W self' (fst (fst (fst out))) in
  snd out = events /\ snd (fst out) = w' /\
  dict_get "success" d = Some (JBool false) /\
  dict_get "error" d = Some (JStr (str_of_exn e)) /\
  dict_get "confidence" d = Some (JFloat 0.0%Q) /\
  dict_get "provider" d
  = Some (JStr (match provider with
                | Some n => if PyStr.is_empty n then "unknown" else n
                | None => "unknown"
                end)) /\
  (cache_enabled W self = true -> cache_get key (cache W self') = None) /\
  (forall k, k <> key ->
             cache_get k (cache W self') = cache_get k (cache W self)) /\
  (cache_enabled W self = false \/ cache_get key (cache W self) = None ->
   cache W self' = cache W self) /\
  failed_requests (stats W self') = (failed_requests (stats W self) + 1)%Z /\
  successful_requests (stats W self') = successful_requests (stats W self) /\
  (exists ps, stats_get "unknown" (provider_stats (stats W self')) = Some ps /\
              failed ps
              = (match stats_get "unknown" (provider_stats (stats W self)) with
                 | Some ps0 => failed ps0
                 | None => 0
                 end + 1)%Z) /\
  (name W p <> "unknown" ->
   stats_get (name W p) (provider_stats (stats W self'))
   = stats_get (name W p) (provider_stats (stats W self))).
Proof.
  cbv zeta. intros Hmiss Hsel Hret.
  set (key := _generate_cache_key digest command provider ctx) in *.
  unfold send_command. fold key.
  (* the sender that the look-up leaves *)
  assert (Hlook : exists self1,
             (if cache_enabled W self
              then _get_cached_response W self (now_lookup clk) key
              else (None, self)) = (None, self1) /\
             _select_provider W self1 provider = Some p /\
             stats W self1 = stats W self /\
             (cache_enabled W self = true ->
              cache_get key (cache W self1) = None) /\
             (forall k, k <> key ->
                        cache_get k (cache W self1) = cache_get k (cache W self)) /\
             (cache_enabled W self = false \/
              cache_get key (cache W self) = None ->
              cache W self1 = cache W self)).
  { destruct (cache_enabled W self) eqn:En.
    - unfold _get_cached_response in *.
      destruct (cache_get key (cache W self)) as [e0|] eqn:Hget.
      + destruct (Qltb (cache_ttl W self) (now_lookup clk - timestamp e0))
          eqn:Hexp.
        * exists (with_cache W self (cache_del key (cache W self))).
          cbn [cache with_cache stats].
          repeat split; try assumption.
          -- intros _. rewrite cache_get_del. now rewrite String.eqb_refl.
          -- intros k Hk. rewrite cache_get_del.
             destruct (String.eqb key k) eqn:E; [|reflexivity].
             apply String.eqb_eq in E. congruence.
          -- intros [H|H]; discriminate.
        * cbn [alloc fst] in Hmiss. discriminate.
      + exists self. repeat split; auto.
    - exists self. repeat split; auto. intros H. discriminate. }
  destruct Hlook as (self1 & -> & Hsel1 & Hst & Hc1 & Hc2 & Hc3).
  pose proof (send_uncached_failed self self1 w w' clk key command provider
                ctx p e events Hsel1 Hret) as H.
  cbv zeta in H.
  destruct (send_uncached W self self1 w clk key command provider ctx)
    as [[[r s1] w1] ev].
  cbn [fst snd] in *.
  destruct H as (Hev & Hw & Hs & He & Hc & Hp & Hca & Hf & Hok & Hps).
  rewrite Hca, Hf, Hok, Hps, Hst.
  repeat split; try assumption.
  - rewrite stats_get_update_same. eexists. split; [reflexivity|].
    cbn [bump_provider failed].
    now destruct (stats_get "unknown" (provider_stats (stats W self))).
  - intros Hn. now apply stats_get_update_other.
Qed.

Lemma store_result_plain (self : AICommandSender W) (clk : Clock) (k : string)
      (rt : Q) (pname : string) (d : pydict) :
  cache_enabled W self = false ->
  let out := store_result W self clk k rt pname d in
  fst out = List.length (heap W self) /\
  deref W (snd out) (fst out) = d /\
  cache W (snd out) = cache W self /\
  cache_enabled W (snd out) = false /\
  total_requests (stats W (snd out)) = (total_requests (stats W self) + 1)%Z.
Proof.
  intros Hen. cbv zeta. unfold store_result. cbn [alloc].
  cbn [cache_enabled with_heap]. rewrite Hen. unfold deref.
  cbn [_add_to_history _update_stats with_history with_stats with_heap heap
       cache cache_enabled stats total_requests fst snd].
  rewrite nth_middle. now rewrite Hen.
Qed.

(** X11.  With caching switched off [send_command] neither reads nor
    writes the cache: the answer is a new dictionary that is not marked
    as cached, the cache stays as it is, and every call is counted. *)
Theorem cache_disabled_passthrough (self : AICommandSender W) (w : W)
        (clk : Clock) (command : string) (provider : option string)
        (ctx : context) :
  cache_enabled W self = false ->
  let out := send_command W digest self w clk command provider ctx in
  let self' := snd (fst (fst out)) in
  let r := fst (fst (fst out)) in
  r = List.length (heap W self) /\
  dict_get "cached" (deref W self' r) <> Some (JBool true) /\
  cache W self' = cache W self /\
  cache_enabled W self' = false /\
  total_requests (stats W self') = (total_requests (stats W self) + 1)%Z.
Proof.
  intros Hen. cbv zeta. unfold send_command. rewrite Hen.
  unfold send_uncached.
  assert (Hfail : forall e,
             let o := send_failed W self self clk command provider e in
             fst o = List.length (heap W self) /\
             dict_get "cached" (deref W (snd o) (fst o)) <> Some (JBool true) /\
             cache W (snd o) = cache W self /\
             cache_enabled W (snd o) = false /\
             total_requests (stats W (snd o))
             = (total_requests (stats W self) + 1)%Z).
  { intros e. pose proof (send_failed_result self self clk command provider e) as H.
    cbv zeta in *.
    destruct H as (Hr & _ & _ & _ & _ & Hc & Hca & Hce & Ht & _).
    repeat split; try assumption; try congruence. }
  destruct (_select_provider W self provider) as [sel|].
  - destruct (_send_with_retries W sel command ctx w) as [[[resp|e] w1] ev].
    + cbv zeta.
      match goal with
      | |- context [store_result W self clk ?k ?rt ?pn ?d] =>
          pose proof (store_result_plain self clk k rt pn d Hen) as Hs;
          cbv zeta in Hs;
          destruct (store_result W self clk k rt pn d) as [r s1]
      end.
      cbn [fst snd] in *. destruct Hs as (Hr & Hd & Hca & Hce & Ht).
      repeat split; try assumption. rewrite Hd. discriminate.
    + specialize (Hfail e). cbv zeta in Hfail.
      destruct (send_failed W self self clk command provider e) as [r s1].
      exact Hfail.
  - specialize (Hfail (BridgeError "No available AI providers"
                         COMMUNICATION CRITICAL)).
    cbv zeta in Hfail.
    destruct (send_failed W self self clk command provider _) as [r s1].
    exact Hfail.
Qed.

(** X12.  An entry that is older than the time to live is not served: the
    look-up answers [None] and deletes the entry, and only that entry. *)
Theorem cached_entry_expires (self : AICommandSender W) (now : Q)
        (cache_key : string) (e : CacheEntry) :
  cache_get cache_key (cache W self) = Some e ->
  (cache_ttl W self < now - timestamp e)%Q ->
  let out := _get_cached_response W self now cache_key in
  fst out = None /\
  cache_get cache_key (cache W (snd out)) = None /\
  (forall k, k <> cache_key ->
             cache_get k (cache W (snd out)) = cache_get k (cache W self)) /\
  heap W (snd out) = heap W self.
Proof.
  intros Hget Hold. cbv zeta. unfold _get_cached_response.
  rewrite Hget, (Qltb_true _ _ Hold). cbn [fst snd cache with_cache heap].
  repeat split.
  - rewrite cache_get_del. now rewrite String.eqb_refl.
  - intros k Hk. rewrite cache_get_del.
    destruct (String.eqb cache_key k) eqn:E; [|reflexivity].
    apply String.eqb_eq in E. congruence.
Qed.

End SenderAccounting.

Lemma failed_call_accounting_witness :
  let self := SenderMore.stale_failing_sender in
  let key := "Print hello world/None" in
  let out :=
    Sender.send_command Samples.world Samples.sample_digest self 0
      Samples.first_clock "Print hello world" None None in
  let self' := snd (fst (fst out)) in
  let d := Sender.deref Samples.world self' (fst (fst (fst out))) in
  snd out
  = [ Sender.Request
        (Raise (BridgeError "OpenAI API error: 500 - request 0" COMMUNICATION HIGH));
      Sender.Sleep 1;
      Sender.Request
        (Raise (BridgeError "OpenAI API error: 500 - request 1" COMMUNICATION HIGH));
      Sender.Sleep 2;
      Sender.Request
        (Raise (BridgeError "OpenAI API error: 500 - request 2" COMMUNICATION HIGH)) ] /\
  snd (fst out) = 3 /\
  dict_get "success" d = Some (JBool false) /\
  dict_get "error" d
  = Some (JStr (str_of_exn
                  (BridgeError "OpenAI API error: 500 - request 2"
                     COMMUNICATION HIGH))) /\
  dict_get "confidence" d = Some (JFloat 0.0%Q) /\
  dict_get "provider" d = Some (JStr "unknown") /\
  (Sender.cache_enabled Samples.world self = true ->
   Sender.cache_get key (Sender.cache Samples.world self') = None) /\
  (forall k, k <> key ->
             Sender.cache_get k (Sender.cache Samples.world self')
             = Sender.cache_get k (Sender.cache Samples.world self)) /\
  (Sender.cache_enabled Samples.world self = false \/
   Sender.cache_get key (Sender.cache Samples.world self) = None ->
   Sender.cache Samples.world self' = Sender.cache Samples.world self) /\
  Sender.failed_requests (Sender.stats Samples.world self')
  = (Sender.failed_requests (Sender.stats Samples.world self) + 1)%Z /\
  Sender.successful_requests (Sender.stats Samples.world self')
  = Sender.successful_requests (Sender.stats Samples.world self) /\
  (exists ps,
      SenderMore.stats_get "unknown"
        (Sender.provider_stats (Sender.stats Samples.world self')) = Some ps /\
      Sender.failed ps
      = (match SenderMore.stats_get "unknown"
                 (Sender.provider_stats (Sender.stats Samples.world self)) with
         | Some ps0 => Sender.failed ps0
         | None => 0
         end + 1)%Z) /\
  (Sender.name Samples.world Samples.failing_provider <> "unknown" ->
   SenderMore.stats_get (Sender.name Samples.world Samples.failing_provider)
     (Sender.provider_stats (Sender.stats Samples.world self'))
   = SenderMore.stats_get (Sender.name Samples.world Samples.failing_provider)
       (Sender.provider_stats (Sender.stats Samples.world self))).
Proof.
  apply (failed_call_accounting Samples.world Samples.sample_digest
           SenderMore.stale_failing_sender 0 3 Samples.first_clock
           "Print hello world" None None Samples.failing_provider
           (BridgeError "OpenAI API error: 500 - request 2" COMMUNICATION HIGH)).
  - reflexivity.
  - reflexivity.
  - reflexivity.
Defined.

(** In the run of the witness the entry under the key has expired: the
    look-up deletes it, the failure is not stored, and the other entry
    stays. *)
Example failed_call_drops_stale_entry :
  let out :=
    Sender.send_command Samples.world Samples.sample_digest
      SenderMore.stale_failing_sender 0 Samples.first_clock
      "Print hello world" None None in
  map fst (Sender.cache Samples.world SenderMore.stale_failing_sender)
  = ["Print hello world/None"; "List files/None"] /\
  map fst (Sender.cache Samples.world (snd (fst (fst out))))
  = ["List files/None"].
Proof. split; reflexivity. Qed.

Lemma cache_disabled_passthrough_witness :
  let out :=
    Sender.send_command Samples.world Samples.sample_digest
      SenderMore.uncached_sender 0 Samples.first_clock
      "Print hello world" None None in
  let self' := snd (fst (fst out)) in
  let r := fst (fst (fst out)) in
  r = List.length (Sender.heap Samples.world SenderMore.uncached_sender) /\
  dict_get "cached" (Sender.deref Samples.world self' r) <> Some (JBool true) /\
  Sender.cache Samples.world self'
  = Sender.cache Samples.world SenderMore.uncached_sender /\
  Sender.cache_enabled Samples.world self' = false /\
  Sender.total_requests (Sender.stats Samples.world self')
  = (Sender.total_requests
       (Sender.stats Samples.world SenderMore.uncached_sender) + 1)%Z.
Proof.
  apply (cache_disabled_passthrough Samples.world Samples.sample_digest
           SenderMore.uncached_sender 0 Samples.first_clock
           "Print hello world" None None).
  reflexivity.
Defined.

Lemma cached_entry_expires_witness :
  let out :=
    Sender._get_cached_response Samples.world SenderMore.stale_sender
      1700003601%Q "Print hello world/None" in
  fst out = None /\
  Sender.cache_get "Print hello world/None"
    (Sender.cache Samples.world (snd out)) = None /\
  (forall k, k <> "Print hello world/None" ->
             Sender.cache_get k (Sender.cache Samples.world (snd out))
             = Sender.cache_get k
                 (Sender.cache Samples.world SenderMore.stale_sender)) /\
  Sender.heap Samples.world (snd out)
  = Sender.heap Samples.world SenderMore.stale_sender.
Proof.
  apply (cached_entry_expires Samples.world SenderMore.stale_sender
           1700003601%Q "Print hello world/None"
           (Sender.mkEntry 0 1700000000%Q)).
  - reflexivity.
  - reflexivity.
Defined.

(** An entry that is exactly as old as the time to live is still served. *)
Example cached_entry_at_ttl :
  fst (Sender._get_cached_response Samples.world SenderMore.stale_sender
         1700003600%Q "Print hello world/None") = Some 1.
Proof. reflexivity. Qed.

Section CacheSize.

Import Provider Sender SenderMore.

Variable W : Type.

Lemma cache_set_length (k : string) (e : CacheEntry)
      (c : list (string * CacheEntry)) :
  List.length (cache_set k e c) <= S (List.length c).
Proof.
  induction c as [|[k' e'] c IH]; cbn [cache_set List.length]; [lia|].
  destruct (String.eqb k k'); cbn [List.length]; lia.
Qed.

Lemma cache_set_length_new (k : string) (e : CacheEntry)
      (c : list (string * CacheEntry)) :
  cache_get k c = None -> List.length (cache_set k e c) = S (List.length c).
Proof.
  induction c as [|[k' e'] c IH]; cbn [cache_set cache_get List.length];
    [reflexivity|].
  destruct (String.eqb k k'); [discriminate|].
  intros H. cbn [List.length]. now rewrite IH.
Qed.

Lemma cache_del_length_le (k : string) (c : list (string * CacheEntry)) :
  List.length (cache_del k c) <= List.length c.
Proof.
  induction c as [|x c IH]; cbn [cache_del filter List.length]; [lia|].
  fold (cache_del k c). destruct (negb _); cbn [List.length]; lia.
Qed.

Lemma cache_del_length_lt (k : string) (c : list (string * CacheEntry)) :
  In k (cache_keys c) -> List.length (cache_del k c) < List.length c.
Proof.
  induction c as [|x c IH]; cbn [cache_keys map In]; [tauto|].
  cbn [cache_del filter List.length]. fold (cache_del k c).
  pose proof (cache_del_length_le k c) as Hle.
  intros [Hx|Hin].
  - rewrite Hx, String.eqb_refl. cbn [negb]. lia.
  - specialize (IH Hin). destruct (negb _); cbn [List.length]; lia.
Qed.

Lemma cache_dels_length_le (ks : list string) (c : list (string * CacheEntry)) :
  List.length (fold_left (fun c key => cache_del key c) ks c) <= List.length c.
Proof.
  revert c. induction ks as [|k ks IH]; intros c; cbn [fold_left]; [lia|].
  etransitivity; [apply IH|apply cache_del_length_le].
Qed.

(** What survives the deletions is an entry of the cache whose key is not
    among the keys deleted. *)
Lemma cache_dels_in (ks : list string) (c : list (string * CacheEntry))
      (x : string * CacheEntry) :
  In x (fold_left (fun c key => cache_del key c) ks c) ->
  In x c /\ ~ In (fst x) ks.
Proof.
  revert c. induction ks as [|k ks IH]; intros c; cbn [fold_left]; [tauto|].
  intros H. apply IH in H as [Hin Hks]. unfold cache_del in Hin.
  apply filter_In in Hin as [Hin Hk]. split; [assumption|].
  intros [->|Hx]; [|tauto]. now rewrite String.eqb_refl in Hk.
Qed.

Lemma insert_by_time_in (x y : string * CacheEntry)
      (l : list (string * CacheEntry)) :
  In y (insert_by_time x l) <-> y = x \/ In y l.
Proof.
  induction l as [|z l IH]; cbn [insert_by_time In]; [intuition|].
  destruct (Qleb _ _); cbn [In]; [intuition|]. rewrite IH. intuition.
Qed.

Lemma sort_by_time_in (c : list (string * CacheEntry)) (y : string * CacheEntry) :
  In y (sort_by_time c) <-> In y c.
Proof.
  induction c as [|x c IH]; cbn [sort_by_time fold_right In]; [tauto|].
  fold (sort_by_time c). rewrite insert_by_time_in, IH. intuition.
Qed.

Lemma insert_by_time_length (x : string * CacheEntry)
      (l : list (string * CacheEntry)) :
  List.length (insert_by_time x l) = S (List.length l).
Proof.
  induction l as [|z l IH]; cbn [insert_by_time List.length]; [reflexivity|].
  destruct (Qleb _ _); cbn [List.length]; [reflexivity|]. now rewrite IH.
Qed.

Lemma sort_by_time_length (c : list (string * CacheEntry)) :
  List.length (sort_by_time c) = List.length c.
Proof.
  induction c as [|x c IH]; cbn [sort_by_time fold_right List.length];
    [reflexivity|].
  fold (sort_by_time c). now rewrite insert_by_time_length, IH.
Qed.

(** X13.  A cache within its size limit stays within it: when a new entry
    takes the cache over the limit, the trimming removes at least one
    entry. *)
Theorem cache_size_bounded (self : AICommandSender W) (now : Q)
        (cache_key : string) (r : ref) :
  List.length (cache W self) <= max_cache_size W self ->
  List.length (cache W (_cache_response W self now cache_key r))
  <= max_cache_size W self.
Proof.
  intros Hlen. unfold _cache_response.
  set (c := cache_set cache_key (mkEntry r now) (cache W self)).
  pose proof (cache_set_length cache_key (mkEntry r now) (cache W self)) as Hc.
  fold c in Hc.
  destruct (max_cache_size W self <? List.length c) eqn:E;
    cbn [cache with_cache].
  - apply Nat.ltb_lt in E.
    pose proof (sort_by_time_length c) as Hs.
    destruct (sort_by_time c) as [|y l] eqn:Es; [cbn in Hs; lia|].
    change (firstn 100 (map fst (y :: l)))
      with (fst y :: firstn 99 (map fst l)).
    cbn [fold_left].
    assert (Hy : In (fst y) (cache_keys c)).
    { unfold cache_keys. apply in_map. apply sort_by_time_in.
      rewrite Es. now left. }
    pose proof (cache_del_length_lt (fst y) c Hy) as Hlt.
    pose proof (cache_dels_length_le (firstn 99 (map fst l))
                  (cache_del (fst y) c)) as Hle.
    lia.
  - apply Nat.ltb_ge in E. exact E.
Qed.

(** X14.  A size limit below 100 makes the trimming clear the cache: the
    hundred oldest keys are then all the keys, the one just stored
    included, so that the response that filled the cache is not kept. *)
Theorem small_cache_overflow_clears (self : AICommandSender W) (now : Q)
        (cache_key : string) (r : ref) :
  max_cache_size W self < 100 ->
  List.length (cache W self) = max_cache_size W self ->
  cache_get cache_key (cache W self) = None ->
  cache W (_cache_response W self now cache_key r) = [].
Proof.
  intros Hsmall Hfull Hnew. unfold _cache_response.
  set (c := cache_set cache_key (mkEntry r now) (cache W self)).
  pose proof (cache_set_length_new cache_key (mkEntry r now) (cache W self) Hnew)
    as Hc.
  fold c in Hc.
  assert (E : (max_cache_size W self <? List.length c) = true)
    by (apply Nat.ltb_lt; lia).
  rewrite E. cbn [cache with_cache].
  rewrite firstn_all2
    by (rewrite length_map, sort_by_time_length; lia).
  destruct (fold_left _ _ c) as [|x rest] eqn:Ef; [reflexivity|].
  assert (Hx : In x (fold_left (fun c key => cache_del key c)
                       (map fst (sort_by_time c)) c))
    by (rewrite Ef; now left).
  apply cache_dels_in in Hx as [Hin Hout].
  exfalso. apply Hout. apply in_map. now apply sort_by_time_in.
Qed.

End CacheSize.

Lemma cache_size_bounded_witness :
  List.length
    (Sender.cache Samples.world
       (Sender._cache_response Samples.world SenderMore.stale_sender
          1700000100%Q "List files/None" 0))
  <= Sender.max_cache_size Samples.world SenderMore.stale_sender.
Proof.
  apply (cache_size_bounded Samples.world SenderMore.stale_sender
           1700000100%Q "List files/None" 0).
  cbn. lia.
Defined.

Lemma small_cache_overflow_clears_witness :
  Sender.cache Samples.world
    (Sender._cache_response Samples.world SenderMore.tiny_sender
       1700000100%Q "List files/None" 0) = [].
Proof.
  apply (small_cache_overflow_clears Samples.world SenderMore.tiny_sender
           1700000100%Q "List files/None" 0).
  - cbn. lia.
  - reflexivity.
  - reflexivity.
Defined.

Section ProviderConfidence.

Import Provider Sender.

Variable W : Type.

(** X15.  The confidence that the sender gives a response is 0 for a
    blank content and lies between 0.3 and 1 otherwise: the bonuses add
    up to 0.5 at most and the penalty is 0.2, so that the clamping to
    [0, 1] at the end never changes the value. *)
Theorem provider_confidence_range (response : Response) (command : string) :
  let c := _calculate_confidence response command in
  if PyStr.is_empty (PyStr.strip (content response))
  then c = 0.0%Q
  else (0.3 <= c)%Q /\ (c <= 1)%Q.
Proof.
  cbv zeta. unfold _calculate_confidence.
  destruct (PyStr.is_empty (PyStr.strip (content response))); [reflexivity|].
  set (n := List.length _).
  set (b := Qmin (inject_Z (Z.of_nat n) * 0.1) 0.3).
  assert (Hb0 : (0 <= b)%Q).
  { apply Q.min_glb; [|discriminate].
    apply Qmult_le_0_compat; [|discriminate].
    unfold Qle. cbn. lia. }
  assert (Hb1 : (b <= 0.3)%Q) by apply Q.le_min_r.
  split.
  - apply Q.min_glb; [|discriminate].
    eapply Qle_trans; [|apply Q.le_max_l].
    clearbody b. clear n.
    destruct (has_line_numbers _), (_ && _), (_ || _); lra.
  - eapply Qle_trans; [apply Q.le_min_r|discriminate].
Qed.

End ProviderConfidence.

(* ================================================================== *)
(** ** Parsed responses                                                *)
(* ================================================================== *)

Section ParsedResponses.

Import Provider.

Lemma rstrip_idempotent (s : string) :
  PyStr.rstrip (PyStr.rstrip s) = PyStr.rstrip s.
Proof.
  induction s as [|c s IH]; [reflexivity|]. simpl.
  destruct (PyStr.rstrip s) as [|d r] eqn:E.
  - destruct (PyStr.isspace c) eqn:Ec; simpl; [reflexivity|now rewrite Ec].
  - change (PyStr.rstrip (String c (String d r)))
      with (match PyStr.rstrip (String d r) with
            | EmptyString =>
                if PyStr.isspace c then EmptyString else String c EmptyString
            | String a r0 => String c (String a r0)
            end).
    now rewrite IH.
Qed.

Lemma lstrip_rstrip_head (c : ascii) (s : string) :
  PyStr.isspace c = false ->
  PyStr.lstrip (PyStr.rstrip (String c s)) = PyStr.rstrip (String c s).
Proof.
  intros Hc. cbn [PyStr.rstrip].
  destruct (PyStr.rstrip s); [rewrite Hc|]; cbn [PyStr.lstrip]; now rewrite Hc.
Qed.

Lemma lstrip_rstrip_lstrip (s : string) :
  PyStr.lstrip (PyStr.rstrip (PyStr.lstrip s)) = PyStr.rstrip (PyStr.lstrip s).
Proof.
  induction s as [|c s IH]; [reflexivity|]. cbn [PyStr.lstrip].
  destruct (PyStr.isspace c) eqn:Ec; [assumption|].
  now apply lstrip_rstrip_head.
Qed.

(** [s.strip().strip() == s.strip()] *)
Lemma strip_idempotent (s : string) :
  PyStr.strip (PyStr.strip s) = PyStr.strip s.
Proof.
  unfold PyStr.strip. now rewrite lstrip_rstrip_lstrip, rstrip_idempotent.
Qed.

Lemma bind_ok {A B : Type} (m : result A) (f : A -> result B) (r : B) :
  bind m f = Ok r -> exists x, m = Ok x /\ f x = Ok r.
Proof. destruct m as [x|e]; [|discriminate]. intros H. now exists x. Qed.

Lemma py_strip_ok (v : json) (s : string) :
  Py.strip v = Ok s -> PyStr.strip s = s.
Proof.
  destruct v; try discriminate. intros [= <-]. apply strip_idempotent.
Qed.

Ltac bind_step H :=
  let x := fresh "x" in
  let Hx := fresh "Hx" in
  apply bind_ok in H as (x & Hx & H).

(** X16.  What [_parse_response] accepts, parser by parser.  An answer
    accepted by the OpenAI parser has stripped text as its content,
    exactly the three token counts as its usage, and names "openai" as
    its provider.  An answer accepted by the Gemini parser has stripped
    text as its content, the same three usage keys, names "google" as
    its provider, and always reports the model of the provider object,
    whatever the payload says. *)
Theorem parsed_response_shape (self_model : string) (response_data : json)
        (r : Response) :
  (openai_parse_response self_model response_data = Ok r ->
   PyStr.strip (content r) = content r /\
   map fst (usage r) = ["prompt_tokens"; "completion_tokens"; "total_tokens"] /\
   provider r = "openai") /\
  (google_parse_response self_model response_data = Ok r ->
   PyStr.strip (content r) = content r /\
   map fst (usage r) = ["prompt_tokens"; "completion_tokens"; "total_tokens"] /\
   provider r = "google" /\
   model r = JStr self_model).
Proof.
  split; intros H.
  - unfold openai_parse_response in H.
    destruct (openai_parse_body self_model response_data) as [r'|e] eqn:E;
      [|discriminate].
    injection H as ->. unfold openai_parse_body in E.
    bind_step E. destruct (negb (truthy x)); [discriminate|].
    do 3 bind_step E.
    pose proof E as Hstrip. apply bind_ok in Hstrip as (s & Hs & _).
    do 7 bind_step E. injection E as <-.
    cbn [content usage provider map fst].
    repeat split.
    match goal with
    | Hc : Py.strip _ = Ok ?c |- PyStr.strip ?c = ?c => exact (py_strip_ok _ _ Hc)
    end.
  - unfold google_parse_response in H.
    destruct (google_parse_body self_model response_data) as [r'|e] eqn:E;
      [|discriminate].
    injection H as ->. unfold google_parse_body in E.
    bind_step E. destruct (negb (truthy x)); [discriminate|].
    do 3 bind_step E. destruct (negb (truthy x2)); [discriminate|].
    do 8 bind_step E. injection E as <-.
    cbn [content usage provider model map fst].
    repeat split.
    match goal with
    | Hc : Py.strip _ = Ok ?c |- PyStr.strip ?c = ?c => exact (py_strip_ok _ _ Hc)
    end.
Qed.

Lemma parsed_response_shape_witness :
  let tokens := [("prompt_tokens", JInt 0); ("completion_tokens", JInt 0);
                 ("total_tokens", JInt 0)] in
  let from_openai :=
    mkResponse "10 PRINT X" (JStr "gpt-4-0613") tokens (JStr "stop") "openai" in
  let from_google :=
    mkResponse "10 PRINT X" (JStr "gemini-pro") tokens (JStr "STOP") "google" in
  (openai_parse_response "gpt-3.5-turbo" ProviderShape.openai_hello
   = Ok from_openai /\
   PyStr.strip (content from_openai) = content from_openai /\
   map fst (usage from_openai)
   = ["prompt_tokens"; "completion_tokens"; "total_tokens"] /\
   provider from_openai = "openai") /\
  (google_parse_response "gemini-pro" ProviderShape.google_hello
   = Ok from_google /\
   PyStr.strip (content from_google) = content from_google /\
   map fst (usage from_google)
   = ["prompt_tokens"; "completion_tokens"; "total_tokens"] /\
   provider from_google = "google" /\
   model from_google = JStr "gemini-pro").
Proof.
  intros tokens from_openai from_google. split; split.
  - reflexivity.
  - apply (proj1 (parsed_response_shape "gpt-3.5-turbo"
                    ProviderShape.openai_hello from_openai)).
    reflexivity.
  - reflexivity.
  - apply (proj2 (parsed_response_shape "gemini-pro"
                    ProviderShape.google_hello from_google)).
    reflexivity.
Defined.

End ParsedResponses.

(* ================================================================== *)
(** ** The interaction pipeline in general                             *)
(* ================================================================== *)

Section Pipeline.

Import Integration.

Lemma lastn_snoc_last {A : Type} (n : nat) (l : list A) (x : A) :
  1 <= n -> exists l', lastn n (l ++ [x])%list = (l' ++ [x])%list.
Proof.
  intros Hn. unfold lastn. rewrite length_app. cbn [List.length].
  rewrite skipn_app.
  replace (List.length l + 1 - n - List.length l) with 0 by lia.
  now eexists.
Qed.

Lemma update_status_id (i : AIInteraction) (st : AIInteractionStatus)
      (now : Q) (u : Updates) :
  interaction_id (update_status i st now u) = interaction_id i /\
  prompt (update_status i st now u) = prompt i /\
  created_at (update_status i st now u) = created_at i /\
  status (update_status i st now u) = st.
Proof. repeat split. Qed.

(** How the [try] block can end: what it returns has the identity of the
    interaction and a final status, and only a completed interaction is
    marked as counted. *)
Lemma try_block_returned (i : AIInteraction) (ph : Phases) (clk : Clock)
      (i' : AIInteraction) (counted : bool) :
  try_block i ph clk = Returned i' counted ->
  interaction_id i' = interaction_id i /\
  (if counted then status i' = COMPLETED else status i' = FAILED).
Proof.
  unfold try_block.
  repeat match goal with
         | |- context [match ?x with _ => _ end] =>
             lazymatch x with
             | context [match _ with _ => _ end] => fail
             | _ => destruct x
             end
         end;
    try discriminate; intros H; inversion H; subst; split; reflexivity.
Qed.

(** X17.  However [execute_interaction] ends, by a [return] or through
    the [except] clause, the interaction it answers is COMPLETED or
    FAILED and keeps its identifier; it is the newest entry of the
    history, which holds at most 1000 entries, and no entry of the active
    map has its identifier any more. *)
Theorem interaction_always_archived (self : AILayerIntegration)
        (interaction : AIInteraction) (ph : Phases) (clk : Clock) :
  let out := execute_interaction self interaction ph clk in
  (status (fst out) = COMPLETED \/ status (fst out) = FAILED) /\
  interaction_id (fst out) = interaction_id interaction /\
  (exists older, interaction_history (snd out) = (older ++ [fst out])%list) /\
  List.length (interaction_history (snd out)) <= 1000 /\
  (forall x, In x (active_interactions (snd out)) ->
             fst x <> interaction_id interaction).
Proof.
  cbv zeta. unfold execute_interaction.
  set (i0 := update_status interaction IN_PROGRESS (now_in_progress clk)
               no_updates).
  assert (Hfin : forall i' self',
             (status i' = COMPLETED \/ status i' = FAILED) ->
             interaction_id i' = interaction_id interaction ->
             active_interactions self' = active_interactions self ->
             let out := (i', move_to_history self' i') in
             (status (fst out) = COMPLETED \/ status (fst out) = FAILED) /\
             interaction_id (fst out) = interaction_id interaction /\
             (exists older,
                 interaction_history (snd out) = (older ++ [fst out])%list) /\
             List.length (interaction_history (snd out)) <= 1000 /\
             (forall x, In x (active_interactions (snd out)) ->
                        fst x <> interaction_id interaction)).
  { intros i' self' Hst Hid Hact. cbv zeta.
    cbn [fst snd move_to_history interaction_history active_interactions].
    repeat split; try assumption.
    - apply lastn_snoc_last. lia.
    - unfold lastn. rewrite length_skipn. lia.
    - intros x Hx. apply filter_In in Hx as [_ Hx]. rewrite Hid in Hx.
      intros Heq. rewrite Heq, String.eqb_refl in Hx. discriminate. }
  destruct (try_block i0 ph clk) as [i' counted|e] eqn:E.
  - apply try_block_returned in E as [Hid Hst].
    destruct counted; apply Hfin; auto.
  - apply Hfin; auto.
Qed.

(** X18.  A failure that the provider phase reports in its result is
    handled without the [except] clause, and so without [_update_stats]:
    the interaction ends FAILED with the error of the result, the later
    phases leave no trace in it, and the counters of the integration do
    not move. *)
Theorem reported_failure_is_not_counted (self : AILayerIntegration)
        (interaction : AIInteraction) (ph : Phases) (clk : Clock)
        (d : pydict) (v : json) :
  ai_result ph = JDict d ->
  dict_get "success" d = Some v ->
  truthy v = false ->
  let out := execute_interaction self interaction ph clk in
  status (fst out) = FAILED /\
  error_message (fst out)
  = Some (match dict_get "error" d with
          | Some x => x
          | None => JStr "AI provider failed"
          end) /\
  ai_processing_time (fst out) = Some (ms (ai_start clk) (ai_end clk)) /\
  translated_commands (fst out) = translated_commands interaction /\
  total_time (fst out) = total_time interaction /\
  stats (snd out) = stats self.
Proof.
  intros Hd Hs Hv. cbv zeta. unfold execute_interaction, try_block.
  rewrite Hd. cbn [getitem Py.get]. rewrite Hs, Hv. cbn [negb].
  repeat split.
Qed.

Lemma reported_failure_is_not_counted_witness :
  let ph := mkPhases (JDict [("success", JBool false);
                             ("error", JStr "AI provider error: 500 - ")])
              JNull (Ok []) in
  let out := execute_interaction new_integration sample_interaction ph
               sample_clock in
  status (fst out) = FAILED /\
  error_message (fst out)
  = Some (match dict_get "error"
                  [("success", JBool false);
                   ("error", JStr "AI provider error: 500 - ")] with
          | Some x => x
          | None => JStr "AI provider failed"
          end) /\
  ai_processing_time (fst out)
  = Some (ms (ai_start sample_clock) (ai_end sample_clock)) /\
  translated_commands (fst out) = translated_commands sample_interaction /\
  total_time (fst out) = total_time sample_interaction /\
  stats (snd out) = stats new_integration.
Proof.
  apply (reported_failure_is_not_counted new_integration sample_interaction
           (mkPhases (JDict [("success", JBool false);
                             ("error", JStr "AI provider error: 500 - ")])
              JNull (Ok []))
           sample_clock
           [("success", JBool false);
            ("error", JStr "AI provider error: 500 - ")]
           (JBool false)); reflexivity.
Defined.

(** X19.  The counters of the integration stay consistent: when the
    total is the sum of the successes and the failures before
    [execute_interaction], it is so afterwards, and the total moves by
    one at most. *)
Theorem interaction_counters_consistent (self : AILayerIntegration)
        (interaction : AIInteraction) (ph : Phases) (clk : Clock) :
  total_interactions (stats self)
  = (successful_interactions (stats self)
     + failed_interactions (stats self))%Z ->
  let st := stats (snd (execute_interaction self interaction ph clk)) in
  total_interactions st
  = (successful_interactions st + failed_interactions st)%Z /\
  (total_interactions (stats self) <= total_interactions st
   <= total_interactions (stats self) + 1)%Z.
Proof.
  intros H. cbv zeta. unfold execute_interaction.
  destruct (try_block _ ph clk) as [i' [|]|e];
    cbn [snd move_to_history _update_stats stats total_interactions
         successful_interactions failed_interactions]; lia.
Qed.

Lemma interaction_counters_consistent_witness :
  let st := stats (snd (execute_interaction new_integration sample_interaction
                          sample_phases sample_clock)) in
  total_interactions st
  = (successful_interactions st + failed_interactions st)%Z /\
  (total_interactions (stats new_integration) <= total_interactions st
   <= total_interactions (stats new_integration) + 1)%Z.
Proof.
  apply (interaction_counters_consistent new_integration sample_interaction
           sample_phases sample_clock).
  reflexivity.
Defined.

End Pipeline.

(* ================================================================== *)
(** ** Reports of the translator                                       *)
(* ================================================================== *)

Section Slices.

Variable A : Type.

Lemma slice_from_suffix (start : Z) (l : list A) :
  exists older, l = (older ++ PyList.slice_from start l)%list.
Proof.
  unfold PyList.slice_from. eexists. symmetry. apply firstn_skipn.
Qed.

Lemma recent_suffix (limit : Z) (l : list A) :
  exists older, l = (older ++ PyList.recent limit l)%list.
Proof.
  destruct l as [|x l]; [now exists []|]. apply slice_from_suffix.
Qed.

Lemma recent_positive (limit : Z) (l : list A) :
  (0 < limit)%Z -> PyList.recent limit l = lastn (Z.to_nat limit) l.
Proof.
  intros H. destruct l as [|x l]; [unfold lastn; now rewrite skipn_nil|].
  unfold PyList.recent, PyList.slice_from, lastn.
  replace (- limit <? 0)%Z with true by (symmetry; apply Z.ltb_lt; lia).
  f_equal. lia.
Qed.

Lemma recent_zero (l : list A) : PyList.recent 0 l = l.
Proof. now destruct l. Qed.

Lemma lastn_lastn (n m : nat) (l : list A) :
  n <= m -> lastn n (lastn m l) = lastn n l.
Proof.
  intros H. rewrite !(lastn_rev _ n), (lastn_rev _ m l). f_equal.
  rewrite rev_involutive, firstn_firstn. f_equal. lia.
Qed.

End Slices.

Section TranslatorReports.

Import Translator TranslatorMore.

(** X20.  [get_recent_translations] behind a session on a new
    translator: for a limit between 1 and 1000 it answers the last
    [limit] results of the session; whatever the limit, it answers a
    final segment of the history; and the limit 0 does not answer an
    empty list but the whole history. *)
Theorem recent_translations_window (inputs : list (Clock * string * context)) :
  let out := translate_all new_translator inputs in
  (forall limit, (0 < limit <= 1000)%Z ->
     get_recent_translations (snd out) limit
     = lastn (Z.to_nat limit) (fst out)) /\
  (forall limit, exists older,
     translation_history (snd out)
     = (older ++ get_recent_translations (snd out) limit)%list) /\
  get_recent_translations (snd out) 0 = translation_history (snd out).
Proof.
  cbv zeta.
  pose proof (translate_all_history inputs new_translator) as H.
  cbv zeta in H. cbn [new_translator translation_history max_history_size
                        List.length app] in H.
  specialize (H ltac:(lia)).
  unfold get_recent_translations. repeat split.
  - intros limit Hl. rewrite recent_positive by lia. rewrite H.
    apply lastn_lastn. lia.
  - intros limit. apply recent_suffix.
  - apply recent_zero.
Qed.

Lemma translate_command_standard_scored (self : AICommandTranslator)
      (clk : Clock) (cmd : string) (ctx : context) (c : ContextualTranslator) :
  strategies self = standard_strategies c ->
  exists f,
    fst (translate_command self clk cmd ctx) = Translated f /\
    (0 < confidence f)%Q /\ (confidence f <= 1)%Q.
Proof.
  intros Hs.
  destruct (try_strategies_contextual_last
              [Strategy PatternBasedTranslator _ PatternBased;
               Strategy RuleBasedTranslator _ RuleBased] c cmd ctx 0.0%Q)
    as [b Hb]; [discriminate|].
  change ([_; _] ++ [_])%list with (standard_strategies c) in Hb.
  pose proof (try_strategies_yields well_scored (standard_strategies c) cmd ctx
                None 0.0%Q (standard_strategies_well_scored c)) as Hy.
  destruct (try_strategies (standard_strategies c) cmd ctx None 0.0%Q)
    as [[x bc] ss] eqn:E.
  cbn [fst snd] in Hb, Hy. subst x.
  destruct (Hy ltac:(discriminate) b eq_refl) as ((Hpos & Hle & _) & Hbc).
  rewrite <- Hs in E. eexists. split.
  - eapply translate_command_candidate. exact E.
  - cbn [confidence]. rewrite Hbc. now split.
Qed.

Lemma translate_all_scored (inputs : list (Clock * string * context))
      (self : AICommandTranslator) (c : ContextualTranslator) :
  strategies self = standard_strategies c ->
  Forall scored (fst (translate_all self inputs)).
Proof.
  revert self c. induction inputs as [|[[clk cmd] ctx] inputs IH];
    intros self c Hs; cbn [translate_all].
  - constructor.
  - destruct (translate_command_standard_scored self clk cmd ctx c Hs)
      as (f & Hf & Hpos & Hle).
    destruct (translate_command_standard self clk cmd ctx c Hs) as [c' Hc'].
    destruct (translate_command self clk cmd ctx) as [r self1].
    cbn [fst snd] in Hf, Hc'. specialize (IH self1 c' Hc').
    destruct (translate_all self1 inputs) as [rs self2].
    cbn [fst] in IH |- *. constructor; [|assumption].
    subst r. now repeat split.
Qed.

Lemma filter_scored (rs : list TranslationResult) :
  Forall scored rs ->
  filter success rs = rs /\ filter (fun r => negb (success r)) rs = [].
Proof.
  induction 1 as [|r rs [Hr _] _ [IH1 IH2]]; [now split|].
  cbn [filter]. rewrite Hr. cbn [negb]. now rewrite IH1, IH2.
Qed.

Lemma confidence_sum_bounds (rs : list TranslationResult) (acc : Q) :
  Forall scored rs ->
  let total := fold_left (fun a r => (a + result_confidence r)%Q) rs acc in
  (total <= acc + Qnat (List.length rs))%Q /\
  match rs with
  | [] => total = acc
  | _ :: _ => (acc < total)%Q
  end.
Proof.
  intros H. revert acc. induction H as [|r rs (_ & Hpos & Hle) Hrs IH];
    intros acc; cbv zeta.
  - cbn [fold_left List.length]. split; [|reflexivity].
    change (Qnat 0) with 0%Q. lra.
  - cbn [fold_left]. specialize (IH (acc + result_confidence r)%Q).
    cbv zeta in IH. destruct IH as [IH1 IH2].
    assert (Hn : (Qnat (List.length (r :: rs)) == Qnat (List.length rs) + 1)%Q).
    { unfold Qnat. cbn [List.length]. rewrite Nat2Z.inj_succ, <- Z.add_1_r.
      now rewrite inject_Z_plus. }
    split.
    + rewrite Hn. lra.
    + destruct rs as [|r' rs'].
      * rewrite IH2. lra.
      * lra.
Qed.

Lemma Qnat_pos (n : nat) : 0 < n -> (0 < Qnat n)%Q.
Proof. intros H. unfold Qnat, Qlt. cbn. lia. Qed.

(** X21.  [test_translation] on a translator with the three standard
    strategies: every command counts as successful and none as failed; the
    success rate is 1 and the average confidence lies in (0, 1], unless
    the list of commands is empty, when both are 0; the results are those
    of the session. *)
Theorem test_translation_report (test_commands : list (Clock * string))
        (c : ContextualTranslator) (hist : list TranslationResult)
        (mh : nat) (st : Stats) :
  let rep :=
    fst (test_translation (mkTranslator (standard_strategies c) hist mh st)
           test_commands) in
  r_total_commands rep = List.length test_commands /\
  r_successful rep = List.length test_commands /\
  r_failed rep = 0 /\
  List.length (r_results rep) = List.length test_commands /\
  match test_commands with
  | [] => r_success_rate rep = 0%Q /\ r_average_confidence rep = 0.0%Q
  | _ :: _ =>
      (r_success_rate rep == 1)%Q /\
      (0 < r_average_confidence rep)%Q /\ (r_average_confidence rep <= 1)%Q
  end.
Proof.
  cbv zeta. unfold test_translation.
  set (self := mkTranslator (standard_strategies c) hist mh st).
  set (inputs := map (fun x => (fst x, snd x, None)) test_commands).
  pose proof (translate_all_scored inputs self c eq_refl) as Hsc.
  pose proof (translate_all_length inputs self) as Hlen.
  destruct (translate_all self inputs) as [results self'].
  cbn [fst snd] in Hsc, Hlen.
  destruct (filter_scored results Hsc) as [Hok Hbad].
  rewrite Hok, Hbad.
  cbn [fst r_total_commands r_successful r_failed r_results r_success_rate
       r_average_confidence List.length].
  assert (Hn : List.length results = List.length test_commands)
    by (rewrite Hlen; unfold inputs; apply length_map).
  repeat split; try assumption.
  destruct test_commands as [|x xs].
  - destruct results; [now split|discriminate].
  - destruct results as [|r rs]; [discriminate|].
    pose proof (confidence_sum_bounds (r :: rs) 0%Q Hsc) as [Hhi Hlo].
    fold (confidence_sum (r :: rs)) in Hhi, Hlo.
    assert (Hpos : (0 < Qnat (List.length (r :: rs)))%Q)
      by (apply Qnat_pos; cbn; lia).
    rewrite <- Hn. repeat split.
    + unfold Qdiv. apply Qmult_inv_r. lra.
    + apply Qlt_shift_div_l; [assumption|]. lra.
    + apply Qle_shift_div_r; [assumption|]. lra.
Qed.

End TranslatorReports.

(* ================================================================== *)
(** ** The context manager                                             *)
(* ================================================================== *)

Section ContextManager.

Import Integration IntegrationMore.

Lemma dict_get_absent (k : string) (d : pydict) :
  ~ In k (map fst d) -> dict_get k d = None.
Proof.
  induction d as [|[k' v] d IH]; cbn [map fst In dict_get]; [reflexivity|].
  intros H. destruct (String.eqb k k') eqn:E.
  - apply String.eqb_eq in E. subst k'. tauto.
  - apply IH. tauto.
Qed.

(** [d.update(data)]: the entries of [data] win, the others stay. *)
Lemma dict_update_get (data d : pydict) (k : string) :
  NoDup (map fst data) ->
  dict_get k (dict_update d data)
  = match dict_get k data with
    | Some v => Some v
    | None => dict_get k d
    end.
Proof.
  unfold dict_update. revert d.
  induction data as [|[k1 v1] data IH]; intros d Hnd; [reflexivity|].
  cbn [map fst] in Hnd. inversion Hnd as [|? ? Hnotin Hnd']. subst.
  cbn [fold_left fst snd dict_get]. rewrite (IH _ Hnd').
  destruct (String.eqb k k1) eqn:E.
  - apply String.eqb_eq in E. subst k1.
    rewrite (dict_get_absent k data Hnotin). apply dict_get_set_same.
  - apply String.eqb_neq in E.
    destruct (dict_get k data); [reflexivity|].
    now apply dict_get_set_other.
Qed.

Lemma ctx_get_set_same (k : string) (d : pydict) (c : list (string * pydict)) :
  ctx_get k (ctx_set k d c) = Some d.
Proof.
  induction c as [|[k' d'] c IH]; cbn [ctx_set ctx_get].
  - now rewrite String.eqb_refl.
  - destruct (String.eqb k k') eqn:E; cbn [ctx_get]; now rewrite E.
Qed.

Lemma ctx_get_set_other (k k' : string) (d : pydict)
      (c : list (string * pydict)) :
  k' <> k -> ctx_get k' (ctx_set k d c) = ctx_get k' c.
Proof.
  intros Hne. induction c as [|[k0 d0] c IH]; cbn [ctx_set ctx_get].
  - apply String.eqb_neq in Hne. now rewrite Hne.
  - destruct (String.eqb k k0) eqn:E; cbn [ctx_get].
    + apply String.eqb_eq in E. subst k0.
      apply String.eqb_neq in Hne. now rewrite Hne.
    + now rewrite IH.
Qed.

Lemma ctx_get_filter_same (k : string) (c : list (string * pydict)) :
  ctx_get k (filter (fun x => negb (String.eqb k (fst x))) c) = None.
Proof.
  induction c as [|[k' d'] c IH]; cbn [filter ctx_get fst]; [reflexivity|].
  destruct (String.eqb k k') eqn:E; cbn [negb]; [assumption|].
  cbn [ctx_get]. now rewrite E.
Qed.

(** X22.  [update_context] followed by [get_context] for a context type
    that is not the empty string: the dictionary answered holds the
    entries of [data], and for the other keys what the context type held
    before; the other context types are as before; the history grows by
    the one entry, up to [max_context_size]; and [clear_context] of the
    type empties it again, without touching the history. *)
Theorem context_update_then_get (self : AIContextManager) (now : Q)
        (context_type : string) (data : pydict) :
  NoDup (map fst data) ->
  PyStr.is_empty context_type = false ->
  let self' := update_context self now context_type data in
  (exists d,
      get_context self' (Some context_type) = JDict d /\
      forall k,
        dict_get k d
        = match dict_get k data with
          | Some v => Some v
          | None =>
              dict_get k (match ctx_get context_type (current_context self) with
                          | Some old => old
                          | None => []
                          end)
          end) /\
  (forall t, t <> context_type ->
             ctx_get t (current_context self')
             = ctx_get t (current_context self)) /\
  List.length (context_history self')
  = Nat.min (max_context_size self) (S (List.length (context_history self))) /\
  get_context (clear_context self' (Some context_type)) (Some context_type)
  = JDict [] /\
  context_history (clear_context self' (Some context_type))
  = context_history self'.
Proof.
  intros Hnd Hne. cbv zeta. unfold get_context, clear_context, given.
  rewrite Hne. cbn [update_context current_context context_history
                      max_context_size].
  repeat split.
  - eexists. split.
    + now rewrite ctx_get_set_same.
    + intros k. now apply dict_update_get.
  - intros t Ht. now apply ctx_get_set_other.
  - unfold lastn. rewrite length_skipn, length_app. cbn [List.length]. lia.
  - now rewrite ctx_get_filter_same.
Qed.

Lemma context_update_then_get_witness :
  let self := new_context_manager 1000 in
  let data := [("last_command", JStr "PRINT 1"); ("last_output", JStr "1")] in
  let self' := update_context self 1700000000%Q "emulator_state" data in
  (exists d,
      get_context self' (Some "emulator_state") = JDict d /\
      forall k,
        dict_get k d
        = match dict_get k data with
          | Some v => Some v
          | None =>
              dict_get k (match ctx_get "emulator_state" (current_context self) with
                          | Some old => old
                          | None => []
                          end)
          end) /\
  (forall t, t <> "emulator_state" ->
             ctx_get t (current_context self')
             = ctx_get t (current_context self)) /\
  List.length (context_history self')
  = Nat.min (max_context_size self) (S (List.length (context_history self))) /\
  get_context (clear_context self' (Some "emulator_state")) (Some "emulator_state")
  = JDict [] /\
  context_history (clear_context self' (Some "emulator_state"))
  = context_history self'.
Proof.
  apply (context_update_then_get (new_context_manager 1000) 1700000000%Q
           "emulator_state"
           [("last_command", JStr "PRINT 1"); ("last_output", JStr "1")]).
  - cbn [map fst]. repeat constructor; cbn [In]; intuition discriminate.
  - reflexivity.
Defined.

(** A context stored under the empty string is not what [get_context]
    answers for it: the empty string counts as no context type, and the
    answer is the whole context. *)
Example context_type_empty :
  get_context
    (update_context (new_context_manager 1000) 1700000000%Q "" [("a", JInt 1)])
    (Some "")
  = JDict [("", JDict [("a", JInt 1)])].
Proof. reflexivity. Qed.

End ContextManager.

(* ================================================================== *)
(** ** The command executor                                            *)
(* ================================================================== *)

Section CommandExecutor.

Import Integration IntegrationMore.

Variable St : Type.
Variable execute_command : St -> string -> option pydict -> pydict * St.

(** Both records of [execute_command] have the entry ["success"]. *)
Hypothesis has_success :
  forall st command context,
    dict_get "success" (fst (execute_command st command context)) <> None.

Lemma record_failed_ok (st : St) (command : string) (context : option pydict) :
  record_failed (fst (execute_command st command context))
  = Ok (negb (record_ok (fst (execute_command st command context)))).
Proof.
  pose proof (has_success st command context) as H.
  unfold record_failed, record_ok. cbn [getitem bind].
  destruct (dict_get "success" _); [reflexivity|contradiction].
Qed.

Lemma execute_loop_outcome (commands : list string) (st : St)
      (context : option pydict) (results : list pydict) :
  let all := run_all St execute_command st commands context in
  fst (execute_loop St execute_command st commands context results)
  = match context with
    | None =>
        if forallb record_ok all then Ok (results ++ all)%list
        else Raise (AttributeError "'NoneType' object has no attribute 'get'")
    | Some d =>
        if stops_on_error d
        then Ok (results ++ through_first_failure all)%list
        else Ok (results ++ all)%list
    end.
Proof.
  revert st results. induction commands as [|command commands IH];
    intros st results; cbv zeta.
  - cbn [execute_loop run_all forallb through_first_failure fst].
    rewrite app_nil_r. destruct context as [d|]; [|reflexivity].
    now destruct (stops_on_error d).
  - cbn [execute_loop run_all].
    pose proof (record_failed_ok st command context) as Hr.
    destruct (execute_command st command context) as [record st1].
    cbn [fst] in Hr. rewrite Hr.
    cbn [forallb through_first_failure].
    specialize (IH st1 (results ++ [record])%list). cbv zeta in IH.
    destruct (record_ok record); cbn [negb andb].
    + rewrite IH, <- !app_assoc. reflexivity.
    + destruct context as [d|]; [|reflexivity].
      fold (stops_on_error d). destruct (stops_on_error d); [reflexivity|].
      rewrite IH, <- !app_assoc. reflexivity.
Qed.

(** X23.  The sequential [execute_commands].  With a dictionary context
    whose [stop_on_error] is absent or true it answers the records up to
    the first failure, that one included; with [stop_on_error] false it
    answers the records of all commands.  Without a context it answers
    the records only when every command succeeds: at the first failure
    the look-up of [stop_on_error] raises an AttributeError, and the
    records are lost. *)
Theorem execute_commands_outcome (st : St) (commands : list string)
        (context : option pydict) :
  let all := run_all St execute_command st commands context in
  fst (execute_commands St execute_command st commands context)
  = match context with
    | None =>
        if forallb record_ok all then Ok all
        else Raise (AttributeError "'NoneType' object has no attribute 'get'")
    | Some d =>
        if stops_on_error d then Ok (through_first_failure all) else Ok all
    end.
Proof.
  cbv zeta. unfold execute_commands.
  pose proof (execute_loop_outcome commands st context []) as H.
  cbv zeta in H. cbn [app] in H. exact H.
Qed.

End CommandExecutor.

Lemma execute_commands_outcome_witness :
  let all := IntegrationMore.run_all nat IntegrationMore.sample_execute 0
               ["PRINT 1"; "BEEP"; "PRINT 2"] None in
  fst (IntegrationMore.execute_commands nat IntegrationMore.sample_execute 0
         ["PRINT 1"; "BEEP"; "PRINT 2"] None)
  = if forallb IntegrationMore.record_ok all then Ok all
    else Raise (AttributeError "'NoneType' object has no attribute 'get'").
Proof.
  apply (execute_commands_outcome nat IntegrationMore.sample_execute
           ltac:(intros st command context; discriminate)
           0 ["PRINT 1"; "BEEP"; "PRINT 2"] None).
Defined.

(** The second command fails: without a context the call raises, with an
    empty dictionary the third command is not executed. *)
Example execute_commands_run :
  fst (IntegrationMore.execute_commands nat IntegrationMore.sample_execute 0
         ["PRINT 1"; "BEEP"; "PRINT 2"] None)
  = Raise (AttributeError "'NoneType' object has no attribute 'get'") /\
  (exists r1 r2,
      fst (IntegrationMore.execute_commands nat IntegrationMore.sample_execute 0
             ["PRINT 1"; "BEEP"; "PRINT 2"] (Some []))
      = Ok [r1; r2]).
Proof. split; [reflexivity|]. eexists. eexists. reflexivity. Qed.

(* ================================================================== *)
(** ** The AI request of the bridge                                    *)
(* ================================================================== *)

Section ParseCommands.

Import BridgeServer.

Lemma digit_not_lower (c : ascii) :
  PyStr.is_digit c = true -> PyStr.is_lower c = false.
Proof.
  unfold PyStr.is_digit, PyStr.is_lower. intros H.
  apply andb_true_iff in H as [_ H]. apply Nat.leb_le in H.
  apply andb_false_iff. left. apply Nat.leb_gt. lia.
Qed.

Lemma all_digits_upper (l : string) :
  all_digits l = true -> PyStr.upper l = l.
Proof.
  induction l as [|c l IH]; [reflexivity|]. cbn [all_digits].
  intros H. apply andb_true_iff in H as [Hc Hl].
  unfold PyStr.upper in *. cbn [PyStr.map_chars]. rewrite (IH Hl).
  unfold PyStr.upper_char. now rewrite (digit_not_lower c Hc).
Qed.

Lemma all_digits_contains (a : ascii) (p l : string) :
  PyStr.is_digit a = false -> all_digits l = true ->
  PyStr.contains (String a p) l = false.
Proof.
  intros Ha. induction l as [|c l IH]; [reflexivity|]. cbn [all_digits].
  intros H. apply andb_true_iff in H as [Hc Hl].
  cbn [PyStr.contains]. rewrite prefix_cons, (IH Hl).
  destruct (Ascii.eqb a c) eqn:E; [|reflexivity].
  apply Ascii.eqb_eq in E. congruence.
Qed.

(** A bare number contains none of the keywords. *)
Lemma isdigit_no_keyword (line : string) :
  isdigit line = true ->
  existsb (fun keyword => PyStr.contains keyword (PyStr.upper line))
    basic_keywords = false.
Proof.
  unfold isdigit. intros H. apply andb_true_iff in H as [_ H].
  rewrite (all_digits_upper line H). cbn [existsb basic_keywords].
  rewrite !all_digits_contains by (reflexivity || assumption). reflexivity.
Qed.

Lemma parse_line_kept (n_lines : nat) (line : string) :
  parse_line n_lines line
  = if kept n_lines (PyStr.strip line) then [PyStr.strip line] else [].
Proof.
  unfold parse_line, kept. cbv zeta.
  destruct (PyStr.is_empty (PyStr.strip line)); [reflexivity|]. cbn [negb andb].
  destruct (existsb _ basic_keywords) eqn:Ek.
  - destruct (isdigit (PyStr.strip line)) eqn:Ed; [|reflexivity].
    rewrite (isdigit_no_keyword _ Ed) in Ek. discriminate.
  - now destruct (isdigit (PyStr.strip line) && (1 <? n_lines)).
Qed.

Lemma flat_map_parse_line (n_lines : nat) (lines : list string) :
  flat_map (parse_line n_lines) lines
  = filter (kept n_lines) (map PyStr.strip lines).
Proof.
  induction lines as [|l lines IH]; [reflexivity|].
  cbn [flat_map map filter]. rewrite parse_line_kept, IH.
  now destruct (kept n_lines (PyStr.strip l)).
Qed.

(** X24.  [_parse_ai_response_to_commands] answers the stripped lines of
    the stripped response that are not empty and, when there is more than
    one line, are not bare numbers; the list of keywords has no influence
    on the answer.  Every command answered is non-empty, stripped text. *)
Theorem parse_commands_characterised (ai_response : string) :
  let lines := split_on newline (PyStr.strip ai_response) in
  _parse_ai_response_to_commands ai_response
  = filter (kept (List.length lines)) (map PyStr.strip lines) /\
  Forall (fun command => PyStr.is_empty command = false /\
                         PyStr.strip command = command)
    (_parse_ai_response_to_commands ai_response).
Proof.
  cbv zeta. unfold _parse_ai_response_to_commands. cbv zeta.
  rewrite flat_map_parse_line. split; [reflexivity|].
  apply Forall_forall. intros command Hin.
  apply filter_In in Hin as [Hin Hk].
  apply in_map_iff in Hin as (l & <- & _). split.
  - unfold kept in Hk. apply andb_true_iff in Hk as [Hk _].
    now apply negb_true_iff in Hk.
  - apply strip_idempotent.
Qed.

End ParseCommands.

Section ProcessRequest.

Import BridgeServer.

Variable W : Type.
Variable digest : string * option string * pydict -> string.

Lemma py_min_le (a b : Q) :
  (py_min a b <= a)%Q /\ (py_min a b <= b)%Q.
Proof.
  unfold py_min, Qltb.
  destruct (Qle_bool a b) eqn:E; cbn [negb].
  - apply Qle_bool_iff in E. split; [apply Qle_refl|assumption].
  - split; [|apply Qle_refl].
    destruct (Qlt_le_dec b a) as [H|H]; [now apply Qlt_le_weak|].
    apply Qle_bool_iff in H. congruence.
Qed.

(** X25.  An AI request whose provider call succeeds, on a bridge whose
    translator has the three standard strategies.  The response of the
    provider is translated, and the translation always succeeds, so that
    the fallback with the confidence scaled by 0.7 is never taken.  When
    the translation is text, the answer is a success whose commands are
    parsed from the translation and whose confidence is the smaller of
    the provider's and the translator's, and the request is counted;
    otherwise the parsing raises, the answer is a failure and the request
    is not counted. *)
Theorem process_request_takes_min (self : BridgeServer W) (w : W)
        (clk : Clock) (request : AIRequest)
        (c : Translator.ContextualTranslator)
        (ok : json) (ai_response : string) (q : Q) :
  let out :=
    Sender.send_command W digest (ai_sender W self) w (send_clock clk)
      (prompt request) (model request) (context request) in
  let sender := snd (fst (fst out)) in
  let ai_result := Sender.deref W sender (fst (fst (fst out))) in
  dict_get "success" ai_result = Some ok -> truthy ok = true ->
  dict_get "response" ai_result = Some (JStr ai_response) ->
  dict_get "confidence" ai_result = Some (JFloat q) ->
  Translator.strategies (ai_translator W self)
  = Translator.standard_strategies c ->
  let tout :=
    Translator.translate_command (ai_translator W self) (translate_clock clk)
      ai_response (context request) in
  exists f,
    fst tout = Translator.Translated f /\
    (py_min q (Translator.confidence f) <= q)%Q /\
    (py_min q (Translator.confidence f) <= Translator.confidence f)%Q /\
    _process_ai_request W digest self w clk request
    = match Translator.translation f with
      | JStr translation =>
          let commands := _parse_ai_response_to_commands translation in
          Some (mkAIResponse true (Some (generated commands)) commands
                  (py_min q (Translator.confidence f)) None
                  ((sent_time clk - start_time clk) * 1000)%Q,
                mkServer W sender (snd tout)
                  (ai_requests_processed W self + 1)%Z,
                snd (fst out), snd out)
      | v =>
          Some (request_failed clk
                  (AttributeError
                     ("'" ++ type_name v
                        ++ "' object has no attribute 'strip'")),
                mkServer W sender (snd tout) (ai_requests_processed W self),
                snd (fst out), snd out)
      end.
Proof.
  cbv zeta. intros Hok Ht Hresp Hconf Hstd.
  destruct (translate_command_standard_scored (ai_translator W self)
              (translate_clock clk) ai_response (context request) c Hstd)
    as (f & Hf & _ & _).
  exists f. split; [assumption|].
  destruct (py_min_le q (Translator.confidence f)) as [Hq Hc].
  split; [assumption|split; [assumption|]].
  unfold _process_ai_request.
  destruct (Sender.send_command W digest (ai_sender W self) w (send_clock clk)
              (prompt request) (model request) (context request))
    as [[[r sender] w'] events].
  cbn [fst snd] in *. cbn [Integration.getitem].
  rewrite Hok, Ht, Hresp. cbn [ai_translator ai_sender ai_requests_processed].
  destruct (Translator.translate_command (ai_translator W self)
              (translate_clock clk) ai_response (context request))
    as [tr translator].
  cbn [fst snd] in *. subst tr.
  unfold number_entry. rewrite Hconf.
  destruct (Translator.translation f); reflexivity.
Qed.

(** X26.  An AI request whose provider call fails is answered as a
    success all the same: the commands come from the keyword table of
    [_translate_prompt_to_basic], the confidence is 0.3, no error is
    reported, the translator is not consulted and the request is not
    counted.  The list of commands is empty exactly for a prompt that
    names a calculation without [add] and none of the words for
    printing. *)
Theorem provider_failure_is_masked (self : BridgeServer W) (w : W)
        (clk : Clock) (request : AIRequest) (ok : json) :
  let out :=
    Sender.send_command W digest (ai_sender W self) w (send_clock clk)
      (prompt request) (model request) (context request) in
  let sender := snd (fst (fst out)) in
  let ai_result := Sender.deref W sender (fst (fst (fst out))) in
  dict_get "success" ai_result = Some ok -> truthy ok = false ->
  let commands := _translate_prompt_to_basic (prompt request) in
  _process_ai_request W digest self w clk request
  = Some (mkAIResponse true (Some (fallback_generated commands)) commands
            0.3%Q None ((sent_time clk - start_time clk) * 1000)%Q,
          mkServer W sender (ai_translator W self)
            (ai_requests_processed W self),
          snd (fst out), snd out) /\
  (commands = [] <->
   let prompt_lower := PyStr.lower (prompt request) in
   (PyStr.contains "print" prompt_lower
    || PyStr.contains "display" prompt_lower
    || PyStr.contains "show" prompt_lower) = false /\
   (PyStr.contains "calculate" prompt_lower
    || PyStr.contains "math" prompt_lower) = true /\
   PyStr.contains "add" prompt_lower = false).
Proof.
  cbv zeta. intros Hok Hf. split.
  - unfold _process_ai_request.
    destruct (Sender.send_command W digest (ai_sender W self) w (send_clock clk)
                (prompt request) (model request) (context request))
      as [[[r sender] w'] events].
    cbn [fst snd] in *. cbn [Integration.getitem]. rewrite Hok, Hf.
    reflexivity.
  - unfold _translate_prompt_to_basic. cbv zeta.
    destruct (PyStr.contains "print" _ || PyStr.contains "display" _
              || PyStr.contains "show" _).
    + destruct (PyStr.has_char _ _); split;
        [discriminate|intros [H _]; discriminate
        |discriminate|intros [H _]; discriminate].
    + destruct (PyStr.contains "add" _) eqn:Ea.
      * rewrite orb_true_r. split; [discriminate|].
        intros (_ & _ & H). discriminate.
      * rewrite orb_false_r.
        destruct (PyStr.contains "calculate" _ || PyStr.contains "math" _).
        -- split; auto.
        -- destruct (PyStr.contains "loop" _ || PyStr.contains "repeat" _);
             [|destruct (PyStr.contains "variable" _
                         || PyStr.contains "assign" _)];
             (split; [discriminate|intros (_ & H & _); discriminate]).
Qed.

End ProcessRequest.

Lemma process_request_takes_min_witness :
  let out :=
    Sender.send_command Samples.world Samples.sample_digest
      (BridgeServer.ai_sender Samples.world BridgeServer.sample_server) 0
      (BridgeServer.send_clock BridgeServer.sample_clock)
      "Print hello world" None (Some []) in
  let sender := snd (fst (fst out)) in
  let q := 0.8000%Q in
  let tout :=
    Translator.translate_command Translator.new_translator
      Translator.sample_clock Samples.hello_response.(Provider.content)
      (Some []) in
  exists f,
    fst tout = Translator.Translated f /\
    (BridgeServer.py_min q (Translator.confidence f) <= q)%Q /\
    (BridgeServer.py_min q (Translator.confidence f)
     <= Translator.confidence f)%Q /\
    BridgeServer._process_ai_request Samples.world Samples.sample_digest
      BridgeServer.sample_server 0 BridgeServer.sample_clock
      BridgeServer.sample_request
    = match Translator.translation f with
      | JStr translation =>
          let commands :=
            BridgeServer._parse_ai_response_to_commands translation in
          Some (BridgeServer.mkAIResponse true
                  (Some (BridgeServer.generated commands)) commands
                  (BridgeServer.py_min q (Translator.confidence f)) None
                  ((10.5 - 10.0) * 1000)%Q,
                BridgeServer.mkServer Samples.world sender (snd tout) (0 + 1)%Z,
                snd (fst out), snd out)
      | v =>
          Some (BridgeServer.request_failed BridgeServer.sample_clock
                  (AttributeError
                     ("'" ++ type_name v
                        ++ "' object has no attribute 'strip'")),
                BridgeServer.mkServer Samples.world sender (snd tout) 0%Z,
                snd (fst out), snd out)
      end.
Proof.
  apply (process_request_takes_min Samples.world Samples.sample_digest
           BridgeServer.sample_server 0 BridgeServer.sample_clock
           BridgeServer.sample_request Translator.new_contextual
           (JBool true) Samples.hello_response.(Provider.content) 0.8000%Q);
    reflexivity.
Defined.

Lemma provider_failure_is_masked_witness :
  let out :=
    Sender.send_command Samples.world Samples.sample_digest
      (BridgeServer.ai_sender Samples.world BridgeServer.failing_server) 0
      (BridgeServer.send_clock BridgeServer.sample_clock)
      "Print hello world" None (Some []) in
  let sender := snd (fst (fst out)) in
  let commands := BridgeServer._translate_prompt_to_basic "Print hello world" in
  BridgeServer._process_ai_request Samples.world Samples.sample_digest
    BridgeServer.failing_server 0 BridgeServer.sample_clock
    BridgeServer.sample_request
  = Some (BridgeServer.mkAIResponse true
            (Some (BridgeServer.fallback_generated commands)) commands
            0.3%Q None ((10.5 - 10.0) * 1000)%Q,
          BridgeServer.mkServer Samples.world sender Translator.new_translator 0%Z,
          snd (fst out), snd out) /\
  (commands = [] <->
   let prompt_lower := PyStr.lower "Print hello world" in
   (PyStr.contains "print" prompt_lower
    || PyStr.contains "display" prompt_lower
    || PyStr.contains "show" prompt_lower) = false /\
   (PyStr.contains "calculate" prompt_lower
    || PyStr.contains "math" prompt_lower) = true /\
   PyStr.contains "add" prompt_lower = false).
Proof.
  apply (provider_failure_is_masked Samples.world Samples.sample_digest
           BridgeServer.failing_server 0 BridgeServer.sample_clock
           BridgeServer.sample_request (JBool false));
    reflexivity.
Defined.

(** A prompt that the fallback table answers with no command at all. *)
Example fallback_without_commands :
  option_map (fun x => fst (fst (fst x)))
    (BridgeServer._process_ai_request Samples.world Samples.sample_digest
       BridgeServer.failing_server 0 BridgeServer.sample_clock
       (BridgeServer.mkRequest "please calculate 2*3" None (Some [])))
  = Some (BridgeServer.mkAIResponse true
            (Some "Fallback: Generated 0 BASIC command(s)") [] 0.3%Q None
            500.00%Q).
Proof. reflexivity. Qed.

(* ================================================================== *)
(** ** Bookkeeping of the sender                                       *)
(* ================================================================== *)

Section SenderBooks.

Import Provider Sender SenderMore.

Variable W : Type.
Variable digest : string * option string * pydict -> string.

(** What a call leaves of the books of the sender [self]: one new
    dictionary, consistent counters and a bounded history. *)
Lemma cache_response_books (self : AICommandSender W) (now : Q) (k : string)
      (r : ref) :
  stats W (_cache_response W self now k r) = stats W self /\
  request_history W (_cache_response W self now k r) = request_history W self /\
  max_history_size W (_cache_response W self now k r) = max_history_size W self /\
  heap W (_cache_response W self now k r) = heap W self.
Proof. unfold _cache_response. now destruct (_ <? _). Qed.

Lemma add_to_history_length (self : AICommandSender W) (r : ref) :
  0 < max_history_size W self ->
  List.length (request_history W (_add_to_history W self r))
  <= max_history_size W self.
Proof.
  intros Hmax. unfold _add_to_history. cbn [request_history with_history].
  rewrite trim_lastn, lastn_length. lia.
Qed.

Lemma send_failed_books (self0 self : AICommandSender W) (clk : Clock)
      (command : string) (provider : option string) (e : exn) :
  0 < max_history_size W self ->
  total_requests (stats W self)
  = (successful_requests (stats W self) + failed_requests (stats W self))%Z ->
  let out := send_failed W self0 self clk command provider e in
  fst out = List.length (heap W self) /\
  (exists d, heap W (snd out) = (heap W self ++ [d])%list) /\
  max_history_size W (snd out) = max_history_size W self /\
  List.length (request_history W (snd out)) <= max_history_size W self /\
  total_requests (stats W (snd out))
  = (successful_requests (stats W (snd out))
     + failed_requests (stats W (snd out)))%Z.
Proof.
  intros Hmax Hinv. cbv zeta. unfold send_failed. cbn [alloc fst snd].
  repeat split.
  - cbn [_add_to_history _update_stats with_history with_stats with_error_log
         with_heap heap]. now eexists.
  - match goal with
    | |- context [request_history W (_add_to_history W ?s ?r)] =>
        pose proof (add_to_history_length s r) as H
    end.
    apply H. exact Hmax.
  - cbn [_add_to_history _update_stats with_history with_stats with_error_log
         with_heap stats total_requests successful_requests failed_requests].
    lia.
Qed.

Lemma store_result_books (self : AICommandSender W) (clk : Clock) (k : string)
      (rt : Q) (pname : string) (d : pydict) :
  0 < max_history_size W self ->
  total_requests (stats W self)
  = (successful_requests (stats W self) + failed_requests (stats W self))%Z ->
  let out := store_result W self clk k rt pname d in
  fst out = List.length (heap W self) /\
  (exists d', heap W (snd out) = (heap W self ++ [d'])%list) /\
  max_history_size W (snd out) = max_history_size W self /\
  List.length (request_history W (snd out)) <= max_history_size W self /\
  total_requests (stats W (snd out))
  = (successful_requests (stats W (snd out))
     + failed_requests (stats W (snd out)))%Z.
Proof.
  intros Hmax Hinv. cbv zeta. unfold store_result. cbn [alloc].
  set (s0 := with_heap W self (heap W self ++ [d])%list).
  set (s1 := if cache_enabled W s0
             then _cache_response W s0 (now_store clk) k (List.length (heap W self))
             else s0).
  assert (H1 : stats W s1 = stats W self /\
               request_history W s1 = request_history W self /\
               max_history_size W s1 = max_history_size W self /\
               heap W s1 = (heap W self ++ [d])%list).
  { subst s1. destruct (cache_enabled W s0).
    - destruct (cache_response_books s0 (now_store clk) k
                  (List.length (heap W self))) as (Ha & Hb & Hc & Hd).
      rewrite Ha, Hb, Hc, Hd. now subst s0.
    - now subst s0. }
  destruct H1 as (Hst & Hh & Hm & Hp).
  cbn [fst snd]. repeat split.
  - cbn [_add_to_history _update_stats with_history with_stats heap].
    rewrite Hp. now eexists.
  - cbn [_add_to_history _update_stats with_history with_stats
         max_history_size]. exact Hm.
  - match goal with
    | |- context [request_history W (_add_to_history W ?s ?r)] =>
        pose proof (add_to_history_length s r) as H
    end.
    cbn [_update_stats with_stats max_history_size] in H.
    rewrite Hm in H. apply H. exact Hmax.
  - cbn [_add_to_history _update_stats with_history with_stats stats
         total_requests successful_requests failed_requests].
    rewrite Hst. lia.
Qed.

(** X27.  The books of the sender across [send_command], on every path
    (a hit of the cache, an answer of a provider, a failure): the result
    is always a newly created dictionary, the one dictionary the call
    adds; the counters stay consistent, the total being the sum of the
    successes and the failures; and the history stays within
    [max_history_size]. *)
Theorem send_command_books (self : AICommandSender W) (w : W) (clk : Clock)
        (command : string) (provider : option string) (ctx : context) :
  0 < max_history_size W self ->
  List.length (request_history W self) <= max_history_size W self ->
  total_requests (stats W self)
  = (successful_requests (stats W self) + failed_requests (stats W self))%Z ->
  let out := send_command W digest self w clk command provider ctx in
  let self' := snd (fst (fst out)) in
  fst (fst (fst out)) = List.length (heap W self) /\
  (exists d, heap W self' = (heap W self ++ [d])%list) /\
  max_history_size W self' = max_history_size W self /\
  List.length (request_history W self') <= max_history_size W self /\
  total_requests (stats W self')
  = (successful_requests (stats W self') + failed_requests (stats W self'))%Z.
Proof.
  intros Hmax Hlen Hinv. cbv zeta. unfold send_command.
  set (k := _generate_cache_key digest command provider ctx).
  assert (Hpath : forall self1,
             heap W self1 = heap W self ->
             stats W self1 = stats W self ->
             max_history_size W self1 = max_history_size W self ->
             let out := send_uncached W self self1 w clk k command provider ctx in
             let self' := snd (fst (fst out)) in
             fst (fst (fst out)) = List.length (heap W self) /\
             (exists d, heap W self' = (heap W self ++ [d])%list) /\
             max_history_size W self' = max_history_size W self /\
             List.length (request_history W self') <= max_history_size W self /\
             total_requests (stats W self')
             = (successful_requests (stats W self')
                + failed_requests (stats W self'))%Z).
  { intros self1 Hh Hs Hm. cbv zeta. unfold send_uncached.
    assert (Hmax1 : 0 < max_history_size W self1) by lia.
    assert (Hinv1 : total_requests (stats W self1)
                    = (successful_requests (stats W self1)
                       + failed_requests (stats W self1))%Z)
      by (now rewrite Hs).
    assert (Hfail : forall e,
               let o := send_failed W self self1 clk command provider e in
               fst o = List.length (heap W self) /\
               (exists d, heap W (snd o) = (heap W self ++ [d])%list) /\
               max_history_size W (snd o) = max_history_size W self /\
               List.length (request_history W (snd o))
               <= max_history_size W self /\
               total_requests (stats W (snd o))
               = (successful_requests (stats W (snd o))
                  + failed_requests (stats W (snd o)))%Z).
    { intros e. cbv zeta.
      pose proof (send_failed_books self self1 clk command provider e
                    Hmax1 Hinv1) as H.
      cbv zeta in H. rewrite Hh, Hm in H. exact H. }
    destruct (_select_provider W self1 provider) as [sel|].
    - destruct (_send_with_retries W sel command ctx w) as [[[resp|e] w1] ev].
      + cbv zeta.
        match goal with
        | |- context [store_result W self1 clk k ?rt ?pn ?d] =>
            pose proof (store_result_books self1 clk k rt pn d Hmax1 Hinv1)
              as H;
            cbv zeta in H;
            destruct (store_result W self1 clk k rt pn d) as [r s1]
        end.
        cbn [fst snd] in *. rewrite Hh, Hm in H. exact H.
      + specialize (Hfail e). cbv zeta in Hfail.
        destruct (send_failed W self self1 clk command provider e) as [r s1].
        exact Hfail.
    - specialize (Hfail (BridgeError "No available AI providers"
                           COMMUNICATION CRITICAL)).
      cbv zeta in Hfail.
      destruct (send_failed W self self1 clk command provider _) as [r s1].
      exact Hfail. }
  destruct (cache_enabled W self); [|now apply Hpath].
  unfold _get_cached_response.
  destruct (cache_get k (cache W self)) as [e0|]; [|now apply Hpath].
  destruct (Qltb _ _); [now apply Hpath|].
  cbn [alloc fst snd heap with_heap max_history_size request_history stats].
  repeat split; try assumption. now eexists.
Qed.

End SenderBooks.

Lemma send_command_books_witness :
  let out :=
    Sender.send_command Samples.world Samples.sample_digest
      Samples.sample_sender 0 Samples.first_clock
      "Print hello world" None None in
  let self' := snd (fst (fst out)) in
  fst (fst (fst out))
  = List.length (Sender.heap Samples.world Samples.sample_sender) /\
  (exists d,
      Sender.heap Samples.world self'
      = (Sender.heap Samples.world Samples.sample_sender ++ [d])%list) /\
  Sender.max_history_size Samples.world self'
  = Sender.max_history_size Samples.world Samples.sample_sender /\
  List.length (Sender.request_history Samples.world self')
  <= Sender.max_history_size Samples.world Samples.sample_sender /\
  Sender.total_requests (Sender.stats Samples.world self')
  = (Sender.successful_requests (Sender.stats Samples.world self')
     + Sender.failed_requests (Sender.stats Samples.world self'))%Z.
Proof.
  apply (send_command_books Samples.world Samples.sample_digest
           Samples.sample_sender 0 Samples.first_clock
           "Print hello world" None None).
  - cbn. lia.
  - cbn. lia.
  - reflexivity.
Defined.

(* ================================================================== *)
(** ** The pattern strategy and its confidence                         *)
(* ================================================================== *)

Section PatternConfidence.

Import Translator TranslatorMore.

Lemma pattern_loop_no_match (ps : list pattern_info) (cl cmd : string) :
  existsb (fun p => match Re.search (p_pattern p) cl with
                    | Some _ => true
                    | None => false
                    end) ps = false ->
  pattern_translate_loop ps cl cmd = Failure "No matching pattern found" cmd.
Proof.
  induction ps as [|p ps IH]; cbn [existsb pattern_translate_loop];
    [reflexivity|].
  destruct (Re.search (p_pattern p) cl); [discriminate|]. exact IH.
Qed.

(** X28.  The three methods of the pattern strategy agree on what a
    match is: [get_confidence] is positive exactly for the commands that
    [can_translate] accepts, and then it lies between 0.8 and 0.95, the
    threshold at which [translate_command] stops looking further; for the
    other commands it is 0.0 and [translate] fails with the text
    [No matching pattern found]. *)
Theorem pattern_confidence_iff_match (ai_command translation : string)
        (ctx : context) :
  if pattern_can_translate ai_command
  then (0.8 <= pattern_get_confidence ai_command translation)%Q /\
       (pattern_get_confidence ai_command translation <= 0.95)%Q
  else pattern_get_confidence ai_command translation = 0.0%Q /\
       pattern_translate ai_command ctx
       = Failure "No matching pattern found" ai_command.
Proof.
  unfold pattern_can_translate, pattern_get_confidence, pattern_translate.
  cbv zeta.
  set (cl := PyStr.strip (PyStr.lower ai_command)).
  set (f := fun p : pattern_info =>
              match Re.search (p_pattern p) cl with
              | Some _ => true
              | None => false
              end).
  destruct (existsb f patterns) eqn:E.
  - destruct (find f patterns) as [p|] eqn:Ef.
    + apply find_some in Ef as [Hin _].
      pose proof patterns_confident as Hall. rewrite Forall_forall in Hall.
      exact (Hall p Hin).
    + apply existsb_exists in E as (p & Hin & Hp).
      pose proof (find_none f patterns Ef p Hin) as Hn. congruence.
  - split.
    + destruct (find f patterns) as [p|] eqn:Ef; [|reflexivity].
      apply find_some in Ef as [Hin Hp].
      assert (existsb f patterns = true)
        by (apply existsb_exists; now exists p).
      congruence.
    + now apply pattern_loop_no_match.
Qed.

End PatternConfidence.

(* ================================================================== *)
(** ** The health status                                               *)
(* ================================================================== *)

Section Health.

Import ErrorHandler.

Lemma comp_get_set_same (k : string) (c : Component)
      (l : list (string * Component)) :
  comp_get k (comp_set k c l) = Some c.
Proof.
  induction l as [|[k' c'] l IH]; cbn [comp_set comp_get].
  - now rewrite String.eqb_refl.
  - destruct (String.eqb k k') eqn:E; cbn [comp_get]; now rewrite E.
Qed.

Lemma comp_get_set_other (k k' : string) (c : Component)
      (l : list (string * Component)) :
  k' <> k -> comp_get k' (comp_set k c l) = comp_get k' l.
Proof.
  intros Hne. induction l as [|[k0 c0] l IH]; cbn [comp_set comp_get].
  - apply String.eqb_neq in Hne. now rewrite Hne.
  - destruct (String.eqb k k0) eqn:E; cbn [comp_get].
    + apply String.eqb_eq in E. subst k0.
      apply String.eqb_neq in Hne. now rewrite Hne.
    + now rewrite IH.
Qed.

Lemma comp_get_among (k : string) (c : Component)
      (l : list (string * Component)) :
  comp_get k l = Some c ->
  among (status c) (map (fun x => status (snd x)) l) = true.
Proof.
  induction l as [|[k' c'] l IH]; cbn [comp_get]; [discriminate|].
  unfold among. cbn [map existsb snd].
  destruct (String.eqb k k').
  - intros [= ->]. now rewrite String.eqb_refl.
  - intros H. apply IH in H. unfold among in H. rewrite H. apply orb_true_r.
Qed.

(** The overall status that the function computes is not healthy when a
    component is not. *)
Lemma overall_unhealthy (h : HealthStatus) (now : Q) (sev : ErrorSeverity)
      (cat : ErrorCategory) :
  some_unhealthy (_update_health_status h now sev cat) ->
  overall (_update_health_status h now sev cat) <> "healthy".
Proof.
  intros (name & c & Hget & Hc).
  unfold _update_health_status in *. cbv zeta in *. cbn [overall components] in *.
  apply comp_get_among in Hget.
  set (statuses := map _ _) in *.
  destruct (among "critical" statuses) eqn:E1; [discriminate|].
  destruct (among "degraded" statuses) eqn:E2; [discriminate|].
  destruct (among "warning" statuses) eqn:E3; [discriminate|].
  exfalso. unfold unhealthy in Hc.
  apply orb_true_iff in Hc as [Hc|Hc];
    [apply orb_true_iff in Hc as [Hc|Hc]|];
    apply String.eqb_eq in Hc; rewrite Hc in Hget; congruence.
Qed.

(** No error makes a component healthy again. *)
Lemma update_keeps_unhealthy (h : HealthStatus) (now : Q) (sev : ErrorSeverity)
      (cat : ErrorCategory) :
  some_unhealthy h -> some_unhealthy (_update_health_status h now sev cat).
Proof.
  intros (name & c & Hget & Hc).
  unfold some_unhealthy, _update_health_status. cbv zeta. cbn [components].
  destruct (String.eqb name (category_value cat)) eqn:E.
  - apply String.eqb_eq in E. subst name. rewrite Hget.
    eexists. eexists. split; [apply comp_get_set_same|]. cbn [status].
    destruct sev; try assumption; try reflexivity;
      destruct (_ <? _)%Z; assumption || reflexivity.
  - apply String.eqb_neq in E. exists name, c. split; [|assumption].
    now rewrite comp_get_set_other.
Qed.

Lemma after_errors_unhealthy (events : list ErrorEvent) (h : HealthStatus) :
  some_unhealthy h -> overall h <> "healthy" ->
  some_unhealthy (after_errors events h) /\
  overall (after_errors events h) <> "healthy".
Proof.
  revert h. induction events as [|e events IH]; intros h Hs Ho; [now split|].
  cbn [after_errors fold_left]. apply IH.
  - now apply update_keeps_unhealthy.
  - apply overall_unhealthy. now apply update_keeps_unhealthy.
Qed.

(** X29.  A critical error makes the overall health status critical, and
    no error that follows makes it healthy again:
    [_update_health_status] assigns the statuses critical, degraded and
    warning only, so that a component that has left the healthy state
    stays out of it. *)
Theorem health_never_recovers (h : HealthStatus) (now : Q)
        (category : ErrorCategory) (later : list ErrorEvent) :
  let h' := _update_health_status h now CRITICAL category in
  overall h' = "critical" /\
  last_check h' = now /\
  overall (after_errors later h') <> "healthy".
Proof.
  cbv zeta.
  assert (Hs : some_unhealthy (_update_health_status h now CRITICAL category)).
  { unfold some_unhealthy, _update_health_status. cbv zeta. cbn [components].
    eexists. eexists. split; [apply comp_get_set_same|reflexivity]. }
  assert (Ho : overall (_update_health_status h now CRITICAL category)
               = "critical").
  { unfold _update_health_status. cbv zeta. cbn [overall].
    rewrite (comp_get_among (category_value category)
               (mkComponent "critical" (Some now) _) _
               (comp_get_set_same _ _ _)).
    reflexivity. }
  split; [assumption|split; [reflexivity|]].
  apply after_errors_unhealthy; [assumption|]. rewrite Ho. discriminate.
Qed.

(** The status does not stay critical, though: the sixth error of a
    component, when its severity is high, overwrites the critical status
    of the component by degraded. *)
Example critical_is_downgraded :
  let errors sev := mkEvent 1700000000%Q sev COMMUNICATION in
  let h := after_errors
             [errors HIGH; errors HIGH; errors HIGH; errors HIGH;
              errors CRITICAL]
             (new_health 1700000000%Q) in
  overall h = "critical" /\
  overall (_update_health_status h 1700000001%Q HIGH COMMUNICATION)
  = "degraded".
Proof. split; reflexivity. Qed.

End Health.

(* ================================================================== *)
(** ** The execution phase of an interaction                           *)
(* ================================================================== *)

Section ExecutionPhase.

Import Integration IntegrationMore.

Variable St : Type.
Variable execute_command : St -> string -> option pydict -> pydict * St.

(** The records of [execute_command]: both have the entry ["success"],
    and the record of a success has the entries that the loop reads. *)
Hypothesis record_entries :
  forall st command context,
    let record := fst (execute_command st command context) in
    dict_get "success" record <> None /\
    (record_ok record = true ->
     dict_get "output" record <> None /\
     dict_get "execution_time" record <> None).

Lemma update_sets_last_command (cm : AIContextManager) (now : Q)
      (command : string) (output execution_time : json) :
  exists d,
    get_context
      (update_context cm now "emulator_state"
         [ ("last_command", JStr command); ("last_output", output);
           ("execution_time", execution_time) ])
      (Some "emulator_state") = JDict d /\
    dict_get "last_command" d = Some (JStr command).
Proof.
  unfold get_context, given. cbn [PyStr.is_empty update_context current_context].
  rewrite ctx_get_set_same. eexists. split; [reflexivity|].
  rewrite dict_update_get; [reflexivity|].
  cbn [map fst]. repeat constructor; cbn [In]; intuition discriminate.
Qed.

Lemma execute_commands_loop (commands : list (string * Q)) (st : St)
      (cm : AIContextManager) (context : pydict) (results : list pydict) :
  let all := run_all St execute_command st (map fst commands) (Some context) in
  let out := _execute_commands St execute_command st cm context commands results in
  fst (fst out) = Ok (results ++ all)%list /\
  match last_ok (map fst commands) all with
  | Some c =>
      exists d, get_context (snd (fst out)) (Some "emulator_state") = JDict d /\
                dict_get "last_command" d = Some (JStr c)
  | None => snd (fst out) = cm
  end.
Proof.
  revert st cm results.
  induction commands as [|[command now] commands IH]; intros st cm results;
    cbv zeta.
  - cbn [_execute_commands map run_all last_ok fst snd].
    now rewrite app_nil_r.
  - cbn [_execute_commands map run_all fst].
    pose proof (record_entries st command (Some context)) as He.
    cbv zeta in He.
    destruct (execute_command st command (Some context)) as [record st1].
    cbn [fst] in He. destruct He as [Hs Hout].
    cbn [last_ok getitem]. unfold record_ok in *.
    destruct (dict_get "success" record) as [ok|]; [|contradiction].
    destruct (truthy ok).
    + destruct (Hout eq_refl) as [Ho Ht].
      destruct (dict_get "output" record) as [output|]; [|contradiction].
      destruct (dict_get "execution_time" record) as [et|]; [|contradiction].
      match goal with
      | |- context [_execute_commands St execute_command st1 ?cm1 context
                      commands ?rs] =>
          specialize (IH st1 cm1 rs); set (cm' := cm1) in *
      end.
      cbv zeta in IH. destruct IH as [IH1 IH2]. split.
      * rewrite IH1, <- app_assoc. reflexivity.
      * destruct (last_ok (map fst commands) _) as [c|]; [exact IH2|].
        rewrite IH2. apply update_sets_last_command.
    + specialize (IH st1 cm (results ++ [record])%list).
      cbv zeta in IH. destruct IH as [IH1 IH2]. split.
      * rewrite IH1, <- app_assoc. reflexivity.
      * destruct (last_ok (map fst commands) _) as [c|]; exact IH2.
Qed.

(** X30.  The execution phase of an interaction, [_execute_commands],
    does not stop at a failure: it answers one record for every command,
    each executed in the state that the one before it leaves.  The
    context manager records the successes only: afterwards
    ["last_command"] of the emulator state is the last command that
    succeeded, and when no command succeeds the context manager is as it
    was. *)
Theorem execution_phase_runs_all (st : St) (cm : AIContextManager)
        (context : pydict) (commands : list (string * Q)) :
  let all := run_all St execute_command st (map fst commands) (Some context) in
  let out := _execute_commands St execute_command st cm context commands [] in
  fst (fst out) = Ok all /\
  List.length all = List.length commands /\
  match last_ok (map fst commands) all with
  | Some c =>
      exists d, get_context (snd (fst out)) (Some "emulator_state") = JDict d /\
                dict_get "last_command" d = Some (JStr c)
  | None => snd (fst out) = cm
  end.
Proof.
  cbv zeta.
  destruct (execute_commands_loop commands st cm context []) as [H1 H2].
  cbn [app] in H1. split; [assumption|split; [|assumption]].
  clear H1 H2. revert st.
  induction commands as [|[command now] commands IH]; intros st;
    cbn [map run_all fst List.length]; [reflexivity|].
  destruct (execute_command st command (Some context)) as [record st1].
  cbn [List.length]. now rewrite IH.
Qed.

End ExecutionPhase.

Lemma execution_phase_runs_all_witness :
  let commands :=
    [("PRINT 1", 1700000001%Q); ("BEEP", 1700000002%Q);
     ("PRINT 2", 1700000003%Q); ("BEEP", 1700000004%Q)] in
  let cm := IntegrationMore.new_context_manager 1000 in
  let all := IntegrationMore.run_all nat IntegrationMore.sample_execute 0
               (map fst commands) (Some []) in
  let out := IntegrationMore._execute_commands nat
               IntegrationMore.sample_execute 0 cm [] commands [] in
  fst (fst out) = Ok all /\
  List.length all = List.length commands /\
  match IntegrationMore.last_ok (map fst commands) all with
  | Some c =>
      exists d,
        IntegrationMore.get_context (snd (fst out)) (Some "emulator_state")
        = JDict d /\
        dict_get "last_command" d = Some (JStr c)
  | None => snd (fst out) = cm
  end.
Proof.
  apply (execution_phase_runs_all nat IntegrationMore.sample_execute
           ltac:(intros st command context; cbv zeta; split;
                 [discriminate|intros _; split; discriminate])
           0 (IntegrationMore.new_context_manager 1000) []
           [("PRINT 1", 1700000001%Q); ("BEEP", 1700000002%Q);
            ("PRINT 2", 1700000003%Q); ("BEEP", 1700000004%Q)]).
Defined.

(** In the run of the witness the last command that succeeded is the
    third one. *)
Example execution_phase_last_command :
  IntegrationMore.last_ok ["PRINT 1"; "BEEP"; "PRINT 2"; "BEEP"]
    (IntegrationMore.run_all nat IntegrationMore.sample_execute 0
       ["PRINT 1"; "BEEP"; "PRINT 2"; "BEEP"] (Some []))
  = Some "PRINT 2".
Proof. reflexivity. Qed.

